(** * Executive Telco dashboard: KPI derivation, query cache and
    presentation components

    A shallow embedding of [main.py] (the dashboard page) and of the parts of
    [utils/design_system.py] it relies on.

    - [Float64]: Python floats (IEEE binary64, round to nearest, ties to even).
    - [Python]: exceptions, [int]/[float] values, truthiness, [x or y] and the
      format specifications used by the f-strings of the page.
    - [Streamlit]: the page as a script that appends elements to a screen and
      may raise, or halt through [st.stop()]; [st.columns]; the two cache
      decorators.
    - [DesignSystem]: the components of [utils/design_system.py].
    - [Main]: the import block with its fallback definitions, the KPI
      derivation, [load_executive_dashboard_data] and the page itself.

    Definitions come first; the lemmas and the theorems about them follow. *)

From Stdlib Require Import ZArith QArith Qround Qabs Qpower Lia Lra Psatz.
From Stdlib Require Import Bool List String Ascii DecimalString.
From Stdlib Require Floats.SpecFloat.
Import ListNotations.

(* ================================================================== *)
(** * Python floats *)
(* ================================================================== *)

Module Float64.

Open Scope Q_scope.

(** Precision of the significand, exponent of the least subnormal and the
    overflow threshold [2 ^ emax] of binary64. *)
Definition prec : Z := 53.
Definition emin : Z := -1074.
Definition emax : Z := 1024.

Definition pow2 (k : Z) : Q := 2 ^ k.

(** [floor (log2 q)] for a positive rational [q]. *)
Definition Qlog2 (q : Q) : Z :=
  let k := (Z.log2 (Qnum q) - Z.log2 (Zpos (Qden q)))%Z in
  if Qle_bool (pow2 k) q then k else (k - 1)%Z.

(** Nearest integer, ties to the even one. *)
Definition rne (q : Q) : Z :=
  let f := Qfloor q in
  match Qcompare (q - inject_Z f) (1 # 2) with
  | Lt => f
  | Gt => (f + 1)%Z
  | Eq => if Z.even f then f else (f + 1)%Z
  end.

(** Exponent of the unit in the last place of the binade of [q]
    (subnormals share [emin]). *)
Definition cexp (q : Q) : Z := Z.max (Qlog2 q - (prec - 1)) emin.

(** The binary64 number nearest to a non-negative rational, exponent range
    unbounded above. *)
Definition round64 (q : Q) : Q :=
  inject_Z (rne (q / pow2 (cexp q))) * pow2 (cexp q).

(** A magnitude whose rounding reaches [2 ^ 1024] has no finite binary64. *)
Definition overflows (q : Q) : bool := Qle_bool (pow2 emax) (round64 q).

(** A float is a sign and a magnitude, an infinity or a NaN; [Fin true 0] is
    the negative zero.  The magnitude is the exact value, a rational: the
    conversions and the operations below round what they return, so that
    the floats they build are binary64 numbers. *)
Inductive float : Type :=
| Fin (neg : bool) (mag : Q)
| Inf (neg : bool)
| NaN.

Definition signed (neg : bool) (mag : Q) : Q := if neg then - mag else mag.

Definition is_zero (q : Q) : bool := Qeq_bool q 0.

(** The nearest float of an exact magnitude, infinite on overflow. *)
Definition of_magnitude (neg : bool) (q : Q) : float :=
  if overflows q then Inf neg else Fin neg (round64 q).

Definition mul (x y : float) : float :=
  match x, y with
  | NaN, _ | _, NaN => NaN
  | Fin s a, Fin t b => of_magnitude (xorb s t) (a * b)
  | Inf s, Fin t b | Fin t b, Inf s => if is_zero b then NaN else Inf (xorb s t)
  | Inf s, Inf t => Inf (xorb s t)
  end.

Definition add (x y : float) : float :=
  match x, y with
  | NaN, _ | _, NaN => NaN
  | Fin s a, Fin t b =>
      let v := signed s a + signed t b in
      if is_zero v then Fin (s && t) 0
      else of_magnitude (negb (Qle_bool 0 v)) (Qabs v)
  | Inf s, Fin _ _ | Fin _ _, Inf s => Inf s
  | Inf s, Inf t => if Bool.eqb s t then Inf s else NaN
  end.

(** [x < y]: false as soon as one side is a NaN; the two zeros are equal. *)
Definition ltb (x y : float) : bool :=
  match x, y with
  | NaN, _ | _, NaN => false
  | Fin s a, Fin t b => negb (Qle_bool (signed t b) (signed s a))
  | Fin _ _, Inf t => negb t
  | Inf s, Fin _ _ => s
  | Inf s, Inf t => s && negb t
  end.

Definition gtb (x y : float) : bool := ltb y x.
Definition leb (x y : float) : bool :=
  match x, y with
  | NaN, _ | _, NaN => false
  | _, _ => negb (ltb y x)
  end.

(** A decimal literal of the source, such as [0.8]: the nearest float. *)
Definition literal (q : Q) : float :=
  of_magnitude (negb (Qle_bool 0 q)) (Qabs q).

(** The floats of the Standard Library's specification of IEEE 754
    ([SpecFloat], at precision 53 and [emax] 1024) read as floats of this
    module, to compare the operations of both on samples. *)
Definition of_spec_float (x : SpecFloat.spec_float) : float :=
  match x with
  | SpecFloat.S754_zero s => Fin s 0
  | SpecFloat.S754_infinity s => Inf s
  | SpecFloat.S754_nan => NaN
  | SpecFloat.S754_finite s m e => Fin s (inject_Z (Zpos m) * pow2 e)
  end.

Definition spec_of_int (n : Z) : SpecFloat.spec_float :=
  match n with
  | Z0 => SpecFloat.S754_zero false
  | Zpos p => SpecFloat.S754_finite false p 0
  | Zneg p => SpecFloat.S754_finite true p 0
  end.

Definition same_float (x y : float) : bool :=
  match x, y with
  | Fin s a, Fin t b => Bool.eqb s t && Qeq_bool a b
  | Inf s, Inf t => Bool.eqb s t
  | NaN, NaN => true
  | _, _ => false
  end.

End Float64.

(* ================================================================== *)
(** * Python values, exceptions and string formatting *)
(* ================================================================== *)

Module Python.

Import Float64.

(** The exception classes the page can meet.  [CollaboratorError] stands for
    whatever the warehouse connector raises ([Exception] subclasses). *)
Inductive exn_class : Type :=
| ZeroDivisionError
| OverflowError
| ImportError
| NameError
| KeyError
| TypeError
| StreamlitAPIException
| CollaboratorError.

Record exn : Type := Exn { exn_type : exn_class; exn_msg : string }.

(** How a computation ends: a value, an exception on its way up, or the
    script-control signal of [st.stop()], which is not an [Exception] and
    passes through [except Exception]. *)
Inductive outcome (A : Type) : Type :=
| Ret (a : A)
| Raised (e : exn)
| Stopped.

Arguments Ret {A} a.
Arguments Raised {A} e.
Arguments Stopped {A}.

Definition obind {A B : Type} (m : outcome A) (k : A -> outcome B) : outcome B :=
  match m with
  | Ret a => k a
  | Raised e => Raised e
  | Stopped => Stopped
  end.

Declare Scope outcome_scope.
Delimit Scope outcome_scope with outcome.
Notation "x <- m ;; k" := (obind m (fun x => k))
  (at level 61, m at next level, right associativity) : outcome_scope.

(** A number is an [int] (unbounded) or a [float]. *)
Inductive number : Type :=
| PInt (n : Z)
| PFloat (f : float).

(** ** Truthiness and [or] *)

Definition float_truthy (f : float) : bool :=
  match f with
  | Fin _ a => negb (is_zero a)
  | Inf _ | NaN => true
  end.

(** [x or d] for a nullable integer column. *)
Definition int_or (x : option Z) (d : Z) : Z :=
  match x with
  | Some n => if (n =? 0)%Z then d else n
  | None => d
  end.

(** [x or d] for a nullable float column and an integer default. *)
Definition float_or (x : option float) (d : Z) : number :=
  match x with
  | Some f => if float_truthy f then PFloat f else PInt d
  | None => PInt d
  end.

(** ** Arithmetic *)

(** [float(n)]: correctly rounded, [OverflowError] beyond the float range. *)
Definition float_of_int (n : Z) : outcome float :=
  let a := inject_Z (Z.abs n) in
  if overflows a
  then Raised (Exn OverflowError "int too large to convert to float")
  else Ret (Fin (n <? 0)%Z (round64 a)).

Definition to_float (x : number) : outcome float :=
  match x with
  | PInt n => float_of_int n
  | PFloat f => Ret f
  end.

(** [n / d] on two ints: the correctly rounded quotient. *)
Definition int_truediv (n d : Z) : outcome float :=
  if (d =? 0)%Z then Raised (Exn ZeroDivisionError "division by zero")
  else
    let q := Qmake (Z.abs n) (Z.to_pos (Z.abs d)) in
    if overflows q
    then Raised (Exn OverflowError "integer division result too large for a float")
    else Ret (Fin (xorb (n <? 0)%Z (d <? 0)%Z) (round64 q)).

(** [x * y] and [x + y] with a float on one side at least: the other side
    is converted first. *)
Definition float_mul (x y : number) : outcome float :=
  (a <- to_float x ;; b <- to_float y ;; Ret (mul a b))%outcome.

Definition float_add (x y : number) : outcome float :=
  (a <- to_float x ;; b <- to_float y ;; Ret (add a b))%outcome.

Definition py_mul (x y : number) : outcome number :=
  match x, y with
  | PInt a, PInt b => Ret (PInt (a * b))
  | _, _ => (f <- float_mul x y ;; Ret (PFloat f))%outcome
  end.

Definition py_add (x y : number) : outcome number :=
  match x, y with
  | PInt a, PInt b => Ret (PInt (a + b))
  | _, _ => (f <- float_add x y ;; Ret (PFloat f))%outcome
  end.

(** ** Format specifications *)

Local Open Scope string_scope.

(** [str(n)] for an int. *)
Definition str_int (n : Z) : string := NilZero.string_of_int (Z.to_int n).

Fixpoint zero_pad (width : nat) (s : string) : string :=
  match width with
  | O => s
  | S w => if (String.length s <? S w)%nat then zero_pad w ("0" ++ s) else s
  end.

(** The digits of a non-negative magnitude with [d] decimals; the exact value
    is rounded to the nearest multiple of [10 ^ -d], ties to even. *)
Definition fixed_digits (d : nat) (a : Q) : string :=
  let scale := (10 ^ Z.of_nat d)%Z in
  let n := rne (a * inject_Z scale) in
  let int_part := str_int (n / scale) in
  match d with
  | O => int_part
  | S _ => int_part ++ "." ++ zero_pad d (str_int (n mod scale))
  end.

(** [format(f, '.<d>f')] for a float. *)
Definition format_float_fixed (d : nat) (f : float) : string :=
  match f with
  | NaN => "nan"
  | Inf s => if s then "-inf" else "inf"
  | Fin s a => (if s then "-" else "") ++ fixed_digits d a
  end.

(** [format(x, '.<d>f')]: an int is converted to a float first. *)
Definition format_fixed (d : nat) (x : number) : outcome string :=
  (f <- to_float x ;; Ret (format_float_fixed d f))%outcome.

(** Commas between groups of three digits, from the right. *)
Fixpoint group_thousands (s : string) : string :=
  match s with
  | EmptyString => EmptyString
  | String c rest =>
      let n := String.length rest in
      String c (if (0 <? n)%nat && (n mod 3 =? 0)%nat
                then "," ++ group_thousands rest
                else group_thousands rest)
  end.

(** [format(n, ',')] for an int. *)
Definition format_thousands (n : Z) : string :=
  (if (n <? 0)%Z then "-" else "") ++ group_thousands (str_int (Z.abs n)).

End Python.

(* ================================================================== *)
(** * The warehouse rows and the KPI mapping *)
(* ================================================================== *)

Module Warehouse.

Import Float64.

(** The single row of the network query of [load_executive_dashboard_data]:
    counts arrive as ints, averages and sums as floats, every column may be
    NULL. *)
Record network_row : Type := NetworkRow {
  TOTAL_TOWERS : option Z;
  AVG_SUCCESS_RATE : option float;
  CRITICAL_ISSUES : option Z;
  AVG_DL_UTILIZATION : option float;
  TOTAL_THROUGHPUT : option float;
  PREMIUM_TOWERS : option Z
}.

(** The single row of the support-ticket query. *)
Record customer_row : Type := CustomerRow {
  TOTAL_TICKETS : option Z;
  AVG_SENTIMENT : option float;
  CRITICAL_TICKETS : option Z;
  UNIQUE_CUSTOMERS : option Z;
  SATISFIED_CUSTOMERS : option Z
}.

(** One entry of [exec_kpis]: [{"value": ..., "trend": ..., "icon": ...}]. *)
Record kpi : Type := Kpi { value : string; trend : Q; icon : string }.

(** A dict keeps insertion order: an association list. *)
Definition kpis : Type := list (string * kpi).

(** What [load_executive_dashboard_data] returns: three values, each of them
    possibly [None]. *)
Definition dashboard_data : Type :=
  (option kpis * option network_row * option customer_row)%type.

Definition unavailable : dashboard_data := (None, None, None).

End Warehouse.

(* ================================================================== *)
(** * Streamlit: screen, script control, columns and caches *)
(* ================================================================== *)

Module Streamlit.

Import Python Warehouse.

Inductive alert_kind : Type := AlertInfo | AlertSuccess | AlertWarning | AlertError.

(** What a script run puts on the screen, in order.  [Html c fields] is a
    [st.markdown(..., unsafe_allow_html=True)] call: the markup of component
    [c] with the values interpolated into it. *)
Inductive element : Type :=
| PageConfig (page_title : string)
| Markdown (body : string)
| Html (component : string) (fields : list string)
| Alert (kind : alert_kind) (msg : string)
| StWrite (body : string)
| Metric (label val : string)
| Columns (weights : list nat)
| Button (label : string)
| ProgressBar (current_step total_steps : Z) (width_percent : Float64.float)
              (step_name : string)
| InColumn (index : nat) (e : element).

(** The handle [get_active_session()] returns. *)
Inductive session : Type := ActiveSession.

(** What a collaborator answers to one call. *)
Inductive reply (A : Type) : Type :=
| Answers (a : A)
| Fails (e : exn).

Arguments Answers {A} a.
Arguments Fails {A} e.

(** Everything outside the script that one run of the page depends on: the
    clock (seconds), the collaborators' answers and the two buttons. *)
Record request : Type := Request {
  now : Z;
  active_session : reply session;
  network_answer : reply (list network_row);
  customer_answer : reply (list customer_row);
  strategic_report_clicked : bool;
  risk_assessment_clicked : bool
}.

(** An entry of [st.cache_data]: the returned value and the elements the
    function drew, which a hit replays. *)
Record cache_entry : Type := CacheEntry {
  stored_at : Z;
  cached_value : dashboard_data;
  cached_elements : list element
}.

(** The state a script run works on.  [screen] and [executed] (the SQL
    statements sent to the warehouse) start empty on each run; the two caches
    live as long as the process. *)
Record state : Type := State {
  screen : list element;
  executed : list string;
  resource_cache : option session;
  data_cache : option cache_entry
}.

Definition script (A : Type) : Type := state -> outcome A * state.

Definition ret {A : Type} (a : A) : script A := fun st => (Ret a, st).

Definition bind {A B : Type} (m : script A) (k : A -> script B) : script B :=
  fun st =>
    match m st with
    | (Ret a, st') => k a st'
    | (Raised e, st') => (Raised e, st')
    | (Stopped, st') => (Stopped, st')
    end.

Declare Scope script_scope.
Delimit Scope script_scope with script.
Notation "x <- m ;; k" := (bind m (fun x => k))
  (at level 61, m at next level, right associativity) : script_scope.
Notation "m ;; k" := (bind m (fun _ => k))
  (at level 61, right associativity) : script_scope.

Definition lift {A : Type} (o : outcome A) : script A := fun st => (o, st).

Definition raise {A : Type} (e : exn) : script A := lift (Raised e).

(** [st.stop()]. *)
Definition stop {A : Type} : script A := lift Stopped.

Definition with_screen (st : state) (s : list element) : state :=
  State s (executed st) (resource_cache st) (data_cache st).

Definition emit (e : element) : script unit :=
  fun st => (Ret tt, with_screen st (screen st ++ [e])).

(** [try: body / except Exception as e: handler e]. *)
Definition try_except {A : Type} (body : script A) (handler : exn -> script A)
  : script A :=
  fun st =>
    match body st with
    | (Raised e, st') => handler e st'
    | other => other
    end.

(** [with cols[i]: body]: what [body] draws lands in column [i]. *)
Definition within_column {A : Type} (i : nat) (body : script A) : script A :=
  fun st =>
    let '(o, st') := body (with_screen st []) in
    (o, with_screen st' (screen st ++ map (InColumn i) (screen st'))).

(** [st.columns(spec)] for a list of weights: the number of columns;
    [StreamlitAPIException] on an empty list or a weight that is not
    positive. *)
Definition st_columns_spec (weights : list nat) : script nat :=
  if (Nat.eqb (List.length weights) 0 || existsb (Nat.eqb 0) weights)%bool
  then raise (Exn StreamlitAPIException
                "The input argument to st.columns must be either a positive integer or a list of positive numeric weights.")
  else (emit (Columns weights) ;; ret (List.length weights))%script.

(** [st.columns(n)] for an int: [n] columns of equal weight. *)
Definition st_columns (n : nat) : script nat := st_columns_spec (repeat 1%nat n).

(** [st.button(label)]: drawn, and true on the run its click triggers. *)
Definition st_button (label : string) (clicked : bool) : script bool :=
  (emit (Button label) ;; ret clicked)%script.

(** [session.sql(query).collect()]: the statement reaches the warehouse and
    its answer, rows or an exception, comes back. *)
Definition collect {A : Type} (query : string) (answer : reply A) : script A :=
  fun st =>
    let st' := State (screen st) (executed st ++ [query])
                     (resource_cache st) (data_cache st) in
    match answer with
    | Answers rows => (Ret rows, st')
    | Fails e => (Raised e, st')
    end.

(** [@st.cache_resource] on a function without arguments: the first value
    returned is kept for the life of the process; a call that raises or
    stops stores nothing. *)
Definition cache_resource (f : script session) : script session :=
  fun st =>
    match resource_cache st with
    | Some s => (Ret s, st)
    | None =>
        match f st with
        | (Ret s, st') =>
            (Ret s, State (screen st') (executed st') (Some s) (data_cache st'))
        | other => other
        end
    end.

Definition live (ttl now : Z) (slot : option cache_entry) : option cache_entry :=
  match slot with
  | Some e => if (now <? stored_at e + ttl)%Z then Some e else None
  | None => None
  end.

(** [@st.cache_data(ttl=...)] on a function without arguments: one slot.  A
    live entry is returned without running the function, its elements
    replayed; otherwise the function runs and whatever it returns is stored
    with the time of the call.  A call that raises stores nothing. *)
Definition cache_data (ttl now : Z) (f : script dashboard_data)
  : script dashboard_data :=
  fun st =>
    match live ttl now (data_cache st) with
    | Some e =>
        (Ret (cached_value e),
         with_screen st (screen st ++ cached_elements e))
    | None =>
        let '(o, st') := f (with_screen st []) in
        let drawn := screen st' in
        let slot :=
          match o with
          | Ret v => Some (CacheEntry now v drawn)
          | _ => None
          end in
        (o, State (screen st ++ drawn) (executed st') (resource_cache st') slot)
    end.

End Streamlit.

(* ================================================================== *)
(** * Names and the objects bound to them *)
(* ================================================================== *)

Module Namespace.

Import Python Warehouse Streamlit.

Local Open Scope string_scope.

(** The dict [create_executive_demo_controller] returns. *)
Record demo_state : Type := DemoState {
  current_scenario : string;
  demo_active : bool
}.

(** A dict from strings to strings; [dict_get] is [d.get(key, default)]. *)
Definition dict : Type := list (string * string).

Fixpoint dict_get (d : dict) (key default : string) : string :=
  match d with
  | [] => default
  | (k, v) :: rest => if String.eqb k key then v else dict_get rest key default
  end.

(** The objects a module-level name of the page can be bound to: a function,
    by the shape of its parameters, or something the page never calls. *)
Inductive pyobject : Type :=
| FnRender (f : script unit)
| FnText (f : string -> script unit)
| FnText2 (f : string -> string -> script unit)
| FnHeader (f : string -> string -> string -> script unit)
| FnSession (f : reply session -> script session)
| FnInsights (f : string -> string -> Float64.float -> string -> script unit)
| FnRecommendations (f : list string -> string -> script unit)
| FnMetrics (f : dict -> script unit)
| FnDashboard (f : kpis -> script unit)
| FnNavigation (f : list dict -> script unit)
| FnSummary (f : string -> string -> option dict -> string -> script unit)
| FnDemo (f : unit -> demo_state)
| FnProgress (f : Z -> Z -> string -> script unit)
| Unmodelled.

Definition namespace : Type := list (string * pyobject).

(** The latest binding of a name wins. *)
Fixpoint lookup (ns : namespace) (name : string) : option pyobject :=
  match ns with
  | [] => None
  | (k, v) :: rest => if String.eqb k name then Some v else lookup rest name
  end.

Definition assign (ns : namespace) (name : string) (v : pyobject) : namespace :=
  (name, v) :: ns.

(** [from module import n1, n2, ...]: the names are bound one after the
    other; the first one the module lacks raises [ImportError], the names
    before it stay bound. *)
Fixpoint import_from (module_name : string) (exports : namespace)
         (names : list string) (ns : namespace) : option exn * namespace :=
  match names with
  | [] => (None, ns)
  | n :: rest =>
      match lookup exports n with
      | Some v => import_from module_name exports rest (assign ns n v)
      | None =>
          (Some (Exn ImportError
                     ("cannot import name '" ++ n ++ "' from '" ++ module_name ++ "'")),
           ns)
      end
  end.

(** A name of the page evaluated at a call site. *)
Definition resolve (ns : namespace) (name : string) : script pyobject :=
  match lookup ns name with
  | Some v => ret v
  | None => raise (Exn NameError ("name '" ++ name ++ "' is not defined"))
  end.

(** [for i, x in enumerate(xs, start): body]. *)
Fixpoint for_enumerate {A : Type} (start : nat) (xs : list A)
         (body : nat -> A -> script unit) : script unit :=
  match xs with
  | [] => ret tt
  | x :: rest => (body start x ;; for_enumerate (S start) rest body)%script
  end.

(** [s.replace('\\n', '\n')]: a backslash followed by [n] becomes a line
    feed. *)
Fixpoint unescape_newlines (s : string) : string :=
  match s with
  | String "\"%char (String "n"%char rest) => String "010"%char (unescape_newlines rest)
  | String c rest => String c (unescape_newlines rest)
  | EmptyString => EmptyString
  end.

(** [s.replace('_', ' ')]. *)
Fixpoint underscores_to_spaces (s : string) : string :=
  match s with
  | String c rest =>
      String (if Ascii.eqb c "_"%char then " "%char else c) (underscores_to_spaces rest)
  | EmptyString => EmptyString
  end.

Definition is_lower (c : ascii) : bool :=
  (97 <=? nat_of_ascii c)%nat && (nat_of_ascii c <=? 122)%nat.
Definition is_upper (c : ascii) : bool :=
  (65 <=? nat_of_ascii c)%nat && (nat_of_ascii c <=? 90)%nat.
Definition to_upper (c : ascii) : ascii :=
  if is_lower c then ascii_of_nat (nat_of_ascii c - 32) else c.
Definition to_lower (c : ascii) : ascii :=
  if is_upper c then ascii_of_nat (nat_of_ascii c + 32) else c.

(** [s.title()] on ASCII text: a letter after a letter is lowered, any other
    letter is raised. *)
Fixpoint title_from (after_letter : bool) (s : string) : string :=
  match s with
  | String c rest =>
      let letter := is_lower c || is_upper c in
      String (if letter then (if after_letter then to_lower c else to_upper c) else c)
             (title_from letter rest)
  | EmptyString => EmptyString
  end.

Definition str_title (s : string) : string := title_from false s.

End Namespace.

(* ================================================================== *)
(** * utils/design_system.py *)
(* ================================================================== *)

Module DesignSystem.

Import Python Warehouse Streamlit Namespace.

Local Open Scope string_scope.

Definition inject_custom_css : script unit := emit (Html "custom-css" []).

Definition create_page_header (title description icon : string) : script unit :=
  emit (Html "app-header" [icon; title; description]).

(** The icon of a box type, the information sign for any other one. *)
Definition info_box_icon (box_type : string) : string :=
  dict_get [("info", "ℹ️"); ("success", "✅"); ("warning", "⚠️"); ("error", "❌")]
           box_type "ℹ️".

Definition create_info_box (message box_type : string) : script unit :=
  emit (Html "info-box" [box_type; info_box_icon box_type; message]).

(** [get_snowflake_session], under [@st.cache_resource]: the active session,
    or an error box followed by [st.stop()]. *)
Definition get_snowflake_session (active : reply session) : script session :=
  cache_resource
    (try_except
       (match active with
        | Answers s => ret s
        | Fails e => raise e
        end)
       (fun e =>
          (create_info_box ("Failed to connect to Snowflake: " ++ exn_msg e) "error" ;;
           stop)%script)).

Definition create_sidebar_navigation : script unit :=
  emit (Html "sidebar-navigation" []).

Definition add_page_footer : script unit :=
  (emit (Html "line-breaks" []) ;;
   emit (Markdown "---") ;;
   emit (Html "page-footer" []))%script.

Definition create_ai_chat_interface : script unit :=
  emit (Html "ai-chat-style" []).

Definition threshold_high : Float64.float := Float64.literal (8 # 10).
Definition threshold_medium : Float64.float := Float64.literal (6 # 10).

Definition confidence_color (confidence : Float64.float) : string :=
  if Float64.gtb confidence threshold_high then "#4caf50"
  else if Float64.gtb confidence threshold_medium then "#ff9800"
  else "#f44336".

Definition confidence_text (confidence : Float64.float) : string :=
  if Float64.gtb confidence threshold_high then "High"
  else if Float64.gtb confidence threshold_medium then "Medium"
  else "Low".

Definition create_ai_insights_card (title insight : string)
           (confidence : Float64.float) (icon : string) : script unit :=
  emit (Html "ai-insights-card"
             [icon; title; confidence_color confidence;
              confidence_text confidence ++ " Confidence"; insight]).

Definition create_ai_loading_spinner (message : string) : script unit :=
  emit (Html "ai-loading-spinner" [message]).

(** The markup of the numbered items, as the values interpolated into it. *)
Fixpoint recommendation_items (i : nat) (recs : list string) : list string :=
  match recs with
  | [] => []
  | rec :: rest => str_int (Z.of_nat i) :: rec :: recommendation_items (S i) rest
  end.

Definition create_ai_recommendation_list (recommendations : list string)
           (title : string) : script unit :=
  match recommendations with
  | [] => ret tt
  | _ => emit (Html "ai-recommendation-list"
                    (title :: recommendation_items 1 recommendations))
  end.

Definition metric_icons : list string :=
  ["🎯"; "📊"; "⚡"; "🚀"; "🔍"; "💡"; "🎪"; "🌟"].

Definition create_ai_metrics_dashboard (metrics : dict) : script unit :=
  match metrics with
  | [] => ret tt
  | _ =>
      (cols <- st_columns (Nat.min 4 (List.length metrics)) ;;
       for_enumerate 0 metrics (fun i '(metric, val) =>
         within_column (i mod cols)
           (emit (Html "ai-metric-tile"
                       [nth (i mod List.length metric_icons) metric_icons "";
                        val; metric]))))%script
  end.

(** [progress = (current_step - 1) / total_steps], drawn as a bar of width
    [progress * 100] percent. *)
Definition create_ai_progress_tracker (current_step total_steps : Z)
           (step_name : string) : script unit :=
  (progress <- lift (int_truediv (current_step - 1) total_steps) ;;
   width <- lift (float_mul (PFloat progress) (PInt 100)) ;;
   emit (ProgressBar current_step total_steps width step_name))%script.

(** The module's top-level names: the imports, the three classes and the
    functions, each bound to its object. *)
Definition exports : namespace :=
  [ ("st", Unmodelled); ("px", Unmodelled); ("go", Unmodelled);
    ("pd", Unmodelled); ("datetime", Unmodelled); ("time", Unmodelled);
    ("Colors", Unmodelled); ("Typography", Unmodelled); ("Spacing", Unmodelled);
    ("inject_custom_css", FnRender inject_custom_css);
    ("create_page_header", FnHeader create_page_header);
    ("create_metric_card", Unmodelled);
    ("create_info_box", FnText2 create_info_box);
    ("show_loading_state", Unmodelled);
    ("create_status_indicator", Unmodelled);
    ("create_section_header", Unmodelled);
    ("get_professional_chart_layout", Unmodelled);
    ("style_plotly_chart", Unmodelled);
    ("create_professional_metric_charts", Unmodelled);
    ("get_snowflake_session", FnSession get_snowflake_session);
    ("execute_query_with_loading", Unmodelled);
    ("create_metric_grid", Unmodelled);
    ("create_sidebar_navigation", FnRender create_sidebar_navigation);
    ("add_page_footer", FnRender add_page_footer);
    ("create_ai_chat_interface", FnRender create_ai_chat_interface);
    ("create_ai_insights_card", FnInsights create_ai_insights_card);
    ("create_ai_loading_spinner", FnText create_ai_loading_spinner);
    ("create_ai_recommendation_list", FnRecommendations create_ai_recommendation_list);
    ("create_ai_metrics_dashboard", FnMetrics create_ai_metrics_dashboard);
    ("create_ai_progress_tracker", FnProgress create_ai_progress_tracker);
    ("create_model_selector", Unmodelled);
    ("format_ai_response", Unmodelled);
    ("create_ai_metric_card", Unmodelled) ].

End DesignSystem.

(* ================================================================== *)
(** * main.py *)
(* ================================================================== *)

Module Main.

Import Python Warehouse Streamlit Namespace.

Local Open Scope string_scope.

(** ** The fallback definitions of the [except ImportError] branch *)

(** [insight.replace('\\n', '\n') if '\\n' in insight else insight]: the
    replacement leaves a text without the two characters as it is. *)
Definition create_ai_insights_card (title insight : string)
           (confidence : Float64.float) (icon : string) : script unit :=
  (emit (Markdown ("### " ++ icon ++ " " ++ title)) ;;
   emit (Alert AlertInfo (unescape_newlines insight)))%script.

Definition create_ai_metrics_dashboard (metrics : dict) : script unit :=
  (cols <- st_columns (List.length metrics) ;;
   for_enumerate 0 metrics (fun i '(key, val) =>
     within_column (i mod cols) (emit (Metric key val))))%script.

Definition format_ai_response (response title : string) : script unit :=
  (emit (Markdown ("### " ++ title)) ;;
   emit (StWrite (unescape_newlines response)))%script.

Definition create_ai_loading_spinner (message : string) : script unit :=
  emit (Alert AlertInfo ("🤖 " ++ message)).

Definition create_ai_recommendation_list (recommendations : list string)
           (title : string) : script unit :=
  (emit (Markdown ("### " ++ title)) ;;
   for_enumerate 1 recommendations (fun i rec =>
     emit (Markdown (str_int (Z.of_nat i) ++ ". " ++ rec))))%script.

Definition create_executive_dashboard (k : kpis) : script unit :=
  (cols <- st_columns (Nat.min 4 (List.length k)) ;;
   for_enumerate 0 k (fun i '(kpi_name, kpi_data) =>
     within_column (i mod cols) (emit (Metric kpi_name (value kpi_data)))))%script.

Definition create_executive_navigation_grid (nav_items : list dict) : script unit :=
  (cols <- st_columns 3 ;;
   for_enumerate 0 nav_items (fun i item =>
     within_column (i mod 3)
       (emit (Markdown ("### " ++ dict_get item "icon" "📊" ++ " "
                               ++ dict_get item "title" "Item")) ;;
        emit (Markdown (dict_get item "description" "")) ;;
        emit (Alert AlertInfo (dict_get item "badge" "Available")))))%script.

(** [if metrics:] holds for a dict that is neither [None] nor empty. *)
Definition create_executive_summary_card (title content : string)
           (metrics : option dict) (icon : string) : script unit :=
  (emit (Markdown ("### " ++ icon ++ " " ++ title)) ;;
   emit (Markdown content) ;;
   match metrics with
   | Some ((_ :: _) as m) =>
       cols <- st_columns (List.length m) ;;
       for_enumerate 0 m (fun i '(key, val) =>
         within_column (i mod cols) (emit (Metric key val)))
   | _ => ret tt
   end)%script.

Definition create_executive_alert_banner (message alert_type : string) : script unit :=
  if String.eqb alert_type "success" then emit (Alert AlertSuccess message)
  else if String.eqb alert_type "warning" then emit (Alert AlertWarning message)
  else if String.eqb alert_type "error" then emit (Alert AlertError message)
  else emit (Alert AlertInfo message).

Definition create_executive_demo_controller (_ : unit) : demo_state :=
  DemoState "baseline" false.

(** ** The import block, lines 17 to 85 *)

Definition first_import : list string :=
  [ "inject_custom_css"; "create_page_header"; "create_metric_card";
    "create_info_box"; "get_snowflake_session"; "create_metric_grid";
    "create_sidebar_navigation"; "add_page_footer"; "execute_query_with_loading";
    "create_ai_insights_card"; "create_ai_metrics_dashboard"; "format_ai_response";
    "create_ai_loading_spinner"; "create_ai_recommendation_list";
    "create_executive_dashboard"; "create_executive_navigation_grid";
    "create_executive_summary_card"; "create_executive_alert_banner";
    "create_executive_demo_controller" ].

Definition fallback_import : list string :=
  [ "inject_custom_css"; "create_page_header"; "create_metric_card";
    "create_info_box"; "get_snowflake_session"; "create_metric_grid";
    "create_sidebar_navigation"; "add_page_footer"; "execute_query_with_loading" ].

(** The ten [def]s of the [except] branch, in order. *)
Definition fallback_definitions : namespace :=
  [ ("create_ai_insights_card", FnInsights create_ai_insights_card);
    ("create_ai_metrics_dashboard", FnMetrics create_ai_metrics_dashboard);
    ("format_ai_response", FnText2 format_ai_response);
    ("create_ai_loading_spinner", FnText create_ai_loading_spinner);
    ("create_ai_recommendation_list", FnRecommendations create_ai_recommendation_list);
    ("create_executive_dashboard", FnDashboard create_executive_dashboard);
    ("create_executive_navigation_grid", FnNavigation create_executive_navigation_grid);
    ("create_executive_summary_card", FnSummary create_executive_summary_card);
    ("create_executive_alert_banner", FnText2 create_executive_alert_banner);
    ("create_executive_demo_controller", FnDemo create_executive_demo_controller) ].

Definition define (ns : namespace) (defs : namespace) : namespace :=
  fold_left (fun acc '(name, v) => assign acc name v) defs ns.

(** [try: from utils.design_system import (...)  except ImportError: ...] *)
Definition import_block : outcome namespace :=
  match import_from "utils.design_system" DesignSystem.exports first_import [] with
  | (None, ns) => Ret ns
  | (Some e, ns) =>
      match exn_type e with
      | ImportError =>
          match import_from "utils.design_system" DesignSystem.exports
                            fallback_import ns with
          | (None, ns') => Ret (define ns' fallback_definitions)
          | (Some e', _) => Raised e'
          end
      | _ => Raised e
      end
  end.

(** ** Calls through the names of the module *)

Definition not_callable {A : Type} (name : string) : script A :=
  raise (Exn TypeError ("'" ++ name ++ "' cannot be called this way")).

Definition call_render (ns : namespace) (name : string) : script unit :=
  (o <- resolve ns name ;;
   match o with FnRender f => f | _ => not_callable name end)%script.

Definition call_text (ns : namespace) (name a : string) : script unit :=
  (o <- resolve ns name ;;
   match o with FnText f => f a | _ => not_callable name end)%script.

Definition call_text2 (ns : namespace) (name a b : string) : script unit :=
  (o <- resolve ns name ;;
   match o with FnText2 f => f a b | _ => not_callable name end)%script.

Definition call_header (ns : namespace) (name a b c : string) : script unit :=
  (o <- resolve ns name ;;
   match o with FnHeader f => f a b c | _ => not_callable name end)%script.

Definition call_session (ns : namespace) (name : string) (active : reply session)
  : script session :=
  (o <- resolve ns name ;;
   match o with FnSession f => f active | _ => not_callable name end)%script.

Definition call_insights (ns : namespace) (name title insight : string)
           (confidence : Float64.float) (icon : string) : script unit :=
  (o <- resolve ns name ;;
   match o with
   | FnInsights f => f title insight confidence icon
   | _ => not_callable name
   end)%script.

Definition call_recommendations (ns : namespace) (name : string)
           (recs : list string) (title : string) : script unit :=
  (o <- resolve ns name ;;
   match o with FnRecommendations f => f recs title | _ => not_callable name end)%script.

Definition call_dashboard (ns : namespace) (name : string) (k : kpis) : script unit :=
  (o <- resolve ns name ;;
   match o with FnDashboard f => f k | _ => not_callable name end)%script.

Definition call_navigation (ns : namespace) (name : string) (items : list dict)
  : script unit :=
  (o <- resolve ns name ;;
   match o with FnNavigation f => f items | _ => not_callable name end)%script.

Definition call_summary (ns : namespace) (name title content : string)
           (metrics : option dict) (icon : string) : script unit :=
  (o <- resolve ns name ;;
   match o with
   | FnSummary f => f title content metrics icon
   | _ => not_callable name
   end)%script.

Definition call_demo (ns : namespace) (name : string) : script demo_state :=
  (o <- resolve ns name ;;
   match o with FnDemo f => ret (f tt) | _ => not_callable name end)%script.

(** ** KPI derivation, lines 183 to 214 *)

(** [f"{(net_metrics['AVG_SUCCESS_RATE'] or 0) * 100:.1f}%"] *)
Definition network_uptime (net : network_row) : outcome string :=
  (v <- py_mul (float_or (AVG_SUCCESS_RATE net) 0) (PInt 100) ;;
   s <- format_fixed 1 v ;;
   Ret (s ++ "%"))%outcome.

(** [f"{net_metrics['TOTAL_TOWERS'] or 0:,}"] *)
Definition active_infrastructure (net : network_row) : string :=
  format_thousands (int_or (TOTAL_TOWERS net) 0).

(** The number behind Customer Satisfaction:
    [((cust_metrics['AVG_SENTIMENT'] or 0) + 1) * 50]. *)
Definition customer_satisfaction_value (cust : customer_row) : outcome number :=
  (s <- py_add (float_or (AVG_SENTIMENT cust) 0) (PInt 1) ;;
   py_mul s (PInt 50))%outcome.

Definition customer_satisfaction (cust : customer_row) : outcome string :=
  (v <- customer_satisfaction_value cust ;;
   s <- format_fixed 1 v ;;
   Ret (s ++ "%"))%outcome.

(** [f"{net_metrics['CRITICAL_ISSUES'] or 0}"] *)
Definition risk_incidents (net : network_row) : string :=
  str_int (int_or (CRITICAL_ISSUES net) 0).

(** The number behind Premium Performance:
    [(net_metrics['PREMIUM_TOWERS'] or 0) / max(net_metrics['TOTAL_TOWERS'] or 1, 1) * 100]. *)
Definition premium_performance_value (net : network_row) : outcome Float64.float :=
  (q <- int_truediv (int_or (PREMIUM_TOWERS net) 0)
                    (Z.max (int_or (TOTAL_TOWERS net) 1) 1) ;;
   float_mul (PFloat q) (PInt 100))%outcome.

(** The same number under [:.0f], with the percent sign. *)
Definition premium_performance (net : network_row) : outcome string :=
  (v <- premium_performance_value net ;;
   Ret (format_float_fixed 0 v ++ "%"))%outcome.

(** The dict [exec_kpis]; its values are evaluated in the order written. *)
Definition derive_exec_kpis (net : network_row) (cust : customer_row) : outcome kpis :=
  (uptime <- network_uptime net ;;
   satisfaction <- customer_satisfaction cust ;;
   premium <- premium_performance net ;;
   Ret [ ("Network Uptime", Kpi uptime (21 # 10) "🟢");
         ("Active Infrastructure", Kpi (active_infrastructure net) (8 # 10) "📡");
         ("Customer Satisfaction", Kpi satisfaction (-12 # 10) "😊");
         ("Revenue Protection", Kpi "$2.8M" (57 # 10) "💰");
         ("Risk Incidents", Kpi (risk_incidents net) (-83 # 10) "⚠️");
         ("Premium Performance", Kpi premium (34 # 10) "⭐") ])%outcome.

(** ** [load_executive_dashboard_data], lines 146 to 221 *)

Definition network_query : string :=
  "
        SELECT 
            COUNT(DISTINCT CELL_ID) as total_towers,
            AVG(NVL(PM_RRC_CONN_ESTAB_SUCC, 0) / NULLIF(PM_RRC_CONN_ESTAB_ATT, 0)) as avg_success_rate,
            COUNT(CASE WHEN PM_ERAB_REL_ABNORMAL_ENB > 50 THEN 1 END) as critical_issues,
            AVG(NVL(PM_PRB_UTIL_DL, 0)) as avg_dl_utilization,
            SUM(NVL(PM_PDCP_UL_THPT, 0) + NVL(PM_PDCP_DL_THPT, 0)) as total_throughput,
            COUNT(CASE WHEN PM_RRC_CONN_ESTAB_SUCC / NULLIF(PM_RRC_CONN_ESTAB_ATT, 0) > 0.95 THEN 1 END) as premium_towers
        FROM TELCO_NETWORK_OPTIMIZATION_PROD.RAW.CELL_TOWER 
        WHERE EVENT_DATE >= DATEADD(day, -7, CURRENT_DATE())
        ".

Definition customer_query : string :=
  "
        SELECT 
            COUNT(*) as total_tickets,
            AVG(SENTIMENT_SCORE) as avg_sentiment,
            COUNT(CASE WHEN SENTIMENT_SCORE < -0.5 THEN 1 END) as critical_tickets,
            COUNT(DISTINCT CUSTOMER_NAME) as unique_customers,
            COUNT(CASE WHEN SENTIMENT_SCORE > 0.5 THEN 1 END) as satisfied_customers
        FROM TELCO_NETWORK_OPTIMIZATION_PROD.RAW.SUPPORT_TICKETS
        WHERE OPEN_DATE >= DATEADD(day, -7, CURRENT_DATE())
        ".

Definition load_executive_dashboard_data (req : request) : script dashboard_data :=
  try_except
    (network_data <- collect network_query (network_answer req) ;;
     customer_data <- collect customer_query (customer_answer req) ;;
     match network_data, customer_data with
     | net_metrics :: _, cust_metrics :: _ =>
         exec_kpis <- lift (derive_exec_kpis net_metrics cust_metrics) ;;
         ret (Some exec_kpis, Some net_metrics, Some cust_metrics)
     | _, _ => ret unavailable
     end)%script
    (fun e =>
       (emit (Alert AlertError ("Error loading executive dashboard data: " ++ exn_msg e)) ;;
        ret unavailable)%script).

(** The function as the page calls it, under [@st.cache_data(ttl=300)]. *)
Definition cache_ttl : Z := 300.

Definition load_executive_dashboard_data_cached (req : request) : script dashboard_data :=
  cache_data cache_ttl (now req) (load_executive_dashboard_data req).

(** ** The page, lines 107 to 530 *)

(** [exec_kpis[name]['value']] *)
Fixpoint kpi_value (k : kpis) (name : string) : outcome string :=
  match k with
  | [] => Raised (Exn KeyError name)
  | (n, data) :: rest => if String.eqb n name then Ret (value data) else kpi_value rest name
  end.

Definition summary_text_0 : string :=
  "
        **Network Operations Status:** Your telecommunications infrastructure is operating at ".

Definition summary_text_1 : string :=
  "% success rate across ".

Definition summary_text_2 : string :=
  " active cell towers.
        
        **Business Impact:** Current performance levels are protecting approximately **$2.8M in monthly revenue** through sustained service quality and customer retention.
        
        **Key Insights:**
        • Premium service delivery maintained across ".

Definition summary_text_3 : string :=
  " of network infrastructure
        • Customer satisfaction trending at ".

Definition summary_text_4 : string :=
  " with AI-driven service improvements
        • Risk incidents reduced by 8.3% through predictive analytics and proactive maintenance
        
        **Strategic Outlook:** Network optimization initiatives are delivering measurable ROI with continued upward trajectory in operational efficiency.
        ".

Definition executive_summary_content (net : network_row) (k : kpis) : outcome string :=
  (rate <- py_mul (float_or (AVG_SUCCESS_RATE net) 0) (PInt 100) ;;
   rate_text <- format_fixed 1 rate ;;
   premium <- kpi_value k "Premium Performance" ;;
   satisfaction <- kpi_value k "Customer Satisfaction" ;;
   Ret (summary_text_0 ++ rate_text ++ summary_text_1
          ++ format_thousands (int_or (TOTAL_TOWERS net) 0) ++ summary_text_2
          ++ premium ++ summary_text_3 ++ satisfaction ++ summary_text_4))%outcome.

Definition summary_metrics : dict :=
  [ ("ROI", "+340%"); ("Efficiency", "94.2%"); ("Risk Reduction", "8.3%");
    ("Revenue Protected", "$2.8M") ].

Definition report_text_0 : string :=
  "
            **STRATEGIC NETWORK INTELLIGENCE REPORT**
            
            **EXECUTIVE SUMMARY:**
            Network operations are performing at ".

Definition report_text_1 : string :=
  "% efficiency with ".

Definition report_text_2 : string :=
  " critical incidents requiring immediate attention.
            
            **MARKET POSITION:**
            • Industry-leading uptime performance
            • Customer retention rate exceeding sector average
            • Revenue protection mechanisms active and effective
            
            **INVESTMENT PRIORITIES:**
            1. **Infrastructure Expansion**: Target 15% capacity increase in Q2
            2. **AI Analytics**: ROI of 340% demonstrated through predictive maintenance
            3. **Customer Experience**: Sentiment analysis driving 12% satisfaction improvement
            
            **RISK MITIGATION:**
            • Predictive failure detection preventing $890K in potential downtime costs
            • Automated incident response reducing MTTR by 67%
            • Compliance monitoring ensuring 100% regulatory adherence
            
            **COMPETITIVE ADVANTAGE:**
            Your AI-powered network optimization is delivering measurable competitive advantages with clear path to market leadership through technology differentiation.
            ".

Definition strategic_report (net : network_row) : outcome string :=
  (rate <- py_mul (float_or (AVG_SUCCESS_RATE net) 0) (PInt 100) ;;
   rate_text <- format_fixed 1 rate ;;
   Ret (report_text_0 ++ rate_text ++ report_text_1
          ++ str_int (int_or (CRITICAL_ISSUES net) 0) ++ report_text_2))%outcome.

Definition risk_recommendations : list string :=
  [ "🔴 Tower ID 2847: Predicted failure risk (72%) - Schedule maintenance within 48 hours";
    "🟡 Network Sector 7: Capacity approaching threshold (89%) - Plan expansion by Q2";
    "🟢 Customer Sentiment: Positive trend (+5.7%) - Continue current service strategy";
    "🔵 Revenue Impact: Infrastructure investment ROI tracking at +340% - Accelerate program";
    "⚫ Compliance Check: All systems meeting regulatory standards - No action required" ].

(** The branch taken when the three loaded values are truthy, lines 227 to
    321.  [time.sleep] draws nothing. *)
Definition executive_dashboard (ns : namespace) (req : request)
           (exec_kpis : kpis) (network_metrics : network_row) : script unit :=
  (emit (Markdown "## 🏆 Executive Performance Dashboard") ;;
   call_dashboard ns "create_executive_dashboard" exec_kpis ;;
   emit (Markdown "---") ;;
   _ <- st_columns_spec [2; 1]%nat ;;
   within_column 0
     (content <- lift (executive_summary_content network_metrics exec_kpis) ;;
      call_summary ns "create_executive_summary_card"
                   "AI-Generated Executive Summary" content (Some summary_metrics) "🤖") ;;
   within_column 1
     (emit (Markdown "### ⚡ Executive Action Center") ;;
      strategic <- st_button "🧠 Generate AI Strategic Report"
                             (strategic_report_clicked req) ;;
      (if strategic then
         call_text ns "create_ai_loading_spinner"
           "AI is analyzing network data and market trends for strategic insights..." ;;
         report <- lift (strategic_report network_metrics) ;;
         call_insights ns "create_ai_insights_card" "Strategic Intelligence Analysis"
                       report (Float64.literal (92 # 100)) "📊"
       else ret tt) ;;
      risk <- st_button "🎯 Predictive Risk Assessment" (risk_assessment_clicked req) ;;
      (if risk then
         call_text ns "create_ai_loading_spinner"
           "Running predictive models on network infrastructure..." ;;
         call_recommendations ns "create_ai_recommendation_list" risk_recommendations
                              "🎯 AI Risk Assessment & Recommendations"
       else ret tt)))%script.

Definition preview_kpis : kpis :=
  [ ("Network Performance", Kpi "94.2%" (21 # 10) "🟢");
    ("Revenue Protection", Kpi "$2.8M" (57 # 10) "💰");
    ("AI Efficiency", Kpi "92%" (34 # 10) "🤖");
    ("Risk Mitigation", Kpi "67%" (-83 # 10) "🛡️") ].

Definition capabilities_content : string :=
  "
    **Your executive suite provides comprehensive network intelligence:**
    
    • **Real-time Performance Monitoring** with predictive failure detection
    • **AI-Powered Customer Analytics** including churn prediction and sentiment analysis  
    • **Strategic Business Intelligence** with ROI tracking and revenue impact assessment
    • **Automated Executive Reporting** with natural language insights and recommendations
    • **Risk Assessment & Mitigation** with proactive maintenance scheduling
    • **Market Intelligence Integration** for competitive advantage analysis
    ".

Definition exec_metrics : dict :=
  [ ("Models Available", "40+"); ("Response Time", "<1s"); ("Accuracy Rate", "92%");
    ("Uptime SLA", "99.9%") ].

(** The [else] branch, lines 324 to 362. *)
Definition fallback_preview (ns : namespace) : script unit :=
  (call_text2 ns "create_executive_alert_banner"
     "⚠️ Network data synchronization in progress. Executive dashboard will be available momentarily."
     "warning" ;;
   emit (Markdown "### 🏆 Executive Intelligence Preview") ;;
   call_dashboard ns "create_executive_dashboard" preview_kpis ;;
   call_summary ns "create_executive_summary_card" "Executive AI Intelligence Platform"
                capabilities_content (Some exec_metrics) "🏆")%script.

(** A dict is truthy when it has an entry; a row of the two queries always
    is, having columns. *)
Definition dict_truthy {A : Type} (d : list A) : bool :=
  match d with [] => false | _ => true end.

(** [if exec_kpis and network_metrics and customer_metrics: ... else: ...] *)
Definition dashboard_section (ns : namespace) (req : request) (data : dashboard_data)
  : script unit :=
  match data with
  | (Some exec_kpis, Some network_metrics, Some _) =>
      if dict_truthy exec_kpis
      then executive_dashboard ns req exec_kpis network_metrics
      else fallback_preview ns
  | _ => fallback_preview ns
  end.

Definition navigation_items : list dict :=
  [ [ ("title", "AI Customer Intelligence");
      ("description", "Advanced customer analytics with AI-powered churn prediction, sentiment analysis, and personalized retention strategies. Real-time customer experience optimization.");
      ("icon", "👥");
      ("badge", "AI POWERED");
      ("page_key", "Customer_Profile") ];
    [ ("title", "Network Performance Command");
      ("description", "Comprehensive cell tower monitoring with predictive failure analysis, capacity optimization, and automated performance enhancement recommendations.");
      ("icon", "📡");
      ("badge", "REAL-TIME");
      ("page_key", "Cell_Tower_Lookup") ];
    [ ("title", "Geospatial Intelligence");
      ("description", "Advanced geographic analysis with AI pattern recognition, coverage optimization, and location-based performance insights for strategic planning.");
      ("icon", "🗺️");
      ("badge", "GEO AI");
      ("page_key", "Geospatial_Analysis") ];
    [ ("title", "Executive AI Dashboard");
      ("description", "Real-time executive insights with automated reporting, strategic recommendations, and business impact analysis powered by advanced AI algorithms.");
      ("icon", "🎯");
      ("badge", "EXECUTIVE");
      ("page_key", "AI_Insights_and_Recommendations") ];
    [ ("title", "Predictive Analytics Suite");
      ("description", "Machine learning models for network forecasting, failure prediction, and capacity planning with 92% accuracy rate for proactive operations.");
      ("icon", "🔮");
      ("badge", "PREDICTIVE");
      ("page_key", "Predictive_Analytics") ];
    [ ("title", "Snowflake Intelligence");
      ("description", "Natural language querying, intelligent agents, and conversational analytics powered by Snowflake's advanced AI platform for instant insights.");
      ("icon", "🧠");
      ("badge", "NEXT-GEN");
      ("page_key", "Snowflake_Intelligence") ] ].

(** The three panels of lines 415 to 467 and the four tiles of lines 469 to
    513: fixed markup. *)
Definition technology_section : script unit :=
  (emit (Markdown "---") ;;
   emit (Markdown "## ⚡ Technology Excellence Platform") ;;
   _ <- st_columns 3 ;;
   within_column 0 (emit (Html "technology-panel" ["❄️"; "Snowflake Cortex AISQL"])) ;;
   within_column 1 (emit (Html "technology-panel" ["🧠"; "AI Analytics Engine"])) ;;
   within_column 2 (emit (Html "technology-panel" ["💼"; "Executive Intelligence"])))%script.

Definition success_metrics_section : script unit :=
  (emit (Markdown "---") ;;
   emit (Markdown "## 📊 Executive Success Metrics") ;;
   _ <- st_columns 4 ;;
   within_column 0 (emit (Html "success-tile" ["📈"; "340%"; "ROI Achieved"])) ;;
   within_column 1 (emit (Html "success-tile" ["⚡"; "67%"; "MTTR Reduction"])) ;;
   within_column 2 (emit (Html "success-tile" ["🎯"; "92%"; "Prediction Accuracy"])) ;;
   within_column 3 (emit (Html "success-tile" ["💰"; "$2.8M"; "Revenue Protected"])))%script.

(** The banner of lines 135 to 139. *)
Definition demo_banner_text (d : demo_state) : string :=
  "🎬 Executive Demo Active - Scenario: "
    ++ str_title (underscores_to_spaces (current_scenario d)).

Definition demo_alert (ns : namespace) (d : demo_state) : script unit :=
  if demo_active d
  then call_text2 ns "create_executive_alert_banner" (demo_banner_text d) "info"
  else ret tt.

(** Lines 107 to 139: configuration, styling, the demo state, the session,
    the header and the demo banner. *)
Definition page_head (ns : namespace) (req : request) : script unit :=
  (emit (PageConfig "Executive Telco Network Suite") ;;
   call_render ns "inject_custom_css" ;;
   call_render ns "create_sidebar_navigation" ;;
   demo <- call_demo ns "create_executive_demo_controller" ;;
   _ <- call_session ns "get_snowflake_session" (active_session req) ;;
   call_header ns "create_page_header"
     "Executive Telco Network Intelligence Suite"
     "AI-Powered Network Operations Command Center • Real-Time Analytics • Predictive Intelligence • Executive Insights"
     "🏆" ;;
   demo_alert ns demo)%script.

(** Lines 223 to 362: the data is loaded and one of the two branches drawn. *)
Definition page_data (ns : namespace) (req : request) : script unit :=
  (data <- load_executive_dashboard_data_cached req ;;
   dashboard_section ns req data)%script.

(** Lines 364 to 530: navigation grid, technology panels, success tiles,
    footer. *)
Definition page_tail (ns : namespace) : script unit :=
  (emit (Markdown "---") ;;
   emit (Markdown "## 🚀 Executive Intelligence Platform") ;;
   call_navigation ns "create_executive_navigation_grid" navigation_items ;;
   technology_section ;;
   success_metrics_section ;;
   call_render ns "add_page_footer" ;;
   emit (Markdown "---") ;;
   emit (Html "executive-support" []))%script.

(** One run of the script.  [utils.aisql_functions] is not among the
    sources: [get_ai_analytics] and [get_ai_processor] (lines 141 to 143)
    are the fallbacks of lines 91 to 102, which build an object and draw
    nothing. *)
Definition main_page (req : request) : script unit :=
  (ns <- lift import_block ;;
   page_head ns req ;;
   page_data ns req ;;
   page_tail ns)%script.

(** A run starts with an empty screen and the caches the process holds. *)
Definition fresh (resource : option session) (data : option cache_entry) : state :=
  State [] [] resource data.

End Main.

(* ================================================================== *)
(** * Notions used to state the properties *)
(* ================================================================== *)

Module Properties.

Import Python Warehouse Streamlit Namespace Main.

Local Open Scope string_scope.

(** A query whose aggregate is absent: no row, or an exception. *)
Definition absent {A : Type} (r : reply (list A)) : Prop :=
  r = Answers [] \/ exists e, r = Fails e.

Definition aggregate_unavailable (req : request) : Prop :=
  absent (network_answer req) \/ absent (customer_answer req).

(** A query that fails: the collaborator raises. *)
Definition query_fails (req : request) : Prop :=
  (exists e, network_answer req = Fails e) \/ (exists e, customer_answer req = Fails e).

(** What the error handler of [load_executive_dashboard_data] draws for the
    first of the two queries that raises, and nothing when none does. *)
Definition load_error (req : request) : list element :=
  match network_answer req, customer_answer req with
  | Fails e, _ | Answers _, Fails e =>
      [Alert AlertError ("Error loading executive dashboard data: " ++ exn_msg e)]
  | Answers _, Answers _ => []
  end.






(** The screen of the fallback preview: warning banner, the four preview
    KPIs, the capabilities card with its four tiles. *)
Definition fallback_preview_screen : list element :=
  [ Alert AlertWarning
      "⚠️ Network data synchronization in progress. Executive dashboard will be available momentarily.";
    Markdown "### 🏆 Executive Intelligence Preview";
    Columns [1; 1; 1; 1]%nat;
    InColumn 0 (Metric "Network Performance" "94.2%");
    InColumn 1 (Metric "Revenue Protection" "$2.8M");
    InColumn 2 (Metric "AI Efficiency" "92%");
    InColumn 3 (Metric "Risk Mitigation" "67%");
    Markdown "### 🏆 Executive AI Intelligence Platform";
    Markdown capabilities_content;
    Columns [1; 1; 1; 1]%nat;
    InColumn 0 (Metric "Models Available" "40+");
    InColumn 1 (Metric "Response Time" "<1s");
    InColumn 2 (Metric "Accuracy Rate" "92%");
    InColumn 3 (Metric "Uptime SLA" "99.9%") ].

(** What the page draws before it loads the data, and after the dashboard
    section. *)
Definition page_top : list element :=
  [ PageConfig "Executive Telco Network Suite";
    Html "custom-css" [];
    Html "sidebar-navigation" [];
    Html "app-header"
      [ "🏆"; "Executive Telco Network Intelligence Suite";
        "AI-Powered Network Operations Command Center • Real-Time Analytics • Predictive Intelligence • Executive Insights" ] ].

(** The names of the page once its import block has run. *)
Definition page_namespace : namespace :=
  match import_block with
  | Ret ns => ns
  | _ => []
  end.

(** What the page draws after the dashboard section. *)
Definition page_bottom : list element :=
  screen (snd (page_tail page_namespace (fresh None None))).

(** An element without the columns it was drawn in. *)
Fixpoint strip_columns (e : element) : element :=
  match e with
  | InColumn _ e' => strip_columns e'
  | _ => e
  end.

Definition derived_kpi_names : list string :=
  [ "Network Uptime"; "Active Infrastructure"; "Customer Satisfaction";
    "Risk Incidents"; "Premium Performance" ].

(** An element of the KPI dashboard: its heading, or the tile of a derived
    KPI. *)
Definition kpi_dashboard_element (e : element) : bool :=
  match strip_columns e with
  | Markdown body => String.eqb body "## 🏆 Executive Performance Dashboard"
  | Metric label _ => existsb (String.eqb label) derived_kpi_names
  | _ => false
  end.

(** The demo banner of lines 135 to 139, wherever it is drawn. *)
Definition is_demo_banner (e : element) : bool :=
  match strip_columns e with
  | Alert _ msg => String.prefix "🎬 Executive Demo Active" msg
  | _ => false
  end.

(** The warning banner of the fallback preview, wherever it is drawn. *)
Definition is_warning_banner (e : element) : bool :=
  match strip_columns e with
  | Alert AlertWarning _ => true
  | _ => false
  end.

(** The five functions [main.py] asks [design_system] for in vain. *)
Definition executive_names : list string :=
  [ "create_executive_dashboard"; "create_executive_navigation_grid";
    "create_executive_summary_card"; "create_executive_alert_banner";
    "create_executive_demo_controller" ].

(** A screen, and a state, without the demo banner: neither drawn nor kept
    in the cache for a later replay. *)
Definition banner_free (l : list element) : Prop :=
  Forall (fun e => is_demo_banner e = false) l.

Definition no_banner (st : state) : Prop :=
  banner_free (screen st)
  /\ match data_cache st with
     | Some entry => banner_free (cached_elements entry)
     | None => True
     end.

(** [clean s Q]: run from a state without the banner, [s] ends in such a
    state, and what it returns satisfies [Q]. *)
Definition clean {A : Type} (s : script A) (Q : A -> Prop) : Prop :=
  forall st, no_banner st ->
    no_banner (snd (s st)) /\ forall a, fst (s st) = Ret a -> Q a.

(** The states page loads end in: the process starts with empty caches, and
    each load starts from an empty screen and the caches the load before it
    left. *)
Inductive reachable : state -> Prop :=
| reach_start : reachable (fresh None None)
| reach_load (st : state) (req : request) :
    reachable st ->
    reachable (snd (main_page req (fresh (resource_cache st) (data_cache st)))).

(** The largest quotient [(current_step - 1) / total_steps] with
    [total_steps < 2 ^ 54], the float just below [1.0] and the float just
    below [100.0]. *)
Definition largest_quotient_below_one : Q := (2 ^ 54 - 2) # (2 ^ 54 - 1).
Definition float_before_one : Q := 1 - (1 # 2 ^ 53).
Definition float_before_hundred : Q := 100 - (1 # 2 ^ 46).

(** The exact value of a number that has one. *)
Definition has_value (x : number) (q : Q) : Prop :=
  match x with
  | PInt n => (inject_Z n == q)%Q
  | PFloat (Float64.Fin s a) => (Float64.signed s a == q)%Q
  | PFloat _ => False
  end.

(** The default of the [confidence] parameter, [0.0]. *)
Definition default_confidence : Float64.float := Float64.literal 0.

End Properties.

(* ================================================================== *)
(** * Further components of utils/design_system.py *)
(* ================================================================== *)

Module Components.

Import Python Warehouse Streamlit Namespace.

Local Open Scope string_scope.

(** [d[key]] where [key in d], for a dict from strings to strings. *)
Fixpoint dict_find (d : dict) (key : string) : option string :=
  match d with
  | [] => None
  | (k, v) :: rest => if String.eqb k key then Some v else dict_find rest key
  end.

(** ** Metric cards and their grid, lines 288 to 305 and 461 to 466 *)

(** The style of a delta colour, the one of "normal" for any other one. *)
Definition delta_color_style (delta_color : string) : string :=
  dict_get [ ("normal", "color: #6c757d;"); ("positive", "color: #28a745;");
             ("negative", "color: #dc3545;") ]
           delta_color "color: #6c757d;".

(** [if delta:] holds for a text that is neither [None] nor empty. *)
Definition delta_fields (delta : option string) (delta_color : string) : list string :=
  match delta with
  | Some (String _ _ as d) => [delta_color_style delta_color; d]
  | _ => []
  end.

Definition create_metric_card (title value : string) (delta : option string)
           (delta_color : string) : script unit :=
  emit (Html "metric-card" (title :: value :: delta_fields delta delta_color)).

Definition card_parameters : list string := ["title"; "value"; "delta"; "delta_color"].

(** [create_metric_card] called on an unpacked dict: its keys are the
    keyword arguments.  A key that is no parameter raises [TypeError], and so does a
    dict without [title] or [value]; [delta] and [delta_color] have
    defaults. *)
Definition call_metric_card (metric : dict) : script unit :=
  match find (fun '(k, _) => negb (existsb (String.eqb k) card_parameters)) metric with
  | Some (k, _) =>
      raise (Exn TypeError
                 ("create_metric_card() got an unexpected keyword argument '" ++ k ++ "'"))
  | None =>
      match dict_find metric "title", dict_find metric "value" with
      | Some title, Some value =>
          create_metric_card title value (dict_find metric "delta")
                             (dict_get metric "delta_color" "normal")
      | None, Some _ =>
          raise (Exn TypeError
                     "create_metric_card() missing 1 required positional argument: 'title'")
      | Some _, None =>
          raise (Exn TypeError
                     "create_metric_card() missing 1 required positional argument: 'value'")
      | None, None =>
          raise (Exn TypeError
                     "create_metric_card() missing 2 required positional arguments: 'title' and 'value'")
      end
  end.

Definition create_metric_grid (metrics : list dict) (columns : nat) : script unit :=
  (_ <- st_columns columns ;;
   for_enumerate 0 metrics (fun i metric =>
     within_column (i mod columns) (call_metric_card metric)))%script.

(** ** Queries with a loading state, lines 323 to 332 and 438 to 455 *)

Definition show_loading_state (message : string) : script unit :=
  emit (Html "loading-spinner" [message]).

(** [st.empty()]: a placeholder at the end of the screen, known by the
    position it was made at. *)
Definition st_empty : script nat := fun st => (Ret (List.length (screen st)), st).

(** [with placeholder.container(): body], for a placeholder nothing was drawn
    after: what [body] draws lands at the end of the screen. *)
Definition placeholder_container {A : Type} (placeholder : nat) (body : script A)
  : script A := body.

(** [placeholder.empty()], for a placeholder nothing was drawn after: what it
    holds leaves the screen. *)
Definition placeholder_empty (placeholder : nat) : script unit :=
  fun st => (Ret tt, with_screen st (firstn placeholder (screen st))).

(** [session.sql(query).to_pandas()]: as [collect], the rows in a frame. *)
Definition to_pandas {A : Type} (query : string) (answer : reply (list A))
  : script (list A) := collect query answer.

(** The frame of the rows, [pd.DataFrame()] (no row) after an exception. *)
Definition execute_query_with_loading {A : Type} (active : reply session)
           (answer : reply (list A)) (query description : string) : script (list A) :=
  (_ <- DesignSystem.get_snowflake_session active ;;
   loading_placeholder <- st_empty ;;
   placeholder_container loading_placeholder (show_loading_state description) ;;
   try_except
     (result <- to_pandas query answer ;;
      placeholder_empty loading_placeholder ;;
      ret result)
     (fun e =>
        placeholder_empty loading_placeholder ;;
        DesignSystem.create_info_box ("Error executing query: " ++ exn_msg e) "error" ;;
        ret []))%script.

(** ** The model selector, lines 686 to 731 *)

Definition model_descriptions : dict :=
  [ ("mistral-large", "🏆 Mistral Large - Best overall performance, latest capabilities");
    ("mistral-7b", "⚡ Mistral 7B - Fast responses, good for simple tasks");
    ("mixtral-8x7b", "🎯 Mixtral 8x7B - Balanced performance and speed");
    ("llama3.1-8b", "🦙 Llama 3.1 8B - Meta's efficient model");
    ("llama3.1-70b", "🦙 Llama 3.1 70B - Meta's powerful model");
    ("llama3.1-405b", "🦙 Llama 3.1 405B - Meta's largest model");
    ("snowflake-arctic", "❄️ Snowflake Arctic - Optimized for enterprise");
    ("reka-core", "🧠 Reka Core - Advanced reasoning");
    ("reka-flash", "⚡ Reka Flash - Speed optimized") ].

(** [model_descriptions.get(model, f"🤖 {model}")] *)
Definition describe (model : string) : string :=
  dict_get model_descriptions model ("🤖 " ++ model).

(** [l.index(x)]: the first position of [x], [None] where Python raises
    [ValueError]. *)
Fixpoint index_of (x : string) (l : list string) : option nat :=
  match l with
  | [] => None
  | y :: rest => if String.eqb y x then Some 0%nat else option_map S (index_of x rest)
  end.

(** What the selector puts on the screen: elements, and the select box. *)
Inductive widget : Type :=
| Drawn (e : element)
| Selectbox (label : string) (options : list string) (index : nat).

(** How the selector ends: the model it returns, or the [ValueError] of
    [options.index]. *)
Inductive selection : Type :=
| Returns (model : string)
| RaisesValueError.

(** [models.index(default_model) if default_model in models else 0] *)
Definition default_index (models : list string) (default_model : string) : nat :=
  match index_of default_model models with
  | Some i => i
  | None => 0%nat
  end.

(** [st.selectbox] returns the option the user picked, the one at [index] as
    long as the user picked none, and [None] when there is no option. *)
Definition st_selectbox (options : list string) (index : nat) (picked : option nat)
  : option string :=
  nth_error options (match picked with Some i => i | None => index end).

(** [picked] is the position the user chose in the select box, if any; it is
    one of the options shown. *)
Definition create_model_selector (models : list string) (default_model : string)
           (picked : option nat) : list widget * selection :=
  let options := map describe models in
  let index := default_index models default_model in
  let shown := [ Drawn (Markdown "### 🤖 AI Model Configuration");
                 Selectbox "Choose AI Model:" options index ] in
  match st_selectbox options index picked with
  | None => (shown, RaisesValueError)
  | Some selected_option =>
      match index_of selected_option options with
      | None => (shown, RaisesValueError)
      | Some i =>
          let selected_model := nth i models "" in
          ((shown ++ match dict_find model_descriptions selected_model with
                     | Some description =>
                         [Drawn (Alert AlertInfo ("Selected: " ++ description))]
                     | None => []
                     end)%list,
           Returns selected_model)
      end
  end.

End Components.

(* ================================================================== *)
(** * Notions used to state further properties *)
(* ================================================================== *)

Module Coverage.

Import Python Warehouse Streamlit Namespace Main Components.

Local Open Scope string_scope.

(** [enumerate(xs, start)] *)
Definition enumerate {A : Type} (start : nat) (xs : list A) : list (nat * A) :=
  combine (seq start (List.length xs)) xs.

(** The tiles of a mapping from names to KPIs, in the order of the mapping,
    [cols] to a row. *)
Definition kpi_tiles (cols : nat) (k : kpis) : list element :=
  map (fun '(i, (name, data)) => InColumn (i mod cols) (Metric name (value data)))
      (enumerate 0 k).

(** The tiles of a dict of metrics, and those of the design system with
    their icons. *)
Definition metric_tiles (cols : nat) (metrics : dict) : list element :=
  map (fun '(i, (key, val)) => InColumn (i mod cols) (Metric key val)) (enumerate 0 metrics).

Definition ai_metric_tiles (cols : nat) (metrics : dict) : list element :=
  map (fun '(i, (metric, val)) =>
         InColumn (i mod cols)
           (Html "ai-metric-tile"
                 [nth (i mod 8) DesignSystem.metric_icons ""; val; metric]))
      (enumerate 0 metrics).

(** A dict [create_metric_card] accepts as its keyword arguments. *)
Definition card_arguments (metric : dict) : bool :=
  forallb (fun '(k, _) => existsb (String.eqb k) card_parameters) metric
  && match dict_find metric "title", dict_find metric "value" with
     | Some _, Some _ => true
     | _, _ => false
     end.

(** The card of such a dict. *)
Definition metric_card (metric : dict) : element :=
  Html "metric-card"
       (dict_get metric "title" "" :: dict_get metric "value" ""
          :: delta_fields (dict_find metric "delta") (dict_get metric "delta_color" "normal")).

Definition grid_cards (columns : nat) (metrics : list dict) : list element :=
  map (fun '(i, metric) => InColumn (i mod columns) (metric_card metric)) (enumerate 0 metrics).

(** What [load_executive_dashboard_data] can return: nothing at all, or the
    first row of each query with the KPIs derived from them. *)
Definition all_or_nothing (data : dashboard_data) : Prop :=
  data = unavailable
  \/ exists k net cust,
       data = (Some k, Some net, Some cust) /\ derive_exec_kpis net cust = Ret k.

(** A state whose cache entry, if any, holds such a value. *)
Definition sound_cache (st : state) : Prop :=
  match data_cache st with
  | Some entry => all_or_nothing (cached_value entry)
  | None => True
  end.

(** [ends s R P Q]: run from a state with a sound cache, [s] leaves the cache
    sound and sends nothing to the warehouse; a value it returns satisfies
    [Q], an exception it raises [R], and it stops only if [P]. *)
Definition ends {A : Type} (s : script A) (R : exn -> Prop) (P : Prop)
           (Q : A -> Prop) : Prop :=
  forall st, sound_cache st ->
    sound_cache (snd (s st))
    /\ executed (snd (s st)) = executed st
    /\ match fst (s st) with
       | Ret a => Q a
       | Raised e => R e
       | Stopped => P
       end.

Definition no_exception : exn -> Prop := fun _ => False.

(** A sentiment between [-1] and [1], or NULL; a ratio between [0] and [1],
    or NULL. *)
Definition within (lo hi : Q) (x : option Float64.float) : Prop :=
  match x with
  | Some (Float64.Fin s a) => (0 <= a /\ lo <= Float64.signed s a <= hi)%Q
  | Some _ => False
  | None => True
  end.

(** The number behind Network Uptime:
    [(net_metrics['AVG_SUCCESS_RATE'] or 0) * 100]. *)
Definition network_uptime_value (net : network_row) : outcome number :=
  py_mul (float_or (AVG_SUCCESS_RATE net) 0) (PInt 100).

(** What the selector shows when [selected] is its choice: heading, select
    box and, for a model it has a description of, the description. *)
Definition selector_widgets (models : list string) (default_model selected : string)
  : list widget :=
  [ Drawn (Markdown "### 🤖 AI Model Configuration");
    Selectbox "Choose AI Model:" (map describe models) (default_index models default_model) ]
  ++ match dict_find model_descriptions selected with
     | Some description => [Drawn (Alert AlertInfo ("Selected: " ++ description))]
     | None => []
     end.

(** A text between [0.0%] and [100.0%], one decimal. *)
Definition percent_text (s : string) : Prop :=
  exists i d : Z,
    s = str_int i ++ "." ++ str_int d ++ "%"
    /\ (0 <= i <= 100)%Z /\ (0 <= d <= 9)%Z /\ (i = 100%Z -> d = 0%Z).

(** The statements a run of the loader sends: the network query and, unless
    that one raises, the customer query.  A load of the data sends them
    unless the cache entry is live. *)
Definition loader_statements (req : request) : list string :=
  match network_answer req with
  | Fails _ => [network_query]
  | Answers _ => [network_query; customer_query]
  end.

Definition statements_sent (req : request) (slot : option cache_entry) : list string :=
  match live cache_ttl (now req) slot with
  | Some _ => []
  | None => loader_statements req
  end.

(** What the navigation grid draws for one item, and the lines of a list of
    recommendations. *)
Definition navigation_tile (i : nat) (item : dict) : list element :=
  map (InColumn (i mod 3))
      [ Markdown ("### " ++ dict_get item "icon" "📊" ++ " " ++ dict_get item "title" "Item");
        Markdown (dict_get item "description" "");
        Alert AlertInfo (dict_get item "badge" "Available") ].

Definition recommendation_lines (recs : list string) : list element :=
  map (fun '(i, rec) => Markdown (str_int (Z.of_nat i) ++ ". " ++ rec)) (enumerate 1 recs).

(** The heading and the tiles the page opens its dashboard with. *)
Definition dashboard_opening (k : kpis) : list element :=
  Markdown "## 🏆 Executive Performance Dashboard"
  :: Columns [1; 1; 1; 1]%nat :: kpi_tiles 4 k.

End Coverage.

(* ================================================================== *)
(** * Facts about rounding *)
(* ================================================================== *)

Module Float64Facts.

Import Float64.

Open Scope Q_scope.

Lemma pow2_pos k : 0 < pow2 k.
Proof. apply Qpower_0_lt. reflexivity. Qed.

Lemma pow2_add a b : pow2 (a + b) == pow2 a * pow2 b.
Proof. apply Qpower_plus. discriminate. Qed.

Lemma pow2_le a b : (a <= b)%Z -> pow2 a <= pow2 b.
Proof. intros. apply Qpower_le_compat_l; [assumption | discriminate]. Qed.

Lemma pow2_lt_inv a b : pow2 a < pow2 b -> (a < b)%Z.
Proof.
  intros. apply Qpower_lt_compat_l_inv with (q := 2); [assumption | reflexivity].
Qed.

Lemma pow2_Z a : (0 <= a)%Z -> pow2 a == inject_Z (2 ^ a).
Proof. intros. unfold pow2. rewrite Zpower_Qpower by assumption. reflexivity. Qed.

Lemma pow2_sub_frac a b : (0 <= a)%Z -> (0 <= b)%Z ->
  pow2 (a - b) == inject_Z (2 ^ a) / inject_Z (2 ^ b).
Proof.
  intros Ha Hb. unfold Z.sub, Qdiv. rewrite pow2_add.
  unfold pow2 at 2. rewrite Qpower_opp. fold (pow2 b).
  rewrite !pow2_Z by assumption. reflexivity.
Qed.

(** ** Nearest integer *)

Lemma rne_floor_or_succ q : rne q = Qfloor q \/ rne q = (Qfloor q + 1)%Z.
Proof.
  unfold rne. destruct (Qcompare _ _); [destruct (Z.even _)|..]; auto.
Qed.

Lemma rne_ge_floor q : (Qfloor q <= rne q)%Z.
Proof. destruct (rne_floor_or_succ q); lia. Qed.

Lemma rne_le_Z q (b : Z) : q <= inject_Z b -> (rne q <= b)%Z.
Proof.
  intros Hq. unfold rne.
  pose proof (Qfloor_le q) as Hf. pose proof (Qlt_floor q) as Hl.
  assert (Hfb : (Qfloor q <= b)%Z).
  { rewrite <- (Qfloor_Z b). apply Qfloor_resp_le. assumption. }
  destruct (Z.eq_dec (Qfloor q) b) as [E | NE].
  - assert (Hz : q - inject_Z (Qfloor q) <= 0) by (rewrite E; lra).
    destruct (Qcompare_spec (q - inject_Z (Qfloor q)) (1 # 2)) as [H | H | H];
      try lra.
    lia.
  - destruct (Qcompare _ _); [destruct (Z.even _)|..]; lia.
Qed.

Lemma rne_ge_Z (a : Z) q : inject_Z a <= q -> (a <= rne q)%Z.
Proof.
  intros Hq. pose proof (rne_ge_floor q).
  assert ((a <= Qfloor q)%Z); [| lia].
  rewrite <- (Qfloor_Z a). apply Qfloor_resp_le. assumption.
Qed.

Lemma rne_mono x y : x <= y -> (rne x <= rne y)%Z.
Proof.
  intros Hxy.
  pose proof (Qfloor_resp_le _ _ Hxy) as Hf.
  destruct (Z.eq_dec (Qfloor x) (Qfloor y)) as [E | NE].
  - unfold rne. rewrite E.
    destruct (Qcompare_spec (x - inject_Z (Qfloor y)) (1 # 2)) as [H | H | H];
    destruct (Qcompare_spec (y - inject_Z (Qfloor y)) (1 # 2)) as [H' | H' | H'];
    try destruct (Z.even _); try lia; lra.
  - pose proof (rne_ge_floor y). destruct (rne_floor_or_succ x); lia.
Qed.

(** ** Binary logarithm *)

Lemma Qlog2_spec q : 0 < q -> pow2 (Qlog2 q) <= q /\ q < pow2 (Qlog2 q + 1).
Proof.
  intros Hq. destruct q as [n d]. unfold Qlog2. cbn [Qnum Qden].
  assert (Hn : (0 < n)%Z) by (unfold Qlt in Hq; simpl in Hq; lia).
  pose proof (Z.log2_spec n Hn) as [Hn1 Hn2].
  pose proof (Z.log2_spec (Zpos d) eq_refl) as [Hd1 Hd2].
  pose proof (Z.log2_nonneg n) as Ha. pose proof (Z.log2_nonneg (Zpos d)) as Hb.
  set (a := Z.log2 n) in *. set (b := Z.log2 (Zpos d)) in *.
  assert (Hup : n # d < pow2 (a - b + 1)).
  { replace (a - b + 1)%Z with (Z.succ a - b)%Z by lia.
    rewrite pow2_sub_frac by lia.
    assert (0 < inject_Z (2 ^ b)) by (unfold Qlt; simpl; lia).
    apply Qlt_shift_div_l; [assumption|].
    unfold Qlt, Qmult, inject_Z; simpl. nia. }
  assert (Hlo : pow2 (a - b - 1) <= n # d).
  { replace (a - b - 1)%Z with (a - Z.succ b)%Z by lia.
    rewrite pow2_sub_frac by lia.
    assert (0 < inject_Z (2 ^ Z.succ b)) by (unfold Qlt; simpl; lia).
    apply Qle_shift_div_r; [assumption|].
    unfold Qle, Qmult, inject_Z; simpl. nia. }
  destruct (Qle_bool (pow2 (a - b)) (n # d)) eqn:E.
  - apply Qle_bool_iff in E. split; assumption.
  - split; [assumption|].
    replace (a - b - 1 + 1)%Z with (a - b)%Z by lia.
    apply Qnot_le_lt. intro H. apply Qle_bool_iff in H. congruence.
Qed.

Lemma Qlog2_mono x y : 0 < x -> x <= y -> (Qlog2 x <= Qlog2 y)%Z.
Proof.
  intros Hx Hxy.
  destruct (Qlog2_spec x Hx) as [Hx1 _].
  assert (Hy : 0 < y) by lra.
  destruct (Qlog2_spec y Hy) as [_ Hy2].
  assert (H : pow2 (Qlog2 x) < pow2 (Qlog2 y + 1)).
  { eapply Qle_lt_trans; [exact Hx1|]. eapply Qle_lt_trans; [exact Hxy | exact Hy2]. }
  apply pow2_lt_inv in H. lia.
Qed.

(** ** Rounding to binary64 is monotone *)

Lemma cexp_mono x y : 0 < x -> x <= y -> (cexp x <= cexp y)%Z.
Proof.
  intros Hx Hxy. unfold cexp. pose proof (Qlog2_mono x y Hx Hxy). lia.
Qed.

Lemma scaled_lt x : 0 < x -> x / pow2 (cexp x) < inject_Z (2 ^ prec).
Proof.
  intros Hx. apply Qlt_shift_div_r; [apply pow2_pos|].
  rewrite <- pow2_Z by (unfold prec; lia). rewrite <- pow2_add.
  destruct (Qlog2_spec x Hx) as [_ H].
  eapply Qlt_le_trans; [exact H|]. apply pow2_le. unfold cexp. lia.
Qed.

Lemma scaled_ge y : 0 < y -> (emin < cexp y)%Z ->
  inject_Z (2 ^ (prec - 1)) <= y / pow2 (cexp y).
Proof.
  intros Hy He. apply Qle_shift_div_l; [apply pow2_pos|].
  rewrite <- pow2_Z by (unfold prec; lia). rewrite <- pow2_add.
  destruct (Qlog2_spec y Hy) as [H _].
  eapply Qle_trans; [|exact H]. apply pow2_le. unfold cexp in *. lia.
Qed.

Lemma round64_nonneg x : 0 <= x -> 0 <= round64 x.
Proof.
  intros Hx. unfold round64.
  apply Qmult_le_0_compat; [|apply Qlt_le_weak, pow2_pos].
  change 0 with (inject_Z 0). rewrite <- Zle_Qle. apply rne_ge_Z.
  apply Qle_shift_div_l; [apply pow2_pos|].
  setoid_replace (inject_Z 0 * pow2 (cexp x)) with 0 by ring. assumption.
Qed.

Lemma round64_0 x : x == 0 -> round64 x == 0.
Proof.
  intros Hx. unfold round64.
  assert (E : x / pow2 (cexp x) == inject_Z 0).
  { generalize (pow2 (cexp x)). intros p. rewrite Hx. unfold Qdiv. simpl. ring. }
  assert (E' : rne (x / pow2 (cexp x)) = 0%Z).
  { apply Z.le_antisymm; [apply rne_le_Z | apply rne_ge_Z];
      rewrite E; apply Qle_refl. }
  rewrite E'. ring.
Qed.

Theorem round64_mono x y : 0 <= x -> x <= y -> round64 x <= round64 y.
Proof.
  intros Hx Hxy.
  destruct (Qeq_dec x 0) as [Z0 | NZ].
  { rewrite (round64_0 x Z0). apply round64_nonneg. lra. }
  assert (Hx' : 0 < x).
  { destruct (Qlt_le_dec 0 x); [assumption | exfalso; apply NZ; lra]. }
  assert (Hy' : 0 < y) by lra.
  pose proof (cexp_mono x y Hx' Hxy) as Hc.
  destruct (Z.eq_dec (cexp x) (cexp y)) as [E | NE].
  - unfold round64. rewrite E.
    apply Qmult_le_compat_r; [|apply Qlt_le_weak, pow2_pos].
    rewrite <- Zle_Qle. apply rne_mono.
    apply Qmult_le_compat_r; [assumption|].
    apply Qlt_le_weak, Qinv_lt_0_compat, pow2_pos.
  - assert (Hlt : (cexp x < cexp y)%Z) by lia.
    assert (He : (emin < cexp y)%Z) by (unfold cexp in *; lia).
    pose proof (scaled_lt x Hx') as H1. pose proof (scaled_ge y Hy' He) as H2.
    apply Qlt_le_weak, rne_le_Z in H1. apply rne_ge_Z in H2.
    unfold round64.
    apply Qle_trans with (inject_Z (2 ^ prec) * pow2 (cexp x)).
    { apply Qmult_le_compat_r; [|apply Qlt_le_weak, pow2_pos].
      rewrite <- Zle_Qle. assumption. }
    apply Qle_trans with (inject_Z (2 ^ (prec - 1)) * pow2 (cexp y)).
    2:{ apply Qmult_le_compat_r; [|apply Qlt_le_weak, pow2_pos].
        rewrite <- Zle_Qle. assumption. }
    rewrite <- !pow2_Z by (unfold prec; lia). rewrite <- !pow2_add.
    apply pow2_le. unfold prec. lia.
Qed.

(** A bound that is itself a float bounds the rounded value. *)
Lemma round64_le_fixed x b : 0 <= x -> x <= b -> round64 b == b -> round64 x <= b.
Proof.
  intros Hx Hxb Hb. rewrite <- Hb. apply round64_mono; assumption.
Qed.

(** Below a bound under the overflow threshold there is no overflow. *)
Lemma no_overflow x b :
  0 <= x -> x <= b -> round64 b < pow2 emax -> overflows x = false.
Proof.
  intros Hx Hxb Hb. unfold overflows.
  destruct (Qle_bool (pow2 emax) (round64 x)) eqn:E; [|reflexivity].
  apply Qle_bool_iff in E. pose proof (round64_mono x b Hx Hxb) as Hm.
  exfalso. apply (Qlt_irrefl (pow2 emax)).
  eapply Qle_lt_trans; [exact E|]. eapply Qle_lt_trans; [exact Hm | exact Hb].
Qed.

Lemma round64_1 : round64 1 == 1.
Proof. vm_compute. reflexivity. Qed.

Lemma round64_100 : round64 (inject_Z 100) == 100.
Proof. vm_compute. reflexivity. Qed.

(** ** Agreement with the Standard Library's IEEE 754 specification *)

(** Quotients of ints: inexact ones, a tie that rounds up to [1.0], a
    subnormal result, an underflow to zero, negative operands. *)
Example division_agrees_with_SpecFloat :
  forallb (fun '(n, d) =>
             match Python.int_truediv n d with
             | Python.Ret f =>
                 same_float f (of_spec_float
                                 (SpecFloat.SFdiv 53 1024 (spec_of_int n) (spec_of_int d)))
             | _ => false
             end)
          [ (1, 3); (2, 3); (950, 1000); (2 ^ 54 - 1, 2 ^ 54); (2 ^ 54 - 2, 2 ^ 54 - 1);
            (2 ^ 53 + 1, 1); (7, 10 ^ 320); (1, 10 ^ 400); (-5, 7); (0, -3);
            (10 ^ 30, 3) ]%Z
  = true.
Proof. vm_compute. reflexivity. Qed.

(** Products and sums of such quotients. *)
Example product_agrees_with_SpecFloat :
  forallb (fun '(a, b, c, d) =>
             match Python.int_truediv a b, Python.int_truediv c d with
             | Python.Ret x, Python.Ret y =>
                 same_float (mul x y)
                            (of_spec_float
                               (SpecFloat.SFmul 53 1024
                                  (SpecFloat.SFdiv 53 1024 (spec_of_int a) (spec_of_int b))
                                  (SpecFloat.SFdiv 53 1024 (spec_of_int c) (spec_of_int d))))
             | _, _ => false
             end)
          [ (950, 1000, 100, 1); (1, 3, 100, 1); (2 ^ 54 - 2, 2 ^ 54 - 1, 100, 1);
            (63, 100, 50, 1); (-1, 3, 50, 1); (10 ^ 200, 1, 10 ^ 200, 1);
            (1, 10 ^ 200, 1, 10 ^ 200); (0, 1, -7, 1) ]%Z
  = true.
Proof. vm_compute. reflexivity. Qed.

Example sum_agrees_with_SpecFloat :
  forallb (fun '(a, b, c, d) =>
             match Python.int_truediv a b, Python.int_truediv c d with
             | Python.Ret x, Python.Ret y =>
                 same_float (add x y)
                            (of_spec_float
                               (SpecFloat.SFadd 53 1024
                                  (SpecFloat.SFdiv 53 1024 (spec_of_int a) (spec_of_int b))
                                  (SpecFloat.SFdiv 53 1024 (spec_of_int c) (spec_of_int d))))
             | _, _ => false
             end)
          [ (-37, 100, 1, 1); (-1, 1, 1, 1); (1, 1, 1, 1); (1, 3, 1, 1);
            (-1, 10 ^ 20, 1, 1); (2 ^ 53, 1, 1, 1); (0, -1, 0, -1); (0, -1, 0, 1);
            (-2, 3, 1, 3) ]%Z
  = true.
Proof. vm_compute. reflexivity. Qed.

End Float64Facts.

(* ================================================================== *)
(** * Properties of the KPI formulas *)
(* ================================================================== *)

Import Float64 Python Warehouse Streamlit Namespace Main Properties Float64Facts.

Open Scope string_scope.

Lemma int_or_zero n : int_or (Some n) 0 = n.
Proof. unfold int_or. destruct (Z.eqb_spec n 0); congruence. Qed.

Lemma int_or_one_floor t : (0 <= t)%Z -> Z.max (int_or (Some t) 1) 1 = Z.max t 1.
Proof. intros Ht. unfold int_or. destruct (Z.eqb_spec t 0); subst; lia. Qed.

Lemma one_below_overflow : (round64 1 < pow2 emax)%Q.
Proof. vm_compute. reflexivity. Qed.

Lemma hundred_below_overflow : (round64 (inject_Z 100) < pow2 emax)%Q.
Proof. vm_compute. reflexivity. Qed.

Lemma float_of_int_100 : float_of_int 100 = Ret (Fin false (round64 (inject_Z 100))).
Proof. vm_compute. reflexivity. Qed.

(** A quotient of naturals below one is a float between zero and one. *)
Lemma int_truediv_unit (n d : Z) :
  (0 <= n)%Z -> (0 < d)%Z -> (n <= d)%Z ->
  exists r, int_truediv n d = Ret (Fin false r)
            /\ r = round64 (Z.abs n # Z.to_pos (Z.abs d))
            /\ (0 <= r <= 1)%Q.
Proof.
  intros Hn Hd Hnd. unfold int_truediv.
  destruct (Z.eqb_spec d 0) as [E | _]; [lia|].
  set (q := Z.abs n # Z.to_pos (Z.abs d)).
  assert (Hq0 : (0 <= q)%Q) by (unfold q, Qle; simpl; lia).
  assert (Hq1 : (q <= 1)%Q).
  { unfold q, Qle; simpl. rewrite Z2Pos.id by lia. lia. }
  rewrite (no_overflow q 1 Hq0 Hq1 one_below_overflow).
  replace (n <? 0)%Z with false by (symmetry; apply Z.ltb_ge; lia).
  replace (d <? 0)%Z with false by (symmetry; apply Z.ltb_ge; lia).
  exists (round64 q). repeat split.
  - apply round64_nonneg; assumption.
  - apply round64_le_fixed; [assumption | assumption | apply round64_1].
Qed.

(** A float between zero and one, times 100, is a float between zero and
    one hundred. *)
Lemma percent_of_unit (r : Q) :
  (0 <= r <= 1)%Q ->
  exists a, float_mul (PFloat (Fin false r)) (PInt 100) = Ret (Fin false a)
            /\ a = round64 (r * round64 (inject_Z 100))
            /\ (0 <= a <= 100)%Q.
Proof.
  intros [H0 H1]. unfold float_mul, to_float. rewrite float_of_int_100.
  cbn [obind mul xorb]. unfold of_magnitude.
  set (x := (r * round64 (inject_Z 100))%Q).
  assert (Hx0 : (0 <= x)%Q).
  { unfold x. apply Qmult_le_0_compat; [assumption|]. rewrite round64_100. discriminate. }
  assert (Hx1 : (x <= inject_Z 100)%Q).
  { unfold x. rewrite round64_100.
    setoid_replace (inject_Z 100) with (1 * 100)%Q by reflexivity.
    apply Qmult_le_compat_r; [assumption | discriminate]. }
  rewrite (no_overflow x (inject_Z 100) Hx0 Hx1 hundred_below_overflow).
  exists (round64 x). repeat split.
  - apply round64_nonneg; assumption.
  - apply (round64_le_fixed x (inject_Z 100) Hx0 Hx1 round64_100).
Qed.

(** [:.0f] on a float between zero and one hundred prints an integer between
    zero and one hundred. *)
Lemma format_percent (a : Q) :
  (0 <= a <= 100)%Q ->
  exists n, format_float_fixed 0 (Fin false a) = str_int n /\ (0 <= n <= 100)%Z.
Proof.
  intros [H0 H1]. exists (rne (a * inject_Z 1)). split.
  - unfold format_float_fixed, fixed_digits. cbn [Z.of_nat Z.pow].
    rewrite Z.div_1_r. reflexivity.
  - split.
    + apply rne_ge_Z. setoid_replace (a * inject_Z 1)%Q with a by ring. assumption.
    + apply rne_le_Z. setoid_replace (a * inject_Z 1)%Q with a by ring. assumption.
Qed.

(** X17.  For non-negative counts with [premium <= max(total, 1)] the
    Premium Performance number is a float in [[0, 100]] and the KPI shows an
    integer percentage in [[0, 100]]; [total = 0] is covered by the floor of
    one on the denominator. *)
Theorem premium_performance_within_0_100 (net : network_row) (premium total : Z) :
  PREMIUM_TOWERS net = Some premium ->
  TOTAL_TOWERS net = Some total ->
  (0 <= premium)%Z -> (0 <= total)%Z -> (premium <= Z.max total 1)%Z ->
  exists (a : Q) (n : Z),
    premium_performance_value net = Ret (Fin false a)
    /\ (0 <= a <= 100)%Q
    /\ premium_performance net = Ret (str_int n ++ "%")
    /\ (0 <= n <= 100)%Z.
Proof.
  intros Hp Ht H0p H0t Hle.
  unfold premium_performance, premium_performance_value.
  rewrite Hp, Ht, int_or_zero, (int_or_one_floor total H0t).
  destruct (int_truediv_unit premium (Z.max total 1)) as (r & -> & _ & Hr); try lia.
  cbn [obind].
  destruct (percent_of_unit r Hr) as (a & -> & _ & Ha).
  cbn [obind].
  destruct (format_percent a Ha) as (n & -> & Hn).
  exists a, n. repeat split; try apply Ha; try apply Hn.
Qed.

Lemma premium_performance_within_0_100_witness :
  exists (a : Q) (n : Z),
    premium_performance_value (NetworkRow (Some 1000%Z) None None None None (Some 950%Z))
      = Ret (Fin false a)
    /\ (0 <= a <= 100)%Q
    /\ premium_performance (NetworkRow (Some 1000%Z) None None None None (Some 950%Z))
       = Ret (str_int n ++ "%")
    /\ (0 <= n <= 100)%Z.
Proof.
  apply (premium_performance_within_0_100
           (NetworkRow (Some 1000%Z) None None None None (Some 950%Z)) 950 1000);
    [reflexivity | reflexivity | lia | lia | lia].
Defined.

(** ** The progress tracker *)

Lemma round64_largest_quotient : (round64 largest_quotient_below_one == float_before_one)%Q.
Proof. vm_compute. reflexivity. Qed.

Lemma round64_before_hundred :
  (round64 (float_before_one * inject_Z 100) == float_before_hundred)%Q.
Proof. vm_compute. reflexivity. Qed.

(** With fewer than [2 ^ 54] steps, the quotient of a step before the last
    by the number of steps rounds to a float below one. *)
Lemma int_truediv_below_one (n d : Z) :
  (0 <= n < d)%Z -> (d < 2 ^ 54)%Z ->
  exists r, int_truediv n d = Ret (Fin false r) /\ (0 <= r <= float_before_one)%Q.
Proof.
  intros Hn Hd. unfold int_truediv.
  destruct (Z.eqb_spec d 0) as [E | _]; [lia|].
  set (q := Z.abs n # Z.to_pos (Z.abs d)).
  assert (Hq0 : (0 <= q)%Q) by (unfold q, Qle; simpl; lia).
  assert (Hqb : (q <= largest_quotient_below_one)%Q).
  { unfold q, largest_quotient_below_one, Qle.
    cbn [Qnum Qden]. rewrite Z2Pos.id by lia.
    rewrite !Z.abs_eq by lia.
    change (Z.pos (2 ^ 54 - 1)) with 18014398509481983%Z.
    change (2 ^ 54 - 2)%Z with 18014398509481982%Z.
    change (2 ^ 54)%Z with 18014398509481984%Z in Hd. lia. }
  assert (Hb1 : (largest_quotient_below_one <= 1)%Q) by (vm_compute; discriminate).
  rewrite (no_overflow q 1 Hq0 (Qle_trans _ _ _ Hqb Hb1) one_below_overflow).
  replace (n <? 0)%Z with false by (symmetry; apply Z.ltb_ge; lia).
  replace (d <? 0)%Z with false by (symmetry; apply Z.ltb_ge; lia).
  exists (round64 q). repeat split.
  - apply round64_nonneg; assumption.
  - rewrite <- round64_largest_quotient. apply round64_mono; assumption.
Qed.

Lemma percent_below_hundred (r : Q) :
  (0 <= r <= float_before_one)%Q ->
  exists w, float_mul (PFloat (Fin false r)) (PInt 100) = Ret (Fin false w)
            /\ (0 <= w < 100)%Q.
Proof.
  intros [H0 H1]. unfold float_mul, to_float. rewrite float_of_int_100.
  cbn [obind mul xorb]. unfold of_magnitude.
  set (x := (r * round64 (inject_Z 100))%Q).
  assert (Hx0 : (0 <= x)%Q).
  { unfold x. apply Qmult_le_0_compat; [assumption|]. rewrite round64_100. discriminate. }
  assert (Hx1 : (x <= float_before_one * inject_Z 100)%Q).
  { unfold x. rewrite round64_100.
    apply Qmult_le_compat_r; [assumption | discriminate]. }
  assert (Hx2 : (x <= inject_Z 100)%Q).
  { eapply Qle_trans; [exact Hx1|]. vm_compute. discriminate. }
  rewrite (no_overflow x (inject_Z 100) Hx0 Hx2 hundred_below_overflow).
  exists (round64 x). repeat split.
  - apply round64_nonneg; assumption.
  - eapply Qle_lt_trans; [apply (round64_mono x _ Hx0 Hx1)|].
    rewrite round64_before_hundred. reflexivity.
Qed.

(** C10, amended.  With [1 <= current_step <= total_steps < 2 ^ 54] the bar
    is drawn with the width [(current_step - 1) / total_steps * 100], a float
    strictly below 100, so also on the final step; and with
    [total_steps = 0] the division raises [ZeroDivisionError], nothing being
    drawn. *)
Theorem progress_bar_never_full (current_step total_steps : Z) (step_name : string)
        (st : state) :
  (1 <= current_step <= total_steps)%Z -> (total_steps < 2 ^ 54)%Z ->
  (exists p w,
      int_truediv (current_step - 1) total_steps = Ret (Fin false p)
      /\ float_mul (PFloat (Fin false p)) (PInt 100) = Ret (Fin false w)
      /\ DesignSystem.create_ai_progress_tracker current_step total_steps step_name st
         = (Ret tt,
            with_screen st
              (screen st ++ [ProgressBar current_step total_steps (Fin false w) step_name])%list)
      /\ (0 <= w < 100)%Q)
  /\ DesignSystem.create_ai_progress_tracker current_step 0 step_name st
     = (Raised (Exn ZeroDivisionError "division by zero"), st).
Proof.
  intros Hc Ht. split; [|reflexivity].
  destruct (int_truediv_below_one (current_step - 1) total_steps) as (p & Hp & Hpb);
    [lia | assumption |].
  destruct (percent_below_hundred p Hpb) as (w & Hw & Hwb).
  exists p, w. repeat split; try assumption; try apply Hwb.
  unfold DesignSystem.create_ai_progress_tracker, bind, lift.
  rewrite Hp, Hw. reflexivity.
Qed.

Lemma progress_bar_never_full_witness :
  (exists p w,
      int_truediv (3 - 1) 3 = Ret (Fin false p)
      /\ float_mul (PFloat (Fin false p)) (PInt 100) = Ret (Fin false w)
      /\ DesignSystem.create_ai_progress_tracker 3 3 "Summarising" (fresh None None)
         = (Ret tt,
            with_screen (fresh None None)
              (screen (fresh None None) ++ [ProgressBar 3 3 (Fin false w) "Summarising"])%list)
      /\ (0 <= w < 100)%Q)
  /\ DesignSystem.create_ai_progress_tracker 3 0 "Summarising" (fresh None None)
     = (Raised (Exn ZeroDivisionError "division by zero"), fresh None None).
Proof.
  apply (progress_bar_never_full 3 3 "Summarising" (fresh None None)); lia.
Defined.

(** C10 as stated fails: on the last of [2 ^ 54] steps the quotient
    [(2 ^ 54 - 1) / 2 ^ 54] rounds to [1.0] and the bar is drawn full. *)
Lemma progress_bar_full_on_last_step :
  exists w,
    DesignSystem.create_ai_progress_tracker (2 ^ 54) (2 ^ 54) "Finishing" (fresh None None)
    = (Ret tt,
       State [ProgressBar (2 ^ 54) (2 ^ 54) (Fin false w) "Finishing"] [] None None)
    /\ (w == 100)%Q.
Proof.
  eexists. split; vm_compute; reflexivity.
Qed.

(** ** Customer Satisfaction *)

(** C7.  Whatever the other columns hold, an average sentiment of [-1.0]
    gives the number 0 and the text 0.0%, [0.0] gives 50 and 50.0%, and
    [1.0] gives 100 and 100.0%. *)
Theorem customer_satisfaction_endpoints (tickets critical unique satisfied : option Z) :
  let row := fun s => CustomerRow tickets (Some s) critical unique satisfied in
  (exists v, customer_satisfaction_value (row (literal (-1))) = Ret v /\ has_value v 0)
  /\ customer_satisfaction (row (literal (-1))) = Ret "0.0%"
  /\ (exists v, customer_satisfaction_value (row (literal 0)) = Ret v /\ has_value v 50)
  /\ customer_satisfaction (row (literal 0)) = Ret "50.0%"
  /\ (exists v, customer_satisfaction_value (row (literal 1)) = Ret v /\ has_value v 100)
  /\ customer_satisfaction (row (literal 1)) = Ret "100.0%".
Proof.
  intros row. unfold row.
  split; [eexists; split; vm_compute; reflexivity|].
  split; [vm_compute; reflexivity|].
  split; [eexists; split; vm_compute; reflexivity|].
  split; [vm_compute; reflexivity|].
  split; [eexists; split; vm_compute; reflexivity|].
  vm_compute; reflexivity.
Qed.

(** ** The confidence badge *)

Lemma threshold_high_finite : exists q, DesignSystem.threshold_high = Fin false q.
Proof. eexists. vm_compute. reflexivity. Qed.

Lemma leb_negb_ltb x q : x <> NaN -> leb x (Fin false q) = negb (ltb (Fin false q) x).
Proof. intros Hx. destruct x; try reflexivity. congruence. Qed.

Lemma gtb_not_nan x y : gtb x y = true -> x <> NaN.
Proof. unfold gtb. destruct x, y; simpl; congruence. Qed.

Lemma confidence_text_thresholds (confidence : float) :
  let high := DesignSystem.threshold_high in
  let medium := DesignSystem.threshold_medium in
  (DesignSystem.confidence_text confidence = "High" <-> gtb confidence high = true)
  /\ (DesignSystem.confidence_text confidence = "Medium"
      <-> ltb medium confidence = true /\ leb confidence high = true)
  /\ (DesignSystem.confidence_text confidence = "Low"
      <-> gtb confidence high = false
          /\ ~ (ltb medium confidence = true /\ leb confidence high = true)).
Proof.
  intros high medium. unfold DesignSystem.confidence_text. fold high medium.
  assert (Hleb : confidence <> NaN -> leb confidence high = negb (gtb confidence high)).
  { intros Hn. unfold high. destruct threshold_high_finite as [q ->].
    apply leb_negb_ltb, Hn. }
  change (ltb medium confidence) with (gtb confidence medium).
  split; [|split].
  - split.
    + destruct (gtb confidence high);
        [reflexivity | destruct (gtb confidence medium); discriminate].
    + intros ->. reflexivity.
  - split.
    + destruct (gtb confidence high) eqn:Hh; [discriminate|].
      destruct (gtb confidence medium) eqn:Hm; [|discriminate].
      intros _. split; [reflexivity|].
      rewrite Hleb by (apply (gtb_not_nan _ _ Hm)). reflexivity.
    + intros [Hm Hl]. rewrite Hleb in Hl by (apply (gtb_not_nan _ _ Hm)).
      apply negb_true_iff in Hl. rewrite Hl, Hm. reflexivity.
  - split.
    + destruct (gtb confidence high) eqn:Hh; [discriminate|].
      destruct (gtb confidence medium) eqn:Hm; [discriminate|].
      intros _. split; [reflexivity|]. intros [Hm' _]. congruence.
    + intros [Hh Hnot]. rewrite Hh.
      destruct (gtb confidence medium) eqn:Hm; [|reflexivity].
      exfalso. apply Hnot. split; [reflexivity|].
      rewrite Hleb by (apply (gtb_not_nan _ _ Hm)). rewrite Hh. reflexivity.
Qed.

(** C9.  [create_ai_insights_card] draws one card, and the badge of that
    card reads [High Confidence] exactly when [confidence > 0.8],
    [Medium Confidence] exactly when [0.6 < confidence <= 0.8], and
    [Low Confidence] exactly in the remaining cases (a NaN among them).  The
    card drawn for [0.8] itself carries the Medium badge, in orange, and the
    card drawn for the default [0.0] the Low badge, in red. *)
Theorem confidence_badge_thresholds (title insight icon : string) (confidence : float)
        (st : state) :
  let high := DesignSystem.threshold_high in
  let medium := DesignSystem.threshold_medium in
  let card := fun color badge =>
    (Ret tt,
     with_screen st
       (screen st ++ [Html "ai-insights-card" [icon; title; color; badge; insight]])%list) in
  (exists color label,
     DesignSystem.create_ai_insights_card title insight confidence icon st
     = card color (label ++ " Confidence")
     /\ (label = "High" <-> gtb confidence high = true)
     /\ (label = "Medium" <-> ltb medium confidence = true /\ leb confidence high = true)
     /\ (label = "Low"
         <-> gtb confidence high = false
             /\ ~ (ltb medium confidence = true /\ leb confidence high = true)))
  /\ DesignSystem.create_ai_insights_card title insight (literal (8 # 10)) icon st
     = card "#ff9800" "Medium Confidence"
  /\ DesignSystem.create_ai_insights_card title insight default_confidence icon st
     = card "#f44336" "Low Confidence".
Proof.
  intros high medium card. split; [|split].
  - exists (DesignSystem.confidence_color confidence),
           (DesignSystem.confidence_text confidence).
    split; [reflexivity|]. apply confidence_text_thresholds.
  - unfold DesignSystem.create_ai_insights_card, card, emit.
    replace (DesignSystem.confidence_color (literal (8 # 10))) with "#ff9800"
      by (vm_compute; reflexivity).
    replace (DesignSystem.confidence_text (literal (8 # 10))) with "Medium"
      by (vm_compute; reflexivity).
    reflexivity.
  - unfold DesignSystem.create_ai_insights_card, card, emit.
    replace (DesignSystem.confidence_color default_confidence) with "#f44336"
      by (vm_compute; reflexivity).
    replace (DesignSystem.confidence_text default_confidence) with "Low"
      by (vm_compute; reflexivity).
    reflexivity.
Qed.

(** ** NULL columns *)



Lemma float_of_small_int n :
  (0 <= n <= 100)%Z -> exists c, float_of_int n = Ret (Fin false c).
Proof.
  intros Hn. unfold float_of_int.
  assert (H0 : (0 <= inject_Z (Z.abs n))%Q) by (unfold Qle; simpl; lia).
  assert (H1 : (inject_Z (Z.abs n) <= inject_Z 100)%Q) by (unfold Qle; simpl; lia).
  rewrite (no_overflow _ _ H0 H1 hundred_below_overflow).
  replace (n <? 0)%Z with false by (symmetry; apply Z.ltb_ge; lia).
  eexists. reflexivity.
Qed.

(** Multiplying or adding a float and a small int never raises. *)
Lemma float_mul_total f n :
  (0 <= n <= 100)%Z -> exists r, float_mul (PFloat f) (PInt n) = Ret r.
Proof.
  intros Hn. unfold float_mul, to_float.
  destruct (float_of_small_int n Hn) as [c ->]. eexists. reflexivity.
Qed.

Lemma float_add_total f n :
  (0 <= n <= 100)%Z -> exists r, float_add (PFloat f) (PInt n) = Ret r.
Proof.
  intros Hn. unfold float_add, to_float.
  destruct (float_of_small_int n Hn) as [c ->]. eexists. reflexivity.
Qed.

Lemma network_uptime_total net : exists s, network_uptime net = Ret s.
Proof.
  unfold network_uptime, float_or.
  destruct (AVG_SUCCESS_RATE net) as [f|]; [destruct (float_truthy f)|].
  - unfold py_mul. destruct (float_mul_total f 100) as [r ->]; [lia|].
    eexists. reflexivity.
  - eexists. vm_compute. reflexivity.
  - eexists. vm_compute. reflexivity.
Qed.

Lemma customer_satisfaction_total cust : exists s, customer_satisfaction cust = Ret s.
Proof.
  unfold customer_satisfaction, customer_satisfaction_value, float_or.
  destruct (AVG_SENTIMENT cust) as [f|]; [destruct (float_truthy f)|].
  - unfold py_add. destruct (float_add_total f 1) as [r ->]; [lia|].
    cbn [obind]. unfold py_mul. destruct (float_mul_total r 50) as [r' ->]; [lia|].
    eexists. reflexivity.
  - eexists. vm_compute. reflexivity.
  - eexists. vm_compute. reflexivity.
Qed.






(* ================================================================== *)
(** * Properties of the page *)
(* ================================================================== *)

Lemma import_block_ok : import_block = Ret page_namespace.
Proof. vm_compute. reflexivity. Qed.

(** The page runs its three parts in turn, under the names its import
    block binds. *)
Lemma main_page_phases req st :
  main_page req st =
  match page_head page_namespace req st with
  | (Ret _, st1) =>
      match page_data page_namespace req st1 with
      | (Ret _, st2) => page_tail page_namespace st2
      | (Raised e, st2) => (Raised e, st2)
      | (Stopped, st2) => (Stopped, st2)
      end
  | (Raised e, st1) => (Raised e, st1)
  | (Stopped, st1) => (Stopped, st1)
  end.
Proof.
  unfold main_page, bind, lift. rewrite import_block_ok.
  destruct (page_head page_namespace req st) as [[u | e |] st1]; reflexivity.
Qed.

(** With a session at hand, cached or active, the head of the page draws
    [page_top] and no banner. *)
Lemma page_head_with_session req resource slot :
  resource = Some ActiveSession \/ active_session req = Answers ActiveSession ->
  page_head page_namespace req (fresh resource slot)
  = (Ret tt, State page_top [] (Some ActiveSession) slot).
Proof.
  intros [-> | H].
  - vm_compute. reflexivity.
  - destruct req as [t act net cust b1 b2]. cbn [active_session] in H. subst act.
    destruct resource as [[]|]; vm_compute; reflexivity.
Qed.

(** Without a live entry, [st.cache_data] runs the function on a screen of
    its own and stores what it returns. *)
Lemma cache_data_miss ttl t f st :
  live ttl t (data_cache st) = None ->
  cache_data ttl t f st =
  let '(o, st') := f (with_screen st []) in
  (o, State (screen st ++ screen st')%list (executed st') (resource_cache st')
            match o with
            | Ret v => Some (CacheEntry t v (screen st'))
            | _ => None
            end).
Proof. intros H. unfold cache_data. rewrite H. reflexivity. Qed.

Lemma cache_data_hit ttl t f st entry :
  live ttl t (data_cache st) = Some entry ->
  cache_data ttl t f st
  = (Ret (cached_value entry), with_screen st (screen st ++ cached_elements entry)%list).
Proof. intros H. unfold cache_data. rewrite H. reflexivity. Qed.

(** The load returns the unavailable result as soon as one aggregate is
    absent, after drawing the error of the query that raised, if any. *)
Lemma load_unavailable req scr ex res slot :
  aggregate_unavailable req ->
  exists ex',
    load_executive_dashboard_data req (State scr ex res slot)
    = (Ret unavailable, State (scr ++ load_error req)%list ex' res slot).
Proof.
  intros H. destruct req as [t act net cust b1 b2].
  unfold aggregate_unavailable, absent in H. cbn [network_answer customer_answer] in H.
  unfold load_executive_dashboard_data, try_except, bind, collect, load_error.
  cbn [network_answer customer_answer screen executed resource_cache data_cache].
  destruct net as [[|n ns] | e]; destruct cust as [[|c cs] | e'];
    try (eexists; cbn; rewrite ?app_nil_r; reflexivity).
  exfalso. destruct H as [[H | [x H]] | [H | [x H]]]; discriminate.
Qed.

(** C1.  When one of the two queries returns no row or raises, the load
    returns [(None, None, None)] whatever the state, and a page run that
    reaches the load (a session is at hand, the cache holds no live entry)
    completes with, in order, the head of the page, the error of the failed
    query if any, the fallback preview (warning banner, four preview KPIs,
    capabilities card) and the rest of the page; no element of the KPI
    dashboard is drawn. *)
Theorem unavailable_data_renders_fallback (req : request) (resource : option session)
        (slot : option cache_entry) :
  aggregate_unavailable req ->
  resource = Some ActiveSession \/ active_session req = Answers ActiveSession ->
  live cache_ttl (now req) slot = None ->
  (forall st, fst (load_executive_dashboard_data req st) = Ret unavailable)
  /\ exists st',
      main_page req (fresh resource slot) = (Ret tt, st')
      /\ screen st' = (page_top ++ load_error req ++ fallback_preview_screen ++ page_bottom)%list
      /\ forallb (fun e => negb (kpi_dashboard_element e)) (screen st') = true.
Proof.
  intros Hun Hs Hlive. split.
  - intros [scr ex res c]. destruct (load_unavailable req scr ex res c Hun) as [ex' ->].
    reflexivity.
  - rewrite main_page_phases, (page_head_with_session req resource slot Hs).
    unfold page_data, bind, load_executive_dashboard_data_cached.
    rewrite cache_data_miss by exact Hlive.
    destruct req as [t act net cust b1 b2].
    unfold aggregate_unavailable, absent in Hun.
    cbn [network_answer customer_answer] in Hun.
    destruct net as [[|n ns] | e]; destruct cust as [[|c cs] | e'];
      try (exfalso; destruct Hun as [[H | [x H]] | [H | [x H]]]; discriminate);
      (eexists; split; [|split]; vm_compute; reflexivity).
Qed.

Lemma unavailable_data_renders_fallback_witness :
  let req := Request 0 (Answers ActiveSession)
                     (Fails (Exn CollaboratorError "warehouse offline"))
                     (Answers []) false false in
  aggregate_unavailable req
  /\ (forall st, fst (load_executive_dashboard_data req st) = Ret unavailable)
  /\ exists st',
      main_page req (fresh None None) = (Ret tt, st')
      /\ screen st' = (page_top ++ load_error req ++ fallback_preview_screen ++ page_bottom)%list
      /\ forallb (fun e => negb (kpi_dashboard_element e)) (screen st') = true.
Proof.
  intros req.
  assert (H : aggregate_unavailable req) by (left; right; eexists; reflexivity).
  split; [exact H|].
  apply (unavailable_data_renders_fallback req None None H);
    [right; reflexivity | reflexivity].
Defined.

(** ** The session *)

(** C4, amended.  When no session is cached and none can be obtained, the
    page draws its configuration, its styling, the sidebar and an error box
    with the reason, and halts there through [st.stop()]: no header, no
    warning banner, no capabilities preview and no dashboard follow, no
    query is sent, nothing is cached and no exception leaves the script. *)
Theorem unreachable_session_stops_page (req : request) (slot : option cache_entry)
        (e : exn) :
  active_session req = Fails e ->
  main_page req (fresh None slot)
  = (Stopped,
     State [ PageConfig "Executive Telco Network Suite";
             Html "custom-css" [];
             Html "sidebar-navigation" [];
             Html "info-box" ["error"; "❌"; "Failed to connect to Snowflake: " ++ exn_msg e] ]
           [] None slot).
Proof.
  intros H. rewrite main_page_phases.
  destruct req as [t act net cust b1 b2]. cbn [active_session] in H. subst act.
  assert (Hhead : page_head page_namespace (Request t (Fails e) net cust b1 b2)
                            (fresh None slot)
                  = (Stopped,
                     State [ PageConfig "Executive Telco Network Suite";
                             Html "custom-css" [];
                             Html "sidebar-navigation" [];
                             Html "info-box"
                                  ["error"; "❌";
                                   "Failed to connect to Snowflake: " ++ exn_msg e] ]
                           [] None slot)).
  { vm_compute. reflexivity. }
  rewrite Hhead. reflexivity.
Qed.

Lemma unreachable_session_stops_page_witness :
  let e := Exn CollaboratorError "no active session" in
  let req := Request 0 (Fails e) (Answers []) (Answers []) false false in
  main_page req (fresh None None)
  = (Stopped,
     State [ PageConfig "Executive Telco Network Suite";
             Html "custom-css" [];
             Html "sidebar-navigation" [];
             Html "info-box" ["error"; "❌"; "Failed to connect to Snowflake: " ++ exn_msg e] ]
           [] None None).
Proof.
  intros e req. apply (unreachable_session_stops_page req None e). reflexivity.
Defined.

(** C4 as stated fails: with the session out of reach the run halts after
    the error box; no warning banner and no part of the capabilities preview
    is on the screen. *)
Lemma unreachable_session_draws_no_preview :
  let req := Request 0 (Fails (Exn CollaboratorError "no active session"))
                     (Answers []) (Answers []) false false in
  main_page req (fresh None None)
  = (Stopped,
     State [ PageConfig "Executive Telco Network Suite";
             Html "custom-css" [];
             Html "sidebar-navigation" [];
             Html "info-box"
                  ["error"; "❌"; "Failed to connect to Snowflake: no active session"] ]
           [] None None)
  /\ existsb is_warning_banner (screen (snd (main_page req (fresh None None)))) = false.
Proof.
  intros req. split; vm_compute; reflexivity.
Qed.

(** ** The cache *)

Lemma query_fails_unavailable req : query_fails req -> aggregate_unavailable req.
Proof.
  intros [[e H] | [e H]]; [left | right]; right; exists e; exact H.
Qed.

(** C5, amended.  When a query raises and the cache holds no live entry,
    the cached load returns the unavailable result without raising, and this
    result is stored, with the error it drew, under the time of the call:
    every call made before 300 seconds have passed returns it again and
    replays the error, sending no query, whatever the warehouse would
    answer by then. *)
Theorem failed_load_is_cached (req : request) (st : state) :
  query_fails req ->
  live cache_ttl (now req) (data_cache st) = None ->
  exists st',
    load_executive_dashboard_data_cached req st = (Ret unavailable, st')
    /\ data_cache st' = Some (CacheEntry (now req) unavailable (load_error req))
    /\ forall req' st2,
        data_cache st2 = data_cache st' ->
        (now req' < now req + cache_ttl)%Z ->
        load_executive_dashboard_data_cached req' st2
        = (Ret unavailable, with_screen st2 (screen st2 ++ load_error req)%list).
Proof.
  intros Hf Hlive. destruct st as [scr ex res c].
  unfold load_executive_dashboard_data_cached.
  rewrite cache_data_miss by exact Hlive.
  unfold with_screen. cbn [screen executed resource_cache data_cache].
  destruct (load_unavailable req [] ex res c (query_fails_unavailable req Hf)) as [ex' ->].
  cbn [screen executed resource_cache data_cache app].
  eexists. split; [reflexivity|]. split; [reflexivity|].
  intros req' st2 Hc Hnow. cbn [data_cache] in Hc.
  rewrite (cache_data_hit _ _ _ _ (CacheEntry (now req) unavailable (load_error req))).
  - reflexivity.
  - rewrite Hc. unfold live. cbn [stored_at].
    apply Z.ltb_lt in Hnow. rewrite Hnow. reflexivity.
Qed.

Lemma failed_load_is_cached_witness :
  let req := Request 0 (Answers ActiveSession)
                     (Fails (Exn CollaboratorError "warehouse offline"))
                     (Answers []) false false in
  let st := fresh (Some ActiveSession) None in
  exists st',
    load_executive_dashboard_data_cached req st = (Ret unavailable, st')
    /\ data_cache st' = Some (CacheEntry (now req) unavailable (load_error req))
    /\ forall req' st2,
        data_cache st2 = data_cache st' ->
        (now req' < now req + cache_ttl)%Z ->
        load_executive_dashboard_data_cached req' st2
        = (Ret unavailable, with_screen st2 (screen st2 ++ load_error req)%list).
Proof.
  intros req st. apply (failed_load_is_cached req st).
  - left. eexists. reflexivity.
  - reflexivity.
Defined.

(** C5 as stated fails: the load made while the warehouse was offline left
    an entry in the cache, and the load made a minute later, with the
    warehouse back and a row ready for each query, returns that entry
    without sending a query. *)
Lemma failed_load_leaves_an_entry :
  let failing := Request 0 (Answers ActiveSession)
                         (Fails (Exn CollaboratorError "warehouse offline"))
                         (Answers []) false false in
  let healthy := Request 60 (Answers ActiveSession)
                         (Answers [NetworkRow (Some 1000%Z) (Some (literal (95 # 100))) (Some 3%Z)
                                      None None (Some 950%Z)])
                         (Answers [CustomerRow (Some 10%Z) (Some (literal (25 # 100)))
                                               None None None])
                         false false in
  let after := snd (load_executive_dashboard_data_cached failing
                      (fresh (Some ActiveSession) None)) in
  data_cache after
  = Some (CacheEntry 0 unavailable
            [Alert AlertError "Error loading executive dashboard data: warehouse offline"])
  /\ load_executive_dashboard_data_cached healthy
       (fresh (Some ActiveSession) (data_cache after))
     = (Ret unavailable,
        State [Alert AlertError "Error loading executive dashboard data: warehouse offline"]
              [] (Some ActiveSession) (data_cache after))
  /\ exists k n c,
      fst (load_executive_dashboard_data healthy (fresh (Some ActiveSession) None))
      = Ret (Some k, Some n, Some c).
Proof.
  intros failing healthy after.
  split; [vm_compute; reflexivity|]. split; [vm_compute; reflexivity|].
  do 3 eexists. vm_compute. reflexivity.
Qed.

(** ** The demo banner *)

(** *** Rules for [clean] *)

Lemma banner_free_app l1 l2 : banner_free l1 -> banner_free l2 -> banner_free (l1 ++ l2).
Proof. intros H1 H2. apply Forall_app. split; assumption. Qed.

Lemma banner_free_in_column i l : banner_free l -> banner_free (map (InColumn i) l).
Proof.
  intros H. apply Forall_map. eapply Forall_impl; [|exact H].
  intros e He. exact He.
Qed.

Lemma clean_ext {A} (s s' : script A) (Q : A -> Prop) :
  (forall st, s st = s' st) -> clean s' Q -> clean s Q.
Proof. intros E Hs st Hst. rewrite E. apply Hs, Hst. Qed.

Lemma clean_lift {A} (o : outcome A) (Q : A -> Prop) :
  (forall a, o = Ret a -> Q a) -> clean (lift o) Q.
Proof. intros H st Hst. split; [exact Hst | exact H]. Qed.

Lemma clean_ret {A} (a : A) (Q : A -> Prop) : Q a -> clean (ret a) Q.
Proof.
  intros H st Hst. split; [exact Hst|]. intros b E. injection E as <-. exact H.
Qed.

Lemma clean_raise {A} (e : exn) (Q : A -> Prop) : clean (raise e) Q.
Proof. apply clean_lift. discriminate. Qed.

Lemma clean_stop {A} (Q : A -> Prop) : clean stop Q.
Proof. apply clean_lift. discriminate. Qed.

Lemma clean_emit (e : element) :
  is_demo_banner e = false -> clean (emit e) (fun _ => True).
Proof.
  intros He st [Hs Hc]. split; [|intros; exact I].
  split; [|exact Hc]. cbn. apply banner_free_app; [exact Hs|].
  constructor; [exact He | constructor].
Qed.

Lemma clean_bind {A B} (m : script A) (k : A -> script B) (Q : A -> Prop)
      (R : B -> Prop) :
  clean m Q -> (forall a, Q a -> clean (k a) R) -> clean (bind m k) R.
Proof.
  intros Hm Hk st Hst. unfold bind. destruct (Hm st Hst) as [H1 H2].
  destruct (m st) as [[a | e |] st']; cbn [fst snd] in *.
  - apply Hk; [apply H2; reflexivity | exact H1].
  - split; [exact H1 | discriminate].
  - split; [exact H1 | discriminate].
Qed.

Lemma clean_seq {A B} (m : script A) (k : script B) (Q : A -> Prop) (R : B -> Prop) :
  clean m Q -> clean k R -> clean (bind m (fun _ => k)) R.
Proof. intros Hm Hk. apply (clean_bind m _ Q R Hm). intros _ _. exact Hk. Qed.

Lemma clean_try_except {A} (body : script A) (handler : exn -> script A)
      (Q : A -> Prop) :
  clean body Q -> (forall e, clean (handler e) Q) -> clean (try_except body handler) Q.
Proof.
  intros Hb Hh st Hst. unfold try_except. destruct (Hb st Hst) as [H1 H2].
  destruct (body st) as [[a | e |] st']; cbn [fst snd] in *.
  - split; assumption.
  - apply Hh. exact H1.
  - split; [exact H1 | discriminate].
Qed.

Lemma clean_within_column {A} (i : nat) (body : script A) (Q : A -> Prop) :
  clean body Q -> clean (within_column i body) Q.
Proof.
  intros Hb st [Hs Hc]. unfold within_column.
  assert (H0 : no_banner (with_screen st [])) by (split; [constructor | exact Hc]).
  destruct (Hb _ H0) as [[H1 H1c] H2].
  destruct (body (with_screen st [])) as [o st']; cbn [fst snd] in *.
  split; [|exact H2]. split; [|exact H1c].
  cbn. apply banner_free_app; [exact Hs | apply banner_free_in_column, H1].
Qed.

Lemma clean_st_columns_spec weights : clean (st_columns_spec weights) (fun _ => True).
Proof.
  unfold st_columns_spec. destruct (_ || _)%bool.
  - apply clean_raise.
  - eapply clean_seq; [apply clean_emit; reflexivity | apply clean_ret; exact I].
Qed.

Lemma clean_st_columns n : clean (st_columns n) (fun _ => True).
Proof. apply clean_st_columns_spec. Qed.

Lemma clean_st_button label clicked : clean (st_button label clicked) (fun _ => True).
Proof.
  eapply clean_seq; [apply clean_emit; reflexivity | apply clean_ret; exact I].
Qed.

Lemma clean_collect {A} query (answer : reply A) : clean (collect query answer) (fun _ => True).
Proof.
  intros st Hst. unfold collect.
  destruct answer; (split; [exact Hst | intros; exact I]).
Qed.

Lemma clean_cache_resource (f : script session) (Q : session -> Prop) :
  clean f Q -> clean (cache_resource f) (fun _ => True).
Proof.
  intros Hf st Hst. unfold cache_resource.
  destruct (resource_cache st); [split; [exact Hst | intros; exact I]|].
  destruct (Hf st Hst) as [H1 _].
  destruct (f st) as [[s | e |] st']; cbn [fst snd] in *;
    (split; [exact H1 | intros; exact I]).
Qed.

Lemma live_some ttl t slot entry : live ttl t slot = Some entry -> slot = Some entry.
Proof.
  unfold live. destruct slot as [e|]; [|discriminate].
  destruct (_ <? _)%Z; [intros H; exact H | discriminate].
Qed.

Lemma clean_cache_data ttl t (f : script dashboard_data) (Q : dashboard_data -> Prop) :
  clean f Q -> clean (cache_data ttl t f) (fun _ => True).
Proof.
  intros Hf st [Hs Hc]. split; [|intros; exact I].
  unfold cache_data. destruct (live ttl t (data_cache st)) as [entry|] eqn:E.
  - apply live_some in E. rewrite E in Hc. cbn [fst snd].
    split; cbn; [apply banner_free_app; assumption | rewrite E; exact Hc].
  - assert (H0 : no_banner (with_screen st [])) by (split; [constructor | exact Hc]).
    destruct (Hf _ H0) as [[H1 _] _].
    destruct (f (with_screen st [])) as [o st']; cbn [fst snd] in *.
    split; cbn; [apply banner_free_app; assumption|].
    destruct o; [exact H1 | exact I | exact I].
Qed.

Lemma clean_for_enumerate {A} (xs : list A) (body : nat -> A -> script unit) :
  (forall i x, In x xs -> clean (body i x) (fun _ => True)) ->
  forall start, clean (for_enumerate start xs body) (fun _ => True).
Proof.
  induction xs as [|x xs IH]; intros Hb start; cbn [for_enumerate].
  - apply clean_ret. exact I.
  - eapply clean_seq; [apply Hb; left; reflexivity|].
    apply IH. intros i y Hy. apply Hb. right. exact Hy.
Qed.

(** *** The components *)

Lemma clean_metric_tiles (metrics : dict) (cols : nat) :
  clean (for_enumerate 0 metrics (fun i '(key, val) =>
           within_column (i mod cols) (emit (Metric key val)))) (fun _ => True).
Proof.
  apply clean_for_enumerate. intros i [key val] _.
  apply clean_within_column, clean_emit. reflexivity.
Qed.

Lemma clean_create_executive_dashboard (k : kpis) :
  clean (Main.create_executive_dashboard k) (fun _ => True).
Proof.
  unfold Main.create_executive_dashboard.
  eapply clean_bind; [apply clean_st_columns|]. intros cols _.
  apply clean_for_enumerate. intros i [name data] _.
  apply clean_within_column, clean_emit. reflexivity.
Qed.

Lemma clean_create_executive_summary_card title content metrics icon :
  clean (Main.create_executive_summary_card title content metrics icon) (fun _ => True).
Proof.
  unfold Main.create_executive_summary_card.
  eapply clean_seq; [apply clean_emit; reflexivity|].
  eapply clean_seq; [apply clean_emit; reflexivity|].
  destruct metrics as [[|m ms]|]; try (apply clean_ret; exact I).
  eapply clean_bind; [apply clean_st_columns|]. intros cols _.
  apply clean_metric_tiles.
Qed.

Lemma clean_create_ai_loading_spinner message :
  clean (Main.create_ai_loading_spinner message) (fun _ => True).
Proof. apply clean_emit. reflexivity. Qed.

Lemma clean_create_ai_insights_card title insight confidence icon :
  is_demo_banner (Alert AlertInfo (unescape_newlines insight)) = false ->
  clean (Main.create_ai_insights_card title insight confidence icon) (fun _ => True).
Proof.
  intros H. unfold Main.create_ai_insights_card.
  eapply clean_seq; [apply clean_emit; reflexivity | apply clean_emit; exact H].
Qed.

Lemma clean_create_ai_recommendation_list recs title :
  clean (Main.create_ai_recommendation_list recs title) (fun _ => True).
Proof.
  unfold Main.create_ai_recommendation_list.
  eapply clean_seq; [apply clean_emit; reflexivity|].
  apply clean_for_enumerate. intros i rec _. apply clean_emit. reflexivity.
Qed.

Lemma clean_create_executive_navigation_grid items :
  Forall (fun item =>
            is_demo_banner (Alert AlertInfo (dict_get item "badge" "Available")) = false)
         items ->
  clean (Main.create_executive_navigation_grid items) (fun _ => True).
Proof.
  intros H. unfold Main.create_executive_navigation_grid.
  eapply clean_bind; [apply clean_st_columns|]. intros cols _.
  apply clean_for_enumerate. intros i item Hi.
  apply clean_within_column.
  eapply clean_seq; [apply clean_emit; reflexivity|].
  eapply clean_seq; [apply clean_emit; reflexivity|].
  apply clean_emit. rewrite Forall_forall in H. apply H, Hi.
Qed.

Lemma clean_get_snowflake_session active :
  clean (DesignSystem.get_snowflake_session active) (fun _ => True).
Proof.
  unfold DesignSystem.get_snowflake_session.
  apply (clean_cache_resource _ (fun _ => True)).
  apply clean_try_except.
  - destruct active; [apply clean_ret; exact I | apply clean_raise].
  - intros e. eapply clean_seq; [apply clean_emit; reflexivity | apply clean_stop].
Qed.

(** *** The calls of the page, under the names its import block binds *)

Ltac resolved := intros; vm_compute; reflexivity.

Lemma call_inject_custom_css st :
  call_render page_namespace "inject_custom_css" st = DesignSystem.inject_custom_css st.
Proof. resolved. Qed.

Lemma call_create_sidebar_navigation st :
  call_render page_namespace "create_sidebar_navigation" st
  = DesignSystem.create_sidebar_navigation st.
Proof. resolved. Qed.

Lemma call_add_page_footer st :
  call_render page_namespace "add_page_footer" st = DesignSystem.add_page_footer st.
Proof. resolved. Qed.

Lemma call_create_page_header a b c st :
  call_header page_namespace "create_page_header" a b c st
  = DesignSystem.create_page_header a b c st.
Proof. resolved. Qed.

Lemma call_get_snowflake_session active st :
  call_session page_namespace "get_snowflake_session" active st
  = DesignSystem.get_snowflake_session active st.
Proof. resolved. Qed.

Lemma call_create_executive_demo_controller st :
  call_demo page_namespace "create_executive_demo_controller" st
  = (Ret (DemoState "baseline" false), st).
Proof. resolved. Qed.

Lemma call_create_executive_alert_banner a b st :
  call_text2 page_namespace "create_executive_alert_banner" a b st
  = Main.create_executive_alert_banner a b st.
Proof. resolved. Qed.

Lemma call_create_executive_dashboard k st :
  call_dashboard page_namespace "create_executive_dashboard" k st
  = Main.create_executive_dashboard k st.
Proof. resolved. Qed.

Lemma call_create_executive_summary_card a b m c st :
  call_summary page_namespace "create_executive_summary_card" a b m c st
  = Main.create_executive_summary_card a b m c st.
Proof. resolved. Qed.

Lemma call_create_ai_loading_spinner a st :
  call_text page_namespace "create_ai_loading_spinner" a st
  = Main.create_ai_loading_spinner a st.
Proof. resolved. Qed.

Lemma call_create_ai_insights_card a b c d st :
  call_insights page_namespace "create_ai_insights_card" a b c d st
  = Main.create_ai_insights_card a b c d st.
Proof. resolved. Qed.

Lemma call_create_ai_recommendation_list a b st :
  call_recommendations page_namespace "create_ai_recommendation_list" a b st
  = Main.create_ai_recommendation_list a b st.
Proof. resolved. Qed.

Lemma call_create_executive_navigation_grid items st :
  call_navigation page_namespace "create_executive_navigation_grid" items st
  = Main.create_executive_navigation_grid items st.
Proof. resolved. Qed.

(** *** The three parts of the page *)

Lemma clean_then {A B} (m : script A) (k : script B) (R : B -> Prop) :
  clean m (fun _ => True) -> clean k R -> clean (bind m (fun _ => k)) R.
Proof. apply clean_seq. Qed.

Lemma clean_page_head req :
  clean (page_head page_namespace req) (fun _ => True).
Proof.
  unfold page_head.
  eapply clean_seq; [apply clean_emit; reflexivity|].
  eapply clean_seq;
    [eapply clean_ext; [apply call_inject_custom_css | apply clean_emit; reflexivity]|].
  eapply clean_seq;
    [eapply clean_ext; [apply call_create_sidebar_navigation | apply clean_emit; reflexivity]|].
  eapply (clean_bind _ _ (fun d => d = DemoState "baseline" false)).
  { intros st Hst. rewrite call_create_executive_demo_controller.
    split; [exact Hst|]. intros a E. injection E as <-. reflexivity. }
  intros demo ->.
  eapply clean_seq;
    [eapply clean_ext; [apply call_get_snowflake_session | apply clean_get_snowflake_session]|].
  eapply clean_seq;
    [eapply clean_ext; [apply call_create_page_header | apply clean_emit; reflexivity]|].
  unfold demo_alert. cbn [demo_active]. apply clean_ret. exact I.
Qed.

Lemma clean_load req :
  clean (load_executive_dashboard_data req) (fun _ => True).
Proof.
  unfold load_executive_dashboard_data. apply clean_try_except.
  - eapply clean_bind; [apply clean_collect|]. intros network_data _.
    eapply clean_bind; [apply clean_collect|]. intros customer_data _.
    destruct network_data as [|n ns]; [apply clean_ret; exact I|].
    destruct customer_data as [|c cs]; [apply clean_ret; exact I|].
    eapply clean_bind; [apply (clean_lift _ (fun _ => True)); intros; exact I|].
    intros k _. apply clean_ret. exact I.
  - intros e. eapply clean_seq; [apply clean_emit; reflexivity | apply clean_ret; exact I].
Qed.

(** The strategic report opens with its fixed first lines, whatever the
    figures: the card that shows it is no banner. *)
Lemma strategic_report_is_no_banner net r :
  strategic_report net = Ret r ->
  is_demo_banner (Alert AlertInfo (unescape_newlines r)) = false.
Proof.
  unfold strategic_report.
  destruct (py_mul _ _) as [rate | |]; cbn [obind]; try discriminate.
  destruct (format_fixed 1 rate) as [text | |]; cbn [obind]; try discriminate.
  intros E. injection E as <-. reflexivity.
Qed.

Lemma clean_executive_dashboard req k net :
  clean (executive_dashboard page_namespace req k net) (fun _ => True).
Proof.
  unfold executive_dashboard.
  eapply clean_seq; [apply clean_emit; reflexivity|].
  eapply clean_seq;
    [eapply clean_ext; [apply call_create_executive_dashboard
                       | apply clean_create_executive_dashboard]|].
  eapply clean_seq; [apply clean_emit; reflexivity|].
  eapply clean_seq; [apply clean_st_columns_spec|].
  eapply clean_seq.
  { apply clean_within_column.
    eapply clean_bind; [apply (clean_lift _ (fun _ => True)); intros; exact I|].
    intros content _.
    eapply clean_ext; [apply call_create_executive_summary_card
                      | apply clean_create_executive_summary_card]. }
  apply clean_within_column.
  eapply clean_seq; [apply clean_emit; reflexivity|].
  eapply clean_bind; [apply clean_st_button|]. intros strategic _.
  apply clean_then.
  { destruct strategic; [|apply clean_ret; exact I].
    eapply clean_seq;
      [eapply clean_ext; [apply call_create_ai_loading_spinner
                         | apply clean_create_ai_loading_spinner]|].
    eapply clean_bind; [apply clean_lift; intros r Hr; exact (strategic_report_is_no_banner _ _ Hr)|].
    intros report Hreport.
    eapply clean_ext; [apply call_create_ai_insights_card
                      | apply clean_create_ai_insights_card, Hreport]. }
  eapply clean_bind; [apply clean_st_button|]. intros risk _.
  destruct risk; [|apply clean_ret; exact I].
  eapply clean_seq;
    [eapply clean_ext; [apply call_create_ai_loading_spinner
                       | apply clean_create_ai_loading_spinner]|].
  eapply clean_ext; [apply call_create_ai_recommendation_list
                    | apply clean_create_ai_recommendation_list].
Qed.

Lemma clean_fallback_preview : clean (fallback_preview page_namespace) (fun _ => True).
Proof.
  unfold fallback_preview.
  eapply clean_seq.
  { eapply clean_ext; [apply call_create_executive_alert_banner|].
    apply clean_emit. reflexivity. }
  eapply clean_seq; [apply clean_emit; reflexivity|].
  eapply clean_seq;
    [eapply clean_ext; [apply call_create_executive_dashboard
                       | apply clean_create_executive_dashboard]|].
  eapply clean_ext; [apply call_create_executive_summary_card
                    | apply clean_create_executive_summary_card].
Qed.

Lemma clean_page_data req : clean (page_data page_namespace req) (fun _ => True).
Proof.
  unfold page_data.
  eapply clean_bind;
    [apply (clean_cache_data _ _ _ (fun _ => True)), clean_load|].
  intros [[k net] cust] _. unfold dashboard_section.
  destruct k as [k|]; [|apply clean_fallback_preview].
  destruct net as [net|]; [|apply clean_fallback_preview].
  destruct cust as [cust|]; [|apply clean_fallback_preview].
  destruct (dict_truthy k);
    [apply clean_executive_dashboard | apply clean_fallback_preview].
Qed.

Lemma clean_page_tail : clean (page_tail page_namespace) (fun _ => True).
Proof.
  unfold page_tail.
  eapply clean_seq; [apply clean_emit; reflexivity|].
  eapply clean_seq; [apply clean_emit; reflexivity|].
  eapply clean_seq.
  { eapply clean_ext; [apply call_create_executive_navigation_grid|].
    apply clean_create_executive_navigation_grid.
    unfold navigation_items. repeat constructor. }
  eapply clean_seq.
  { unfold technology_section.
    eapply clean_seq; [apply clean_emit; reflexivity|].
    eapply clean_seq; [apply clean_emit; reflexivity|].
    eapply clean_seq; [apply clean_st_columns|].
    repeat (eapply clean_seq; [apply clean_within_column, clean_emit; reflexivity|]).
    apply clean_within_column, clean_emit. reflexivity. }
  eapply clean_seq.
  { unfold success_metrics_section.
    eapply clean_seq; [apply clean_emit; reflexivity|].
    eapply clean_seq; [apply clean_emit; reflexivity|].
    eapply clean_seq; [apply clean_st_columns|].
    repeat (eapply clean_seq; [apply clean_within_column, clean_emit; reflexivity|]).
    apply clean_within_column, clean_emit. reflexivity. }
  eapply clean_seq.
  { eapply clean_ext; [apply call_add_page_footer|].
    unfold DesignSystem.add_page_footer.
    eapply clean_seq; [apply clean_emit; reflexivity|].
    eapply clean_seq; [apply clean_emit; reflexivity|].
    apply clean_emit. reflexivity. }
  eapply clean_seq; [apply clean_emit; reflexivity|].
  apply clean_emit. reflexivity.
Qed.

Lemma clean_main_page req : clean (main_page req) (fun _ => True).
Proof.
  intros st Hst. rewrite main_page_phases.
  destruct (clean_page_head req st Hst) as [H1 _].
  destruct (page_head page_namespace req st) as [[u | e |] st1]; cbn [snd] in H1;
    try (split; [exact H1 | intros; exact I]).
  destruct (clean_page_data req st1 H1) as [H2 _].
  destruct (page_data page_namespace req st1) as [[u2 | e |] st2]; cbn [snd] in H2;
    try (split; [exact H2 | intros; exact I]).
  destruct (clean_page_tail st2 H2) as [H3 _].
  split; [exact H3 | intros; exact I].
Qed.

Lemma reachable_no_banner st : reachable st -> no_banner st.
Proof.
  induction 1 as [|st req _ IH].
  - split; [constructor | exact I].
  - apply clean_main_page. destruct IH as [_ Hc]. split; [constructor | exact Hc].
Qed.

(** C8.  [design_system] binds none of the five [create_executive_*] names,
    so the first import of the page raises [ImportError]; the names of the
    page are then bound to the ten fallback definitions; the demo controller
    the page calls returns the baseline scenario with the demo inactive; and
    on no page load, whatever the requests served before it, is the demo
    banner on the screen. *)
Theorem demo_banner_never_rendered :
  (forall name, In name executive_names -> lookup DesignSystem.exports name = None)
  /\ (exists e bound,
        import_from "utils.design_system" DesignSystem.exports first_import []
        = (Some e, bound)
        /\ exn_type e = ImportError)
  /\ (forall name v, In (name, v) fallback_definitions ->
                     lookup page_namespace name = Some v)
  /\ (forall st,
        call_demo page_namespace "create_executive_demo_controller" st
        = (Ret (DemoState "baseline" false), st))
  /\ (forall st, reachable st -> existsb is_demo_banner (screen st) = false).
Proof.
  split; [|split; [|split; [|split]]].
  - intros name H. unfold executive_names in H. cbn [In] in H.
    repeat (destruct H as [<- | H]; [vm_compute; reflexivity|]). contradiction.
  - do 2 eexists. split; vm_compute; reflexivity.
  - intros name v H. unfold fallback_definitions in H. cbn [In] in H.
    repeat (destruct H as [E | H]; [injection E as <- <-; vm_compute; reflexivity|]).
    contradiction.
  - apply call_create_executive_demo_controller.
  - intros st H. destruct (reachable_no_banner st H) as [Hs _].
    unfold banner_free in Hs. induction Hs as [|e l He _ IH]; [reflexivity|].
    cbn [existsb]. rewrite He, IH. reflexivity.
Qed.

(** ** Empty collections *)

(** ** Further properties *)

(** A sample row: 1000 towers, an average success rate of 0.95, three
    critical issues and 950 premium towers show 95.0%, 1,000, 3 and 95%. *)
Theorem network_kpis_of_the_sample_row (utilization throughput : option float) :
  let net := NetworkRow (Some 1000%Z) (Some (literal (95 # 100))) (Some 3%Z)
                        utilization throughput (Some 950%Z) in
  network_uptime net = Ret "95.0%"
  /\ active_infrastructure net = "1,000"
  /\ risk_incidents net = "3"
  /\ premium_performance net = Ret "95%".
Proof.
  intros net. unfold net.
  split; [vm_compute; reflexivity|]. split; [vm_compute; reflexivity|].
  split; vm_compute; reflexivity.
Qed.

(** Whatever it returns, the load sends the network query first. *)
Lemma load_sends_network_query req st :
  exists rest,
    executed (snd (load_executive_dashboard_data req st))
    = (executed st ++ network_query :: rest)%list.
Proof.
  destruct req as [t act net cust b1 b2], st as [scr ex res c].
  unfold load_executive_dashboard_data, try_except, bind, collect, lift.
  cbn [network_answer customer_answer screen executed resource_cache data_cache].
  destruct net as [[|n ns] | e]; [| |exists []; reflexivity];
    destruct cust as [[|cr cs] | e'];
    try (exists [customer_query]; cbn; rewrite <- app_assoc; reflexivity).
  destruct (derive_exec_kpis n cr);
    exists [customer_query]; cbn; rewrite <- app_assoc; reflexivity.
Qed.

(** X2.  A result the load returned is served from the cache, without a
    query, to every call made less than 300 seconds after the call that
    stored it; a call made 300 seconds after it or later finds no live entry
    and sends the queries again. *)
Theorem cache_serves_for_300_seconds (req : request) (st : state) (v : dashboard_data) :
  live cache_ttl (now req) (data_cache st) = None ->
  fst (load_executive_dashboard_data req (with_screen st [])) = Ret v ->
  let stored := snd (load_executive_dashboard_data_cached req st) in
  fst (load_executive_dashboard_data_cached req st) = Ret v
  /\ (forall req' st2,
        data_cache st2 = data_cache stored ->
        (now req' < now req + 300)%Z ->
        fst (load_executive_dashboard_data_cached req' st2) = Ret v
        /\ executed (snd (load_executive_dashboard_data_cached req' st2)) = executed st2)
  /\ (forall req' st2,
        data_cache st2 = data_cache stored ->
        (now req + 300 <= now req')%Z ->
        exists rest,
          executed (snd (load_executive_dashboard_data_cached req' st2))
          = (executed st2 ++ network_query :: rest)%list).
Proof.
  intros Hlive Hv stored. unfold stored, load_executive_dashboard_data_cached.
  rewrite cache_data_miss by exact Hlive.
  destruct (load_executive_dashboard_data req (with_screen st [])) as [o st'] eqn:E.
  cbn [fst] in Hv. subst o. cbn [fst snd data_cache].
  split; [reflexivity|]. split.
  - intros req' st2 Hc Hnow.
    rewrite (cache_data_hit _ _ _ _ (CacheEntry (now req) v (screen st'))).
    + split; reflexivity.
    + rewrite Hc. unfold live. cbn [stored_at]. unfold cache_ttl.
      apply Z.ltb_lt in Hnow. rewrite Hnow. reflexivity.
  - intros req' st2 Hc Hnow.
    rewrite cache_data_miss.
    + destruct (load_sends_network_query req' (with_screen st2 [])) as [rest Hrest].
      destruct (load_executive_dashboard_data req' (with_screen st2 [])) as [o' st3].
      cbn [snd executed] in *. exists rest. exact Hrest.
    + rewrite Hc. unfold live. cbn [stored_at]. unfold cache_ttl.
      apply Z.ltb_ge in Hnow. rewrite Hnow. reflexivity.
Qed.

Lemma cache_serves_for_300_seconds_witness :
  let req := Request 0 (Answers ActiveSession)
                     (Answers [NetworkRow (Some 1000%Z) None (Some 3%Z) None None (Some 950%Z)])
                     (Answers [CustomerRow (Some 10%Z) None None None None])
                     false false in
  let st := fresh (Some ActiveSession) None in
  exists v,
    let stored := snd (load_executive_dashboard_data_cached req st) in
    fst (load_executive_dashboard_data_cached req st) = Ret v
    /\ (forall req' st2,
          data_cache st2 = data_cache stored ->
          (now req' < now req + 300)%Z ->
          fst (load_executive_dashboard_data_cached req' st2) = Ret v
          /\ executed (snd (load_executive_dashboard_data_cached req' st2)) = executed st2)
    /\ (forall req' st2,
          data_cache st2 = data_cache stored ->
          (now req + 300 <= now req')%Z ->
          exists rest,
            executed (snd (load_executive_dashboard_data_cached req' st2))
            = (executed st2 ++ network_query :: rest)%list).
Proof.
  intros req st. eexists.
  apply (cache_serves_for_300_seconds req st); [reflexivity | vm_compute; reflexivity].
Defined.

(* ================================================================== *)
(** * Further properties: the components *)
(* ================================================================== *)

Import Components Coverage.

(** ** Loops that draw *)

Lemma with_screen_screen st l : screen (with_screen st l) = l.
Proof. reflexivity. Qed.

Lemma with_screen_twice st l l' : with_screen (with_screen st l) l' = with_screen st l'.
Proof. reflexivity. Qed.

Lemma with_screen_same st : with_screen st (screen st) = st.
Proof. destruct st; reflexivity. Qed.

Lemma enumerate_cons {A} start (x : A) xs :
  enumerate start (x :: xs) = (start, x) :: enumerate (S start) xs.
Proof. reflexivity. Qed.

Lemma enumerate_numbers {A} start (xs : list A) :
  map fst (enumerate start xs) = seq start (List.length xs).
Proof.
  revert start. induction xs as [|x xs IH]; intros start; [reflexivity|].
  rewrite enumerate_cons. cbn. f_equal. apply IH.
Qed.

Lemma enumerate_items {A} start (xs : list A) : map snd (enumerate start xs) = xs.
Proof.
  revert start. induction xs as [|x xs IH]; intros start; [reflexivity|].
  rewrite enumerate_cons. cbn. f_equal. apply IH.
Qed.

(** A loop whose body draws and returns draws what its rounds draw, in
    order. *)
Lemma for_enumerate_draws {A} (body : nat -> A -> script unit)
      (drawn : nat * A -> list element) (xs : list A) :
  (forall i x st, In x xs ->
     body i x st = (Ret tt, with_screen st (screen st ++ drawn (i, x))%list)) ->
  forall start st,
    for_enumerate start xs body st
    = (Ret tt, with_screen st (screen st ++ flat_map drawn (enumerate start xs))%list).
Proof.
  induction xs as [|x xs IH]; intros Hbody start st.
  - cbn. rewrite app_nil_r, with_screen_same. reflexivity.
  - cbn [for_enumerate]. unfold bind. rewrite Hbody by (left; reflexivity).
    rewrite IH by (intros; apply Hbody; right; assumption).
    rewrite enumerate_cons. cbn [flat_map].
    rewrite with_screen_twice, with_screen_screen, <- app_assoc. reflexivity.
Qed.

Lemma flat_map_single {A B} (f : A -> B) (l : list A) :
  flat_map (fun x => [f x]) l = map f l.
Proof. induction l as [|x l IH]; cbn; [reflexivity | rewrite IH; reflexivity]. Qed.

Lemma for_enumerate_draws_one {A} (body : nat -> A -> script unit)
      (drawn : nat * A -> element) (xs : list A) :
  (forall i x st, In x xs ->
     body i x st = (Ret tt, with_screen st (screen st ++ [drawn (i, x)])%list)) ->
  forall start st,
    for_enumerate start xs body st
    = (Ret tt, with_screen st (screen st ++ map drawn (enumerate start xs))%list).
Proof.
  intros Hbody start st.
  rewrite (for_enumerate_draws body (fun p => [drawn p]) xs Hbody).
  rewrite flat_map_single. reflexivity.
Qed.

Lemma for_enumerate_app {A} (body : nat -> A -> script unit) (xs ys : list A) :
  forall start st,
    for_enumerate start (xs ++ ys) body st
    = match for_enumerate start xs body st with
      | (Ret _, st') => for_enumerate (start + List.length xs) ys body st'
      | other => other
      end.
Proof.
  induction xs as [|x xs IH]; intros start st.
  - cbn. rewrite Nat.add_0_r. reflexivity.
  - cbn [app for_enumerate List.length]. unfold bind.
    destruct (body start x st) as [[[]|e|] st']; try reflexivity.
    rewrite IH.
    replace (S start + List.length xs)%nat with (start + S (List.length xs))%nat by lia.
    reflexivity.
Qed.

Lemma st_columns_positive n st :
  (0 < n)%nat ->
  st_columns n st = (Ret n, with_screen st (screen st ++ [Columns (repeat 1%nat n)])%list).
Proof.
  intros Hn. unfold st_columns, st_columns_spec.
  replace (Nat.eqb (List.length (repeat 1%nat n)) 0) with false
    by (rewrite repeat_length; symmetry; apply Nat.eqb_neq; lia).
  replace (existsb (Nat.eqb 0) (repeat 1%nat n)) with false.
  - cbn. rewrite repeat_length. reflexivity.
  - symmetry. clear Hn. induction n; [reflexivity | exact IHn].
Qed.

Lemma strip_kpi_tiles cols k :
  map strip_columns (kpi_tiles cols k) = map (fun '(name, data) => Metric name (value data)) k.
Proof.
  unfold kpi_tiles, enumerate. generalize 0%nat.
  induction k as [|[name data] k IH]; intros start; [reflexivity|].
  cbn. f_equal. apply IH.
Qed.

(** ** Tiles *)

(** X9.  On a mapping that is not empty the stand-in
    [create_executive_dashboard] of [main.py] returns without an exception,
    having drawn [min(4, n)] columns and then one tile per KPI, in the order
    of the mapping, each with the name and the value of its KPI, the tile at
    position [i] in column [i mod min(4, n)]. *)
Theorem executive_dashboard_one_tile_per_kpi (k : kpis) (st : state) :
  k <> [] ->
  let cols := Nat.min 4 (List.length k) in
  Main.create_executive_dashboard k st
  = (Ret tt,
     with_screen st (screen st ++ Columns (repeat 1%nat cols) :: kpi_tiles cols k)%list)
  /\ map strip_columns (kpi_tiles cols k)
     = map (fun '(name, data) => Metric name (value data)) k
  /\ Forall (fun tile => exists i e, tile = InColumn i e /\ (i < cols)%nat) (kpi_tiles cols k).
Proof.
  intros Hk cols.
  assert (Hcols : (0 < cols)%nat).
  { unfold cols. destruct k; [contradiction | cbn [List.length]; lia]. }
  split; [|split].
  - unfold Main.create_executive_dashboard, bind.
    rewrite (st_columns_positive _ _ Hcols).
    fold cols.
    rewrite (for_enumerate_draws_one _
               (fun '(i, (name, data)) => InColumn (i mod cols) (Metric name (value data)))).
    + rewrite with_screen_twice, with_screen_screen, <- app_assoc. reflexivity.
    + intros i [name data] st' _. reflexivity.
  - apply strip_kpi_tiles.
  - unfold kpi_tiles. apply Forall_forall. intros tile Hin.
    apply in_map_iff in Hin. destruct Hin as [[i [name data]] [<- _]].
    exists (i mod cols)%nat, (Metric name (value data)). split; [reflexivity|].
    apply Nat.mod_upper_bound. lia.
Qed.

Lemma executive_dashboard_one_tile_per_kpi_witness :
  let k := preview_kpis in
  let st := fresh None None in
  let cols := Nat.min 4 (List.length k) in
  Main.create_executive_dashboard k st
  = (Ret tt,
     with_screen st (screen st ++ Columns (repeat 1%nat cols) :: kpi_tiles cols k)%list)
  /\ map strip_columns (kpi_tiles cols k)
     = map (fun '(name, data) => Metric name (value data)) k
  /\ Forall (fun tile => exists i e, tile = InColumn i e /\ (i < cols)%nat) (kpi_tiles cols k).
Proof.
  apply (executive_dashboard_one_tile_per_kpi preview_kpis (fresh None None)). discriminate.
Defined.

(** X10.  On a dict that is not empty both metrics dashboards return without
    an exception, having drawn one tile per metric in the order of the
    dict.  The one of the design system draws [min(4, n)] columns, tile [i]
    in column [i mod min(4, n)] under the icon [i mod 8]; the stand-in of
    [main.py] draws [n] columns, so that every tile has a column of its own,
    however many metrics there are. *)
Theorem metrics_dashboards_one_tile_per_metric (metrics : dict) (st : state) :
  metrics <> [] ->
  let n := List.length metrics in
  DesignSystem.create_ai_metrics_dashboard metrics st
  = (Ret tt,
     with_screen st (screen st ++ Columns (repeat 1%nat (Nat.min 4 n))
                                :: ai_metric_tiles (Nat.min 4 n) metrics)%list)
  /\ Main.create_ai_metrics_dashboard metrics st
     = (Ret tt,
        with_screen st (screen st ++ Columns (repeat 1%nat n) :: metric_tiles n metrics)%list)
  /\ metric_tiles n metrics
     = map (fun '(i, (key, val)) => InColumn i (Metric key val)) (enumerate 0 metrics).
Proof.
  intros Hm n.
  assert (Hn : (0 < List.length metrics)%nat) by (destruct metrics; [contradiction | cbn; lia]).
  subst n. split; [|split].
  - replace (DesignSystem.create_ai_metrics_dashboard metrics)
      with (bind (st_columns (Nat.min 4 (List.length metrics)))
              (fun cols => for_enumerate 0 metrics (fun i '(metric, val) =>
                 within_column (i mod cols)
                   (emit (Html "ai-metric-tile"
                            [nth (i mod List.length DesignSystem.metric_icons)
                                 DesignSystem.metric_icons "";
                             val; metric])))))
      by (destruct metrics; [contradiction | reflexivity]).
    unfold bind. rewrite st_columns_positive by lia.
    rewrite (for_enumerate_draws_one _
               (fun '(i, (metric, val)) =>
                  InColumn (i mod Nat.min 4 (List.length metrics))
                    (Html "ai-metric-tile"
                          [nth (i mod 8) DesignSystem.metric_icons ""; val; metric]))).
    + rewrite with_screen_twice, with_screen_screen, <- app_assoc. reflexivity.
    + intros i [metric val] st' _. reflexivity.
  - unfold Main.create_ai_metrics_dashboard, bind.
    rewrite st_columns_positive by lia.
    rewrite (for_enumerate_draws_one _
               (fun '(i, (key, val)) =>
                  InColumn (i mod List.length metrics) (Metric key val))).
    + rewrite with_screen_twice, with_screen_screen, <- app_assoc. reflexivity.
    + intros i [key val] st' _. reflexivity.
  - unfold metric_tiles. apply map_ext_in. intros [i [key val]] Hin.
    unfold enumerate in Hin. apply in_combine_l in Hin. apply in_seq in Hin.
    rewrite Nat.mod_small by lia. reflexivity.
Qed.

Lemma metrics_dashboards_one_tile_per_metric_witness :
  let metrics := [ ("Latency", "12 ms"); ("Accuracy", "92%"); ("Models", "40+");
                   ("Uptime", "99.9%"); ("Queries", "1,204") ] in
  let st := fresh None None in
  let n := List.length metrics in
  DesignSystem.create_ai_metrics_dashboard metrics st
  = (Ret tt,
     with_screen st (screen st ++ Columns (repeat 1%nat (Nat.min 4 n))
                                :: ai_metric_tiles (Nat.min 4 n) metrics)%list)
  /\ Main.create_ai_metrics_dashboard metrics st
     = (Ret tt,
        with_screen st (screen st ++ Columns (repeat 1%nat n) :: metric_tiles n metrics)%list)
  /\ metric_tiles n metrics
     = map (fun '(i, (key, val)) => InColumn i (Metric key val)) (enumerate 0 metrics).
Proof.
  apply (metrics_dashboards_one_tile_per_metric
           [ ("Latency", "12 ms"); ("Accuracy", "92%"); ("Models", "40+");
             ("Uptime", "99.9%"); ("Queries", "1,204") ]
           (fresh None None)).
  discriminate.
Defined.

(** X11.  Whatever the items, the stand-in navigation grid returns without an
    exception: three columns, then for each item, in order, its heading, its
    description and its badge in column [i mod 3]; an item without a key
    shows the default of that key. *)
Theorem navigation_grid_three_to_a_row (items : list dict) (st : state) :
  Main.create_executive_navigation_grid items st
  = (Ret tt,
     with_screen st
       (screen st ++ Columns [1; 1; 1]%nat
                  :: flat_map (fun '(i, item) => navigation_tile i item) (enumerate 0 items))%list)
  /\ (forall i,
        navigation_tile i []
        = [ InColumn (i mod 3) (Markdown "### 📊 Item");
            InColumn (i mod 3) (Markdown "");
            InColumn (i mod 3) (Alert AlertInfo "Available") ]).
Proof.
  split; [|intros i; reflexivity].
  unfold Main.create_executive_navigation_grid, bind.
  rewrite st_columns_positive by lia.
  rewrite (for_enumerate_draws _ (fun '(i, item) => navigation_tile i item)).
  - rewrite with_screen_twice, with_screen_screen, <- app_assoc. reflexivity.
  - intros i item st' _. reflexivity.
Qed.

Lemma recommendation_items_enumerate i recs :
  DesignSystem.recommendation_items i recs
  = flat_map (fun '(j, rec) => [str_int (Z.of_nat j); rec]) (enumerate i recs).
Proof.
  revert i. induction recs as [|rec recs IH]; intros i; [reflexivity|].
  cbn [DesignSystem.recommendation_items]. rewrite IH, enumerate_cons. reflexivity.
Qed.

(** X12.  Both lists of recommendations number their items 1, 2, ... in the
    order given.  The stand-in of [main.py] draws its heading and then one
    line [i. text] per item; the one of the design system draws, for a list
    that is not empty, a single block with the title and the numbered
    items. *)
Theorem recommendations_are_numbered_from_one (recs : list string) (title : string)
        (st : state) :
  Main.create_ai_recommendation_list recs title st
  = (Ret tt,
     with_screen st
       (screen st ++ Markdown ("### " ++ title)%string :: recommendation_lines recs)%list)
  /\ (recs <> [] ->
      DesignSystem.create_ai_recommendation_list recs title st
      = (Ret tt,
         with_screen st
           (screen st
            ++ [Html "ai-recommendation-list"
                     (title :: flat_map (fun '(i, rec) => [str_int (Z.of_nat i); rec])
                                        (enumerate 1 recs))])%list))
  /\ map fst (enumerate 1 recs) = seq 1 (List.length recs)
  /\ map snd (enumerate 1 recs) = recs.
Proof.
  split; [|split; [|split]].
  - unfold Main.create_ai_recommendation_list, bind, emit.
    rewrite (for_enumerate_draws_one _
               (fun '(i, rec) => Markdown (str_int (Z.of_nat i) ++ ". " ++ rec)%string)).
    + rewrite with_screen_twice, with_screen_screen, <- app_assoc. reflexivity.
    + intros i rec st' _. reflexivity.
  - intros Hr. destruct recs as [|rec recs]; [contradiction|].
    unfold DesignSystem.create_ai_recommendation_list, emit.
    rewrite recommendation_items_enumerate. reflexivity.
  - apply enumerate_numbers.
  - apply enumerate_items.
Qed.

(** ** The grid of metric cards *)

Lemma dict_get_find d key v default : dict_find d key = Some v -> dict_get d key default = v.
Proof.
  induction d as [|[k w] d IH]; cbn; [discriminate|].
  destruct (String.eqb k key); [intros [= ->]; reflexivity | exact IH].
Qed.

Lemma no_unexpected_key (metric : dict) :
  forallb (fun '(k, _) => existsb (String.eqb k) card_parameters) metric = true ->
  find (fun '(k, _) => negb (existsb (String.eqb k) card_parameters)) metric = None.
Proof.
  induction metric as [|[k v] metric IH]; cbn [forallb find]; [reflexivity|].
  intros H. apply andb_prop in H. destruct H as [Hk Hrest].
  rewrite Hk. cbn [negb]. apply IH, Hrest.
Qed.

Lemma some_unexpected_key (metric : dict) :
  forallb (fun '(k, _) => existsb (String.eqb k) card_parameters) metric = false ->
  exists k v,
    find (fun '(k, _) => negb (existsb (String.eqb k) card_parameters)) metric = Some (k, v).
Proof.
  induction metric as [|[k v] metric IH]; cbn [forallb find]; [discriminate|].
  destruct (existsb (String.eqb k) card_parameters); cbn [negb andb].
  - exact IH.
  - intros _. exists k, v. reflexivity.
Qed.

Lemma call_metric_card_accepted metric st :
  card_arguments metric = true ->
  call_metric_card metric st
  = (Ret tt, with_screen st (screen st ++ [metric_card metric])%list).
Proof.
  unfold card_arguments, call_metric_card, metric_card. intros H.
  apply andb_prop in H. destruct H as [Hkeys Hreq].
  rewrite (no_unexpected_key _ Hkeys).
  destruct (dict_find metric "title") as [title|] eqn:Ht; [|discriminate].
  destruct (dict_find metric "value") as [value|] eqn:Hv; [|discriminate].
  rewrite (dict_get_find _ _ _ _ Ht), (dict_get_find _ _ _ _ Hv). reflexivity.
Qed.

Lemma call_metric_card_refused metric st :
  card_arguments metric = false ->
  exists e, exn_type e = TypeError /\ call_metric_card metric st = (Raised e, st).
Proof.
  unfold card_arguments, call_metric_card. intros H.
  destruct (forallb _ metric) eqn:Hkeys.
  - rewrite (no_unexpected_key _ Hkeys). cbn [andb] in H.
    destruct (dict_find metric "title"), (dict_find metric "value");
      try discriminate; eexists; (split; [|reflexivity]); reflexivity.
  - destruct (some_unexpected_key _ Hkeys) as [k [v Hf]].
    rewrite Hf. eexists; (split; [|reflexivity]); reflexivity.
Qed.

Lemma metric_grid_cards columns good st start :
  forallb card_arguments good = true ->
  for_enumerate start good
    (fun i metric => within_column (i mod columns) (call_metric_card metric)) st
  = (Ret tt,
     with_screen st
       (screen st ++ map (fun '(i, metric) => InColumn (i mod columns) (metric_card metric))
                         (enumerate start good))%list).
Proof.
  intros Hgood. apply for_enumerate_draws_one.
  intros i metric st' Hin. unfold within_column.
  rewrite forallb_forall in Hgood.
  rewrite (call_metric_card_accepted _ _ (Hgood _ Hin)). reflexivity.
Qed.

(** X13.  [create_metric_grid] with a positive number of columns draws the
    columns and then one card per dict, in order, card [i] in column
    [i mod columns], as long as each dict holds keyword arguments of
    [create_metric_card]; at the first dict that does not (a key that is no
    parameter, or no [title] or [value]) it raises [TypeError], the cards
    before it drawn.  With no column at all it raises the exception of
    [st.columns] and draws nothing, whatever the dicts. *)
Theorem metric_grid_draws_cards_until_a_bad_one (columns : nat) (good rest : list dict)
        (st : state) :
  (0 < columns)%nat ->
  forallb card_arguments good = true ->
  let drawn := (screen st ++ Columns (repeat 1%nat columns) :: grid_cards columns good)%list in
  create_metric_grid good columns st = (Ret tt, with_screen st drawn)
  /\ (forall bad, card_arguments bad = false ->
        exists e, exn_type e = TypeError
                  /\ create_metric_grid (good ++ bad :: rest) columns st
                     = (Raised e, with_screen st drawn))
  /\ (exists e, exn_type e = StreamlitAPIException
                /\ create_metric_grid (good ++ rest) 0 st = (Raised e, st)).
Proof.
  intros Hc Hgood drawn. split; [|split].
  - unfold create_metric_grid, bind. rewrite st_columns_positive by assumption.
    rewrite metric_grid_cards by assumption.
    rewrite with_screen_twice, with_screen_screen, <- app_assoc. reflexivity.
  - intros bad Hbad. unfold create_metric_grid, bind.
    rewrite st_columns_positive by assumption.
    rewrite for_enumerate_app, metric_grid_cards by assumption.
    cbn [for_enumerate]. unfold bind, within_column.
    match goal with
    | |- context [call_metric_card bad ?s] =>
        destruct (call_metric_card_refused bad s Hbad) as [e [He ->]]
    end.
    exists e. split; [exact He|].
    cbn [map]. rewrite app_nil_r. rewrite !with_screen_twice, !with_screen_screen.
    rewrite <- app_assoc. reflexivity.
  - eexists. split; [|reflexivity]. reflexivity.
Qed.

Lemma metric_grid_draws_cards_until_a_bad_one_witness :
  let good := [ [("title", "Towers"); ("value", "1,000")];
                [("title", "Uptime"); ("value", "95.0%"); ("delta", "+2.1%");
                 ("delta_color", "positive")] ] in
  let rest := [ [("title", "Tickets"); ("value", "10")] ] in
  let st := fresh None None in
  let drawn := (screen st ++ Columns (repeat 1%nat 3) :: grid_cards 3 good)%list in
  create_metric_grid good 3 st = (Ret tt, with_screen st drawn)
  /\ (forall bad, card_arguments bad = false ->
        exists e, exn_type e = TypeError
                  /\ create_metric_grid (good ++ bad :: rest) 3 st
                     = (Raised e, with_screen st drawn))
  /\ (exists e, exn_type e = StreamlitAPIException
                /\ create_metric_grid (good ++ rest) 0 st = (Raised e, st)).
Proof.
  apply (metric_grid_draws_cards_until_a_bad_one 3
           [ [("title", "Towers"); ("value", "1,000")];
             [("title", "Uptime"); ("value", "95.0%"); ("delta", "+2.1%");
              ("delta_color", "positive")] ]
           [ [("title", "Tickets"); ("value", "10")] ]
           (fresh None None)).
  - lia.
  - reflexivity.
Defined.

(** ** The model selector *)

(** No two models share an option of the select box. *)
Lemma describe_injective a b : describe a = describe b -> a = b.
Proof.
  unfold describe, model_descriptions. cbn [dict_get].
  repeat match goal with
         | |- context [String.eqb ?k a] =>
             destruct (String.eqb_spec k a) as [<- | ?]
         end;
  repeat match goal with
         | |- context [String.eqb ?k b] =>
             destruct (String.eqb_spec k b) as [<- | ?]
         end;
  intros H; try reflexivity; try discriminate H.
  cbn in H. injection H as H. exact H.
Qed.

Lemma index_of_first x l i :
  nth_error l i = Some x ->
  exists j, index_of x l = Some j /\ nth_error l j = Some x.
Proof.
  revert i. induction l as [|y l IH]; intros i Hi.
  - destruct i; discriminate Hi.
  - cbn [index_of]. destruct (String.eqb_spec y x) as [-> | Hne].
    + exists 0%nat. split; reflexivity.
    + destruct i as [|i]; [cbn in Hi; congruence|].
      destruct (IH i Hi) as [j [Hj Hn]]. exists (S j). rewrite Hj. split; [reflexivity | exact Hn].
Qed.

Lemma index_of_member x l : In x l -> exists j, index_of x l = Some j /\ nth_error l j = Some x.
Proof.
  intros Hin. apply In_nth_error in Hin. destruct Hin as [i Hi]. exact (index_of_first _ _ _ Hi).
Qed.

Lemma index_of_absent x l : ~ In x l -> index_of x l = None.
Proof.
  induction l as [|y l IH]; intros Hn; [reflexivity|].
  cbn [index_of]. destruct (String.eqb_spec y x) as [-> | Hne].
  - exfalso. apply Hn. left. reflexivity.
  - rewrite IH; [reflexivity|]. intros Hin. apply Hn. right. exact Hin.
Qed.

Lemma selector_returns models default_model picked i m :
  match picked with Some p => p | None => default_index models default_model end = i ->
  nth_error models i = Some m ->
  create_model_selector models default_model picked
  = (selector_widgets models default_model m, Returns m).
Proof.
  intros Hi Hm. unfold create_model_selector, selector_widgets, st_selectbox. rewrite Hi.
  rewrite nth_error_map, Hm. cbn [option_map].
  assert (Ho : nth_error (map describe models) i = Some (describe m))
    by (rewrite nth_error_map, Hm; reflexivity).
  destruct (index_of_first _ _ _ Ho) as [j [Hj Hn]]. rewrite Hj.
  rewrite nth_error_map in Hn.
  destruct (nth_error models j) as [m'|] eqn:Hj'; [|discriminate].
  cbn in Hn. injection Hn as Hn. apply describe_injective in Hn. subst m'.
  rewrite (nth_error_nth _ _ _ Hj'). reflexivity.
Qed.

(** X15.  [create_model_selector] returns the model whose option the user
    picked, whatever the list of models: a model the selector has no
    description of, or one listed twice, is found again from its option,
    since no two models share an option.  As long as the user picks nothing
    it returns [default_model] if that is one of the models, and the first
    model otherwise.  It shows the description of the model it returns when it
    has one.  With no model at all, [options.index] raises [ValueError] after
    the heading and the empty select box. *)
Theorem model_selector_returns_the_picked_model (models : list string)
        (default_model : string) :
  (forall i m, nth_error models i = Some m ->
     create_model_selector models default_model (Some i)
     = (selector_widgets models default_model m, Returns m))
  /\ (In default_model models ->
      create_model_selector models default_model None
      = (selector_widgets models default_model default_model, Returns default_model))
  /\ (forall first others, models = first :: others -> ~ In default_model models ->
      create_model_selector models default_model None
      = (selector_widgets models default_model first, Returns first))
  /\ (forall picked,
        create_model_selector [] default_model picked
        = ([ Drawn (Markdown "### 🤖 AI Model Configuration");
             Selectbox "Choose AI Model:" [] 0 ],
           RaisesValueError)).
Proof.
  split; [|split; [|split]].
  - intros i m Hm. apply (selector_returns _ _ _ i); [reflexivity | exact Hm].
  - intros Hin. destruct (index_of_member _ _ Hin) as [j [Hj Hn]].
    apply (selector_returns _ _ _ j); [|exact Hn].
    unfold default_index. rewrite Hj. reflexivity.
  - intros first others -> Hout.
    apply (selector_returns _ _ _ 0%nat); [|reflexivity].
    unfold default_index. rewrite (index_of_absent _ _ Hout). reflexivity.
  - intros picked. unfold create_model_selector, st_selectbox. cbn [map].
    destruct picked as [[|p]|]; reflexivity.
Qed.

(** ** The session and the queries run through it *)

Lemma get_session_cached active st s :
  resource_cache st = Some s ->
  DesignSystem.get_snowflake_session active st = (Ret s, st).
Proof.
  intros H. unfold DesignSystem.get_snowflake_session, cache_resource. rewrite H. reflexivity.
Qed.

Lemma get_session_first st s :
  resource_cache st = None ->
  DesignSystem.get_snowflake_session (Answers s) st
  = (Ret s, State (screen st) (executed st) (Some s) (data_cache st)).
Proof.
  intros H. unfold DesignSystem.get_snowflake_session, cache_resource. rewrite H. reflexivity.
Qed.

Lemma get_session_unreachable st e :
  resource_cache st = None ->
  DesignSystem.get_snowflake_session (Fails e) st
  = (Stopped,
     with_screen st
       (screen st ++ [Html "info-box"
                           ["error"; "❌";
                            ("Failed to connect to Snowflake: " ++ exn_msg e)%string]])%list).
Proof.
  intros H. unfold DesignSystem.get_snowflake_session, cache_resource. rewrite H. reflexivity.
Qed.

(** X6.  [get_snowflake_session] asks for the active session once: the
    session a call returns is the one every later call returns, from any
    state that holds the same resource cache, whatever the collaborator
    answers by then, and without a change of state.  A call that stops
    leaves nothing in the cache, so that a later call asks again and returns
    the session it is given.  No call ends in an exception. *)
Theorem session_outlives_the_collaborator (active : reply session) (st : state) :
  (forall s, fst (DesignSystem.get_snowflake_session active st) = Ret s ->
     forall later st2,
       resource_cache st2 = resource_cache (snd (DesignSystem.get_snowflake_session active st)) ->
       DesignSystem.get_snowflake_session later st2 = (Ret s, st2))
  /\ (fst (DesignSystem.get_snowflake_session active st) = Stopped ->
      forall s st2,
        resource_cache st2 = resource_cache (snd (DesignSystem.get_snowflake_session active st)) ->
        DesignSystem.get_snowflake_session (Answers s) st2
        = (Ret s, State (screen st2) (executed st2) (Some s) (data_cache st2)))
  /\ (forall e, fst (DesignSystem.get_snowflake_session active st) <> Raised e).
Proof.
  destruct (resource_cache st) as [s0|] eqn:Hc.
  - rewrite (get_session_cached active st s0 Hc). cbn [fst snd].
    split; [|split]; [| discriminate | discriminate].
    intros s [= <-] later st2 H2. apply get_session_cached. congruence.
  - destruct active as [s0|e0].
    + rewrite (get_session_first st s0 Hc). cbn [fst snd].
      split; [|split]; [| discriminate | discriminate].
      intros s [= <-] later st2 H2. apply get_session_cached. exact H2.
    + rewrite (get_session_unreachable st e0 Hc). cbn [fst snd].
      split; [|split]; [discriminate | | discriminate].
      intros _ s st2 H2. apply get_session_first. rewrite H2. exact Hc.
Qed.

Lemma firstn_drawn {A} (l : list A) x : firstn (List.length l) (l ++ [x]) = l.
Proof.
  rewrite firstn_app, Nat.sub_diag, firstn_all. cbn. apply app_nil_r.
Qed.

(** X14.  [execute_query_with_loading] never ends in an exception.  With a
    session at hand (cached, or handed over now) it sends the query and
    returns the rows, the screen as it was before the call: the loading
    state is gone.  If the query raises it returns the empty frame and the
    screen shows one more element, the error box with the message of the
    exception.  Without a session it stops at the connection error, no
    statement sent. *)
Theorem query_with_loading_never_raises {A : Type} (active : reply session)
        (answer : reply (list A)) (query description : string) (st : state) :
  (forall s, resource_cache st = Some s \/ (resource_cache st = None /\ active = Answers s) ->
     let sent := State (screen st) (executed st ++ [query])%list (Some s) (data_cache st) in
     execute_query_with_loading active answer query description st
     = match answer with
       | Answers rows => (Ret rows, sent)
       | Fails e =>
           (Ret [],
            with_screen sent
              (screen st ++ [Html "info-box"
                                  ["error"; "❌";
                                   ("Error executing query: " ++ exn_msg e)%string]])%list)
       end)
  /\ (forall e, resource_cache st = None -> active = Fails e ->
        execute_query_with_loading active answer query description st
        = (Stopped,
           with_screen st
             (screen st ++ [Html "info-box"
                                 ["error"; "❌";
                                  ("Failed to connect to Snowflake: " ++ exn_msg e)%string]])%list))
  /\ (forall e, fst (execute_query_with_loading active answer query description st) <> Raised e).
Proof.
  assert (Hrun : forall s st1,
            DesignSystem.get_snowflake_session active st = (Ret s, st1) ->
            screen st1 = screen st -> executed st1 = executed st -> data_cache st1 = data_cache st ->
            resource_cache st1 = Some s ->
            execute_query_with_loading active answer query description st
            = match answer with
              | Answers rows =>
                  (Ret rows,
                   State (screen st) (executed st ++ [query])%list (Some s) (data_cache st))
              | Fails e =>
                  (Ret [],
                   State (screen st ++ [Html "info-box"
                                  ["error"; "❌";
                                   ("Error executing query: " ++ exn_msg e)%string]])%list
                         (executed st ++ [query])%list (Some s) (data_cache st))
              end).
  { intros s st1 Hs Hscr Hex Hdc Hrc.
    unfold execute_query_with_loading, bind at 1. rewrite Hs.
    destruct st1 as [scr ex rc dc]. cbn in Hscr, Hex, Hdc, Hrc. subst.
    destruct answer as [rows|e]; cbn; rewrite firstn_drawn; reflexivity. }
  split; [|split].
  - intros s [Hc | [Hc ->]].
    + rewrite (Hrun s st (get_session_cached active st s Hc)); try reflexivity; assumption.
    + rewrite (Hrun s _ (get_session_first st s Hc)); reflexivity.
  - intros e Hc ->. unfold execute_query_with_loading, bind at 1.
    rewrite (get_session_unreachable st e Hc). reflexivity.
  - intros e. destruct (resource_cache st) as [s|] eqn:Hc.
    + rewrite (Hrun s st (get_session_cached active st s Hc)); try reflexivity; try assumption.
      destruct answer; cbn [fst]; discriminate.
    + destruct active as [s|e0].
      * rewrite (Hrun s _ (get_session_first st s Hc)); try reflexivity.
        destruct answer; cbn [fst]; discriminate.
      * unfold execute_query_with_loading, bind at 1.
        rewrite (get_session_unreachable st e0 Hc). cbn [fst]. discriminate.
Qed.

(** ** Percentages *)

Lemma digit_is_one_character d :
  (0 <= d <= 9)%Z -> zero_pad 1 (str_int d) = str_int d.
Proof.
  intros Hd.
  assert (H : (d = 0 \/ d = 1 \/ d = 2 \/ d = 3 \/ d = 4 \/ d = 5 \/ d = 6 \/ d = 7
               \/ d = 8 \/ d = 9)%Z) by lia.
  repeat (destruct H as [-> | H]; [reflexivity|]). subst d. reflexivity.
Qed.

Lemma one_decimal (a : Q) :
  (0 <= a <= 100)%Q ->
  exists i d : Z,
    format_float_fixed 1 (Fin false a) = str_int i ++ "." ++ str_int d
    /\ (0 <= i <= 100)%Z /\ (0 <= d <= 9)%Z /\ (i = 100%Z -> d = 0%Z).
Proof.
  intros [H0 H1].
  set (n := rne (a * inject_Z 10)).
  assert (Hn0 : (0 <= n)%Z).
  { apply rne_ge_Z. apply Qmult_le_0_compat; [assumption | discriminate]. }
  assert (Hn1 : (n <= 1000)%Z).
  { apply rne_le_Z. setoid_replace (inject_Z 1000) with (100 * inject_Z 10)%Q by reflexivity.
    apply Qmult_le_compat_r; [assumption | discriminate]. }
  exists (n / 10)%Z, (n mod 10)%Z.
  assert (Hd : (0 <= n mod 10 <= 9)%Z) by (pose proof (Z.mod_pos_bound n 10); lia).
  split; [|split; [|split]].
  - unfold format_float_fixed, fixed_digits. change (10 ^ Z.of_nat 1)%Z with 10%Z.
    fold n. rewrite (digit_is_one_character _ Hd). reflexivity.
  - split; [apply Z.div_pos; lia | apply Z.div_le_upper_bound; lia].
  - exact Hd.
  - intros Hi. pose proof (Z.div_mod n 10). lia.
Qed.

Lemma append_assoc (a b c : string) : (a ++ b) ++ c = a ++ (b ++ c).
Proof. induction a as [|x a IH]; cbn; [reflexivity | rewrite IH; reflexivity]. Qed.

Lemma percent_text_of (a : Q) :
  (0 <= a <= 100)%Q -> percent_text (format_float_fixed 1 (Fin false a) ++ "%").
Proof.
  intros Ha. destruct (one_decimal a Ha) as [i [d [E [Hi [Hd Hid]]]]].
  exists i, d. rewrite E. split; [|auto].
  rewrite !append_assoc. reflexivity.
Qed.

Lemma round64_2 : (round64 2 == 2)%Q.
Proof. vm_compute. reflexivity. Qed.

Lemma two_below_overflow : (round64 2 < pow2 emax)%Q.
Proof. vm_compute. reflexivity. Qed.

Lemma float_of_int_1 : float_of_int 1 = Ret (Fin false (round64 1)).
Proof. vm_compute. reflexivity. Qed.

Lemma float_of_int_50 : float_of_int 50 = Ret (Fin false (round64 (inject_Z 50))).
Proof. vm_compute. reflexivity. Qed.

Lemma round64_50 : (round64 (inject_Z 50) == 50)%Q.
Proof. vm_compute. reflexivity. Qed.

(** A float between [-1] and [1] plus one is a float between [0] and [2]. *)
Lemma plus_one_of_sentiment s a :
  (0 <= a)%Q -> (-1 <= signed s a <= 1)%Q ->
  exists r, float_add (PFloat (Fin s a)) (PInt 1) = Ret (Fin false r) /\ (0 <= r <= 2)%Q.
Proof.
  intros Ha [Hlo Hhi]. unfold float_add, to_float. rewrite float_of_int_1.
  cbn [obind add]. set (v := (signed s a + signed false (round64 1))%Q).
  assert (Hv : (v == signed s a + 1)%Q) by (unfold v; cbn [signed]; rewrite round64_1; reflexivity).
  assert (Hv0 : (0 <= v)%Q) by (rewrite Hv; lra).
  assert (Hv2 : (v <= 2)%Q) by (rewrite Hv; lra).
  destruct (is_zero v) eqn:Hz.
  - rewrite andb_false_r. exists 0%Q. split; [reflexivity | lra].
  - unfold of_magnitude.
    assert (Habs : (Qabs v == v)%Q) by (apply Qabs_pos; exact Hv0).
    assert (H0 : (0 <= Qabs v)%Q) by (rewrite Habs; exact Hv0).
    assert (H2 : (Qabs v <= 2)%Q) by (rewrite Habs; exact Hv2).
    rewrite (no_overflow _ 2 H0 H2 two_below_overflow).
    replace (Qle_bool 0 v) with true by (symmetry; apply Qle_bool_iff; exact Hv0).
    exists (round64 (Qabs v)). split; [reflexivity|].
    split; [apply round64_nonneg; exact H0 | apply (round64_le_fixed _ 2 H0 H2 round64_2)].
Qed.

(** Fifty times a float between [0] and [2] is a float between [0] and [100]. *)
Lemma times_fifty r :
  (0 <= r <= 2)%Q ->
  exists x, float_mul (PFloat (Fin false r)) (PInt 50) = Ret (Fin false x)
            /\ (0 <= x <= 100)%Q.
Proof.
  intros [H0 H2]. unfold float_mul, to_float. rewrite float_of_int_50.
  cbn [obind mul xorb]. unfold of_magnitude.
  set (p := (r * round64 (inject_Z 50))%Q).
  assert (Hp0 : (0 <= p)%Q).
  { unfold p. apply Qmult_le_0_compat; [assumption|]. rewrite round64_50. discriminate. }
  assert (Hp1 : (p <= inject_Z 100)%Q).
  { unfold p. rewrite round64_50.
    setoid_replace (inject_Z 100) with (2 * 50)%Q by reflexivity.
    apply Qmult_le_compat_r; [assumption | discriminate]. }
  rewrite (no_overflow p (inject_Z 100) Hp0 Hp1 hundred_below_overflow).
  exists (round64 p). split; [reflexivity|].
  split; [apply round64_nonneg; exact Hp0
         | apply (round64_le_fixed p (inject_Z 100) Hp0 Hp1 round64_100)].
Qed.

(** A truthy ratio between [0] and [1] is positive. *)
Lemma truthy_ratio_is_positive s a :
  (0 <= a)%Q -> (0 <= signed s a <= 1)%Q -> float_truthy (Fin s a) = true ->
  s = false /\ (0 <= a <= 1)%Q.
Proof.
  intros Ha [Hlo Hhi] Ht. destruct s; cbn [signed] in *; [|split; [reflexivity | lra]].
  exfalso. cbn [float_truthy] in Ht. apply negb_true_iff in Ht.
  assert (E : (a == 0)%Q) by lra.
  unfold is_zero in Ht. apply Qeq_bool_iff in E. congruence.
Qed.

(** X8.  For an average sentiment between [-1] and [1], or NULL, the
    derivation of Customer Satisfaction returns a number between [0] and
    [100], and the text of the KPI is a figure between [0.0%] and [100.0%]
    with one decimal. *)
Theorem customer_satisfaction_is_a_percentage (cust : customer_row) :
  within (-1) 1 (AVG_SENTIMENT cust) ->
  (exists v q, customer_satisfaction_value cust = Ret v
               /\ has_value v q /\ (0 <= q <= 100)%Q)
  /\ (exists s, customer_satisfaction cust = Ret s /\ percent_text s).
Proof.
  unfold within, customer_satisfaction, customer_satisfaction_value, float_or.
  destruct (AVG_SENTIMENT cust) as [[s a| |]|]; try contradiction.
  - intros [Ha Hr]. destruct (float_truthy (Fin s a)) eqn:Ht.
    + unfold py_add. destruct (plus_one_of_sentiment s a Ha Hr) as [r [-> Hr2]].
      cbn [obind]. unfold py_mul. destruct (times_fifty r Hr2) as [x [-> Hx]].
      cbn [obind]. split.
      * exists (PFloat (Fin false x)), x. split; [reflexivity|]. split; [reflexivity | exact Hx].
      * unfold format_fixed, to_float. cbn [obind]. eexists. split; [reflexivity|].
        apply percent_text_of, Hx.
    + split.
      * exists (PInt 50), 50%Q. split; [reflexivity|]. split; [reflexivity | lra].
      * exists "50.0%". split; [vm_compute; reflexivity|].
        exists 50%Z, 0%Z. split; [reflexivity | lia].
  - intros _. split.
    + exists (PInt 50), 50%Q. split; [reflexivity|]. split; [reflexivity | lra].
    + exists "50.0%". split; [vm_compute; reflexivity|].
      exists 50%Z, 0%Z. split; [reflexivity | lia].
Qed.

Lemma customer_satisfaction_is_a_percentage_witness :
  let cust := CustomerRow (Some 10%Z) (Some (literal (-37 # 100))) None None None in
  (exists v q, customer_satisfaction_value cust = Ret v
               /\ has_value v q /\ (0 <= q <= 100)%Q)
  /\ (exists s, customer_satisfaction cust = Ret s /\ percent_text s).
Proof.
  apply (customer_satisfaction_is_a_percentage
           (CustomerRow (Some 10%Z) (Some (literal (-37 # 100))) None None None)).
  vm_compute. split; [discriminate | split; discriminate].
Defined.

(** X7.  For an average success ratio between [0] and [1], or NULL, the
    number behind Network Uptime lies between [0] and [100], and the text
    of the KPI is a figure between [0.0%] and [100.0%] with one decimal. *)
Theorem network_uptime_is_a_percentage (net : network_row) :
  within 0 1 (AVG_SUCCESS_RATE net) ->
  (exists v q, network_uptime_value net = Ret v /\ has_value v q /\ (0 <= q <= 100)%Q)
  /\ (exists s, network_uptime net = Ret s /\ percent_text s).
Proof.
  unfold within, network_uptime, network_uptime_value, float_or.
  destruct (AVG_SUCCESS_RATE net) as [[s a| |]|]; try contradiction.
  - intros [Ha Hr]. destruct (float_truthy (Fin s a)) eqn:Ht.
    + destruct (truthy_ratio_is_positive s a Ha Hr Ht) as [-> Ha1].
      unfold py_mul. destruct (percent_of_unit a Ha1) as [x [-> [_ Hx]]].
      cbn [obind]. split.
      * exists (PFloat (Fin false x)), x. split; [reflexivity|]. split; [reflexivity | exact Hx].
      * unfold format_fixed, to_float. cbn [obind]. eexists. split; [reflexivity|].
        apply percent_text_of, Hx.
    + split.
      * exists (PInt 0), 0%Q. split; [reflexivity|]. split; [reflexivity | lra].
      * exists "0.0%". split; [vm_compute; reflexivity|].
        exists 0%Z, 0%Z. split; [reflexivity | lia].
  - intros _. split.
    + exists (PInt 0), 0%Q. split; [reflexivity|]. split; [reflexivity | lra].
    + exists "0.0%". split; [vm_compute; reflexivity|].
      exists 0%Z, 0%Z. split; [reflexivity | lia].
Qed.

Lemma network_uptime_is_a_percentage_witness :
  let net := NetworkRow (Some 1000%Z) (Some (literal (95 # 100))) (Some 3%Z) None None
                        (Some 950%Z) in
  (exists v q, network_uptime_value net = Ret v /\ has_value v q /\ (0 <= q <= 100)%Q)
  /\ (exists s, network_uptime net = Ret s /\ percent_text s).
Proof.
  apply (network_uptime_is_a_percentage
           (NetworkRow (Some 1000%Z) (Some (literal (95 # 100))) (Some 3%Z) None None
                       (Some 950%Z))).
  vm_compute. split; [discriminate | split; discriminate].
Defined.

(* ================================================================== *)
(** * Further properties: the loader and the page *)
(* ================================================================== *)

(** ** What the loader returns *)

Lemma premium_performance_returns_or_raises net :
  (exists s, premium_performance net = Ret s) \/ (exists e, premium_performance net = Raised e).
Proof.
  unfold premium_performance, premium_performance_value, int_truediv.
  destruct (Z.eqb _ 0); [right; eexists; reflexivity|].
  destruct (overflows _); [right; eexists; reflexivity|].
  cbn [obind].
  match goal with
  | |- context [float_mul (PFloat ?q) (PInt 100)] =>
      destruct (float_mul_total q 100) as [r ->]; [lia|]
  end.
  left. eexists. reflexivity.
Qed.

Lemma derive_returns_or_raises net cust :
  (exists k, derive_exec_kpis net cust = Ret k) \/ (exists e, derive_exec_kpis net cust = Raised e).
Proof.
  unfold derive_exec_kpis.
  destruct (network_uptime_total net) as [u ->].
  destruct (customer_satisfaction_total cust) as [s ->]. cbn [obind].
  destruct (premium_performance_returns_or_raises net) as [[p ->] | [e ->]]; cbn [obind].
  - left. eexists. reflexivity.
  - right. eexists. reflexivity.
Qed.

Lemma load_outcome req st :
  exists data st',
    load_executive_dashboard_data req st = (Ret data, st')
    /\ data_cache st' = data_cache st
    /\ resource_cache st' = resource_cache st
    /\ executed st' = (executed st ++ loader_statements req)%list
    /\ (data = unavailable
        \/ exists k net nets cust custs,
             network_answer req = Answers (net :: nets)
             /\ customer_answer req = Answers (cust :: custs)
             /\ derive_exec_kpis net cust = Ret k
             /\ data = (Some k, Some net, Some cust)).
Proof.
  unfold load_executive_dashboard_data, try_except, bind, collect, lift, loader_statements.
  destruct (network_answer req) as [[|net nets] | e1];
    destruct (customer_answer req) as [[|cust custs] | e2];
    try (do 2 eexists; split; [reflexivity|]; split; [reflexivity|];
         split; [reflexivity|]; split; [cbn; rewrite <- ?app_assoc; reflexivity|];
         left; reflexivity).
  destruct (derive_returns_or_raises net cust) as [[k Hk] | [e He]].
  - rewrite Hk. do 2 eexists. split; [reflexivity|]. split; [reflexivity|].
    split; [reflexivity|]. split; [cbn; rewrite <- app_assoc; reflexivity|].
    right. exists k, net, nets, cust, custs. auto.
  - rewrite He. do 2 eexists. split; [reflexivity|]. split; [reflexivity|].
    split; [reflexivity|]. split; [cbn; rewrite <- app_assoc; reflexivity|].
    left. reflexivity.
Qed.

(** X1.  [load_executive_dashboard_data] returns from every state and
    whatever the warehouse answers: it never ends in an exception and never
    stops the script.  What it returns is all or nothing: either the three
    [None], or the first row of each query together with the KPIs derived
    from exactly these two rows. *)
Theorem load_returns_all_or_nothing (req : request) (st : state) :
  exists data,
    fst (load_executive_dashboard_data req st) = Ret data
    /\ (data = unavailable
        \/ exists k net nets cust custs,
             network_answer req = Answers (net :: nets)
             /\ customer_answer req = Answers (cust :: custs)
             /\ derive_exec_kpis net cust = Ret k
             /\ data = (Some k, Some net, Some cust)).
Proof.
  destruct (load_outcome req st) as [data [st' [E [_ [_ [_ H]]]]]].
  exists data. rewrite E. split; [reflexivity | exact H].
Qed.

Lemma cached_load_outcome req st :
  sound_cache st ->
  exists data st',
    load_executive_dashboard_data_cached req st = (Ret data, st')
    /\ all_or_nothing data
    /\ sound_cache st'
    /\ executed st' = (executed st ++ statements_sent req (data_cache st))%list.
Proof.
  intros Hst. unfold load_executive_dashboard_data_cached, statements_sent.
  destruct (live cache_ttl (now req) (data_cache st)) as [entry|] eqn:Hl.
  - rewrite (cache_data_hit _ _ _ _ _ Hl). apply live_some in Hl.
    unfold sound_cache in Hst. rewrite Hl in Hst.
    do 2 eexists. split; [reflexivity|]. split; [exact Hst|]. split.
    + unfold sound_cache. cbn [with_screen data_cache]. rewrite Hl. exact Hst.
    + cbn [with_screen executed]. rewrite app_nil_r. reflexivity.
  - rewrite (cache_data_miss _ _ _ _ Hl).
    destruct (load_outcome req (with_screen st [])) as [data [st1 [E [_ [_ [Hex H]]]]]].
    rewrite E.
    assert (Hdata : all_or_nothing data).
    { destruct H as [-> | [k [net [nets [cust [custs [_ [_ [Hk ->]]]]]]]]].
      - left. reflexivity.
      - right. exists k, net, cust. auto. }
    do 2 eexists. split; [reflexivity|]. split; [exact Hdata|]. split.
    + exact Hdata.
    + cbn [executed]. exact Hex.
Qed.

(** ** Runs that end without an exception *)

Lemma ends_ext {A} (s s' : script A) R P Q :
  (forall st, s st = s' st) -> ends s' R P Q -> ends s R P Q.
Proof. intros E H st Hst. rewrite E. apply H, Hst. Qed.

Lemma ends_weaken {A} (s : script A) (R R' : exn -> Prop) (P P' : Prop) (Q Q' : A -> Prop) :
  ends s R P Q -> (forall e, R e -> R' e) -> (P -> P') -> (forall a, Q a -> Q' a) ->
  ends s R' P' Q'.
Proof.
  intros H HR HP HQ st Hst. destruct (H st Hst) as [H1 [H2 H3]].
  split; [exact H1|]. split; [exact H2|].
  destruct (fst (s st)); auto.
Qed.

Lemma ends_ret {A} (a : A) R P (Q : A -> Prop) : Q a -> ends (ret a) R P Q.
Proof. intros H st Hst. split; [exact Hst|]. split; [reflexivity | exact H]. Qed.

Lemma ends_lift {A} (o : outcome A) R P (Q : A -> Prop) :
  match o with Ret a => Q a | Raised e => R e | Stopped => P end -> ends (lift o) R P Q.
Proof. intros H st Hst. split; [exact Hst|]. split; [reflexivity | exact H]. Qed.

Lemma ends_emit e R P : ends (emit e) R P (fun _ => True).
Proof. intros st Hst. split; [exact Hst|]. split; [reflexivity | exact I]. Qed.

Lemma ends_bind {A B} (m : script A) (k : A -> script B) R P (Q : A -> Prop)
      (S : B -> Prop) :
  ends m R P Q -> (forall a, Q a -> ends (k a) R P S) -> ends (bind m k) R P S.
Proof.
  intros Hm Hk st Hst. unfold bind. destruct (Hm st Hst) as [H1 [H2 H3]].
  destruct (m st) as [[a | e |] st1]; cbn [fst snd] in *.
  - destruct (Hk a H3 st1 H1) as [K1 [K2 K3]].
    split; [exact K1|]. split; [congruence | exact K3].
  - split; [exact H1|]. split; assumption.
  - split; [exact H1|]. split; assumption.
Qed.

Lemma ends_then {A B} (m : script A) (k : script B) R P (S : B -> Prop) :
  ends m R P (fun _ => True) -> ends k R P S -> ends (bind m (fun _ => k)) R P S.
Proof. intros Hm Hk. eapply ends_bind; [exact Hm | intros; exact Hk]. Qed.

Lemma ends_within_column {A} (i : nat) (body : script A) R P (Q : A -> Prop) :
  ends body R P Q -> ends (within_column i body) R P Q.
Proof.
  intros Hb st Hst. unfold within_column.
  destruct (Hb (with_screen st []) Hst) as [H1 [H2 H3]].
  destruct (body (with_screen st [])) as [o st1]; cbn [fst snd] in *.
  split; [exact H1|]. split; [exact H2 | exact H3].
Qed.

Lemma ends_st_columns n R P : (0 < n)%nat -> ends (st_columns n) R P (fun _ => True).
Proof.
  intros Hn st Hst. rewrite (st_columns_positive n st Hn).
  split; [exact Hst|]. split; [reflexivity | exact I].
Qed.

Lemma ends_st_button label clicked R P : ends (st_button label clicked) R P (fun _ => True).
Proof. intros st Hst. split; [exact Hst|]. split; [reflexivity | exact I]. Qed.

Lemma ends_for_enumerate {A} (xs : list A) (body : nat -> A -> script unit) R P :
  (forall i x, In x xs -> ends (body i x) R P (fun _ => True)) ->
  forall start, ends (for_enumerate start xs body) R P (fun _ => True).
Proof.
  induction xs as [|x xs IH]; intros Hb start; cbn [for_enumerate].
  - apply ends_ret. exact I.
  - eapply ends_then; [apply Hb; left; reflexivity|].
    apply IH. intros i y Hy. apply Hb. right. exact Hy.
Qed.

(** *** The components *)

Lemma ends_create_executive_dashboard (k : kpis) R P :
  k <> [] -> ends (Main.create_executive_dashboard k) R P (fun _ => True).
Proof.
  intros Hk. unfold Main.create_executive_dashboard.
  eapply ends_bind;
    [apply ends_st_columns; destruct k; [contradiction | cbn [List.length]; lia]|].
  intros cols _. apply ends_for_enumerate. intros i [name data] _.
  apply ends_within_column, ends_emit.
Qed.

Lemma ends_create_executive_summary_card title content metrics icon R P :
  ends (Main.create_executive_summary_card title content metrics icon) R P (fun _ => True).
Proof.
  unfold Main.create_executive_summary_card.
  eapply ends_then; [apply ends_emit|].
  eapply ends_then; [apply ends_emit|].
  destruct metrics as [[|m ms]|]; try (apply ends_ret; exact I).
  eapply ends_bind; [apply ends_st_columns; cbn [List.length]; lia|]. intros cols _.
  apply ends_for_enumerate. intros i [key val] _.
  apply ends_within_column, ends_emit.
Qed.

Lemma ends_create_ai_insights_card title insight confidence icon R P :
  ends (Main.create_ai_insights_card title insight confidence icon) R P (fun _ => True).
Proof.
  unfold Main.create_ai_insights_card. eapply ends_then; apply ends_emit.
Qed.

Lemma ends_create_ai_recommendation_list recs title R P :
  ends (Main.create_ai_recommendation_list recs title) R P (fun _ => True).
Proof.
  unfold Main.create_ai_recommendation_list.
  eapply ends_then; [apply ends_emit|].
  apply ends_for_enumerate. intros i rec _. apply ends_emit.
Qed.

Lemma ends_create_executive_navigation_grid items R P :
  ends (Main.create_executive_navigation_grid items) R P (fun _ => True).
Proof.
  unfold Main.create_executive_navigation_grid.
  eapply ends_bind; [apply ends_st_columns; lia|]. intros cols _.
  apply ends_for_enumerate. intros i item _.
  apply ends_within_column.
  eapply ends_then; [apply ends_emit|].
  eapply ends_then; apply ends_emit.
Qed.

(** *** The page *)

Lemma rate_text_total net :
  exists text,
    (rate <- py_mul (float_or (AVG_SUCCESS_RATE net) 0) (PInt 100) ;;
     format_fixed 1 rate)%outcome = Ret text.
Proof.
  destruct (network_uptime_total net) as [s Hs]. unfold network_uptime in Hs.
  destruct (py_mul _ _) as [rate | |]; cbn [obind] in *; try discriminate.
  destruct (format_fixed 1 rate) as [text | |]; cbn [obind] in *; try discriminate.
  eexists. reflexivity.
Qed.

Lemma strategic_report_total net : exists r, strategic_report net = Ret r.
Proof.
  unfold strategic_report. destruct (rate_text_total net) as [text H].
  destruct (py_mul _ _) as [rate | |]; cbn [obind] in *; try discriminate.
  rewrite H. eexists. reflexivity.
Qed.

Lemma derived_kpis net cust k :
  derive_exec_kpis net cust = Ret k ->
  exists uptime satisfaction premium,
    k = [ ("Network Uptime", Kpi uptime (21 # 10) "🟢");
          ("Active Infrastructure", Kpi (active_infrastructure net) (8 # 10) "📡");
          ("Customer Satisfaction", Kpi satisfaction (-12 # 10) "😊");
          ("Revenue Protection", Kpi "$2.8M" (57 # 10) "💰");
          ("Risk Incidents", Kpi (risk_incidents net) (-83 # 10) "⚠️");
          ("Premium Performance", Kpi premium (34 # 10) "⭐") ]
    /\ network_uptime net = Ret uptime
    /\ customer_satisfaction cust = Ret satisfaction
    /\ premium_performance net = Ret premium.
Proof.
  unfold derive_exec_kpis.
  destruct (network_uptime net) as [u | |]; cbn [obind]; try discriminate.
  destruct (customer_satisfaction cust) as [s | |]; cbn [obind]; try discriminate.
  destruct (premium_performance net) as [p | |]; cbn [obind]; try discriminate.
  intros [= <-]. exists u, s, p. auto.
Qed.

Lemma executive_summary_content_total net cust k :
  derive_exec_kpis net cust = Ret k ->
  exists content, executive_summary_content net k = Ret content.
Proof.
  intros Hk. destruct (derived_kpis _ _ _ Hk) as [u [s [p [-> _]]]].
  unfold executive_summary_content. destruct (rate_text_total net) as [text H].
  destruct (py_mul _ _) as [rate | |]; cbn [obind] in *; try discriminate.
  rewrite H. cbn [obind]. eexists. reflexivity.
Qed.

Lemma ends_executive_dashboard req k net cust :
  derive_exec_kpis net cust = Ret k ->
  ends (executive_dashboard page_namespace req k net) no_exception False (fun _ => True).
Proof.
  intros Hk. unfold executive_dashboard.
  eapply ends_then; [apply ends_emit|].
  eapply ends_then.
  { eapply ends_ext; [apply call_create_executive_dashboard|].
    apply ends_create_executive_dashboard.
    destruct (derived_kpis _ _ _ Hk) as [u [s [p [-> _]]]]. discriminate. }
  eapply ends_then; [apply ends_emit|].
  eapply ends_then.
  { intros st Hst. split; [exact Hst|]. split; [reflexivity | exact I]. }
  eapply ends_then.
  { apply ends_within_column.
    destruct (executive_summary_content_total _ _ _ Hk) as [content ->].
    eapply ends_bind; [apply (ends_lift _ _ _ (fun _ => True)); exact I|].
    intros c _.
    eapply ends_ext; [apply call_create_executive_summary_card
                     | apply ends_create_executive_summary_card]. }
  apply ends_within_column.
  eapply ends_then; [apply ends_emit|].
  eapply ends_bind; [apply ends_st_button|]. intros strategic _.
  apply ends_then.
  { destruct strategic; [|apply ends_ret; exact I].
    eapply ends_then; [eapply ends_ext; [apply call_create_ai_loading_spinner | apply ends_emit]|].
    destruct (strategic_report_total net) as [r ->].
    eapply ends_bind; [apply (ends_lift _ _ _ (fun _ => True)); exact I|].
    intros report _.
    eapply ends_ext; [apply call_create_ai_insights_card
                     | apply ends_create_ai_insights_card]. }
  eapply ends_bind; [apply ends_st_button|]. intros risk _.
  destruct risk; [|apply ends_ret; exact I].
  eapply ends_then; [eapply ends_ext; [apply call_create_ai_loading_spinner | apply ends_emit]|].
  eapply ends_ext; [apply call_create_ai_recommendation_list
                   | apply ends_create_ai_recommendation_list].
Qed.

Lemma ends_fallback_preview :
  ends (fallback_preview page_namespace) no_exception False (fun _ => True).
Proof.
  unfold fallback_preview.
  eapply ends_then.
  { eapply ends_ext; [apply call_create_executive_alert_banner | apply ends_emit]. }
  eapply ends_then; [apply ends_emit|].
  eapply ends_then.
  { eapply ends_ext; [apply call_create_executive_dashboard|].
    apply ends_create_executive_dashboard. discriminate. }
  eapply ends_ext; [apply call_create_executive_summary_card
                   | apply ends_create_executive_summary_card].
Qed.

Lemma ends_dashboard_section req data :
  all_or_nothing data ->
  ends (dashboard_section page_namespace req data) no_exception False (fun _ => True).
Proof.
  intros Hdata. unfold dashboard_section.
  destruct Hdata as [-> | [k [net [cust [-> Hk]]]]]; [apply ends_fallback_preview|].
  destruct (dict_truthy k);
    [apply (ends_executive_dashboard req k net cust Hk) | apply ends_fallback_preview].
Qed.

Lemma ends_page_tail : ends (page_tail page_namespace) no_exception False (fun _ => True).
Proof.
  unfold page_tail.
  eapply ends_then; [apply ends_emit|].
  eapply ends_then; [apply ends_emit|].
  eapply ends_then.
  { eapply ends_ext; [apply call_create_executive_navigation_grid
                     | apply ends_create_executive_navigation_grid]. }
  eapply ends_then.
  { unfold technology_section.
    eapply ends_then; [apply ends_emit|].
    eapply ends_then; [apply ends_emit|].
    eapply ends_then; [apply ends_st_columns; lia|].
    repeat (eapply ends_then; [apply ends_within_column, ends_emit|]).
    apply ends_within_column, ends_emit. }
  eapply ends_then.
  { unfold success_metrics_section.
    eapply ends_then; [apply ends_emit|].
    eapply ends_then; [apply ends_emit|].
    eapply ends_then; [apply ends_st_columns; lia|].
    repeat (eapply ends_then; [apply ends_within_column, ends_emit|]).
    apply ends_within_column, ends_emit. }
  eapply ends_then.
  { eapply ends_ext; [apply call_add_page_footer|].
    unfold DesignSystem.add_page_footer.
    eapply ends_then; [apply ends_emit|].
    eapply ends_then; apply ends_emit. }
  eapply ends_then; apply ends_emit.
Qed.

(** A script of the page that neither raises nor stops returns. *)
Lemma ends_returns (s : script unit) st :
  ends s no_exception False (fun _ => True) -> sound_cache st ->
  exists st', s st = (Ret tt, st') /\ sound_cache st' /\ executed st' = executed st.
Proof.
  intros H Hst. destruct (H st Hst) as [H1 [H2 H3]].
  destruct (s st) as [[[] | e |] st']; cbn [fst snd] in *; try (exfalso; exact H3).
  exists st'. auto.
Qed.

Lemma page_data_run req st :
  sound_cache st ->
  exists st',
    page_data page_namespace req st = (Ret tt, st')
    /\ sound_cache st'
    /\ executed st' = (executed st ++ statements_sent req (data_cache st))%list.
Proof.
  intros Hst. unfold page_data, bind.
  destruct (cached_load_outcome req st Hst) as [data [st1 [E [Hdata [Hs1 Hex]]]]].
  rewrite E.
  destruct (ends_returns _ st1 (ends_dashboard_section req data Hdata) Hs1)
    as [st2 [E2 [Hs2 Hex2]]].
  exists st2. split; [exact E2|]. split; [exact Hs2 | congruence].
Qed.

Lemma page_head_without_session req slot e :
  active_session req = Fails e ->
  page_head page_namespace req (fresh None slot)
  = (Stopped,
     State [ PageConfig "Executive Telco Network Suite";
             Html "custom-css" [];
             Html "sidebar-navigation" [];
             Html "info-box" ["error"; "❌"; "Failed to connect to Snowflake: " ++ exn_msg e] ]
           [] None slot).
Proof.
  destruct req as [t act net cust b1 b2]. cbn [active_session]. intros ->.
  vm_compute. reflexivity.
Qed.

Lemma main_page_run req resource slot :
  sound_cache (fresh resource slot) ->
  let run := main_page req (fresh resource slot) in
  sound_cache (snd run)
  /\ ((fst run = Ret tt /\ executed (snd run) = statements_sent req slot)
      \/ (fst run = Stopped /\ resource = None /\ (exists e, active_session req = Fails e)
          /\ executed (snd run) = [])).
Proof.
  intros Hs run. unfold run. clear run. rewrite main_page_phases.
  assert (Hcase : (resource = Some ActiveSession \/ active_session req = Answers ActiveSession)
                  \/ (resource = None /\ exists e, active_session req = Fails e)).
  { destruct resource as [[]|]; [left; left; reflexivity|].
    destruct (active_session req) as [[]|e]; [left; right; reflexivity|].
    right. split; [reflexivity | exists e; reflexivity]. }
  destruct Hcase as [Hsession | [-> [e He]]].
  - rewrite (page_head_with_session req resource slot Hsession).
    assert (Hs1 : sound_cache (State page_top [] (Some ActiveSession) slot)) by exact Hs.
    destruct (page_data_run req _ Hs1) as [st2 [E2 [Hs2 Hex2]]]. rewrite E2.
    destruct (ends_returns _ st2 ends_page_tail Hs2) as [st3 [E3 [Hs3 Hex3]]]. rewrite E3.
    cbn [fst snd]. split; [exact Hs3|]. left. split; [reflexivity|].
    rewrite Hex3, Hex2. reflexivity.
  - rewrite (page_head_without_session req slot e He). cbn [fst snd].
    split; [exact Hs|]. right. split; [reflexivity|]. split; [reflexivity|].
    split; [exists e; exact He | reflexivity].
Qed.

Lemma reachable_sound_cache st : reachable st -> sound_cache st.
Proof.
  induction 1 as [|st req _ IH]; [exact I|].
  assert (H0 : sound_cache (fresh (resource_cache st) (data_cache st))) by exact IH.
  exact (proj1 (main_page_run req _ _ H0)).
Qed.

(** X3.  A page load never ends in an exception, whatever the warehouse
    answers and whatever the loads before it left in the caches: it runs to
    its end, or it stops at the connection error, which happens only when no
    session is cached and the collaborator hands none over. *)
Theorem page_load_never_raises (st : state) (req : request) :
  reachable st ->
  let run := main_page req (fresh (resource_cache st) (data_cache st)) in
  fst run = Ret tt
  \/ (fst run = Stopped /\ resource_cache st = None /\ exists e, active_session req = Fails e).
Proof.
  intros Hst run.
  assert (Hs : sound_cache (fresh (resource_cache st) (data_cache st)))
    by exact (reachable_sound_cache st Hst).
  destruct (main_page_run req _ _ Hs) as [_ [[H _] | [H1 [H2 [H3 _]]]]].
  - left. exact H.
  - right. split; [exact H1|]. split; [exact H2 | exact H3].
Qed.

Lemma page_load_never_raises_witness :
  let req := Request 0 (Answers ActiveSession)
                     (Answers [NetworkRow (Some 1000%Z) (Some (literal (95 # 100))) (Some 3%Z)
                                  None None (Some 950%Z)])
                     (Fails (Exn CollaboratorError "warehouse offline"))
                     true true in
  let run := main_page req (fresh (resource_cache (fresh None None))
                                  (data_cache (fresh None None))) in
  fst run = Ret tt
  \/ (fst run = Stopped /\ resource_cache (fresh None None) = None
      /\ exists e, active_session req = Fails e).
Proof.
  apply (page_load_never_raises (fresh None None)). apply reach_start.
Defined.

(** X4.  A page load sends the warehouse at most two statements: none while
    the cache entry is live (less than 300 seconds old) or when the page
    stops at the connection error; otherwise the network query and then,
    unless the network query raises, the customer query.  Nothing else of the
    page reaches the warehouse. *)
Theorem page_sends_at_most_two_statements (st : state) (req : request) :
  reachable st ->
  let run := main_page req (fresh (resource_cache st) (data_cache st)) in
  executed (snd run)
  = match fst run with
    | Ret _ => statements_sent req (data_cache st)
    | _ => []
    end.
Proof.
  intros Hst run.
  assert (Hs : sound_cache (fresh (resource_cache st) (data_cache st)))
    by exact (reachable_sound_cache st Hst).
  destruct (main_page_run req _ _ Hs) as [_ [[H Hex] | [H1 [_ [_ Hex]]]]];
    fold run in H, Hex || fold run in H1, Hex.
  - rewrite H. exact Hex.
  - rewrite H1. exact Hex.
Qed.

Lemma page_sends_at_most_two_statements_witness :
  let req := Request 0 (Answers ActiveSession)
                     (Answers [NetworkRow (Some 1000%Z) (Some (literal (95 # 100))) (Some 3%Z)
                                  None None (Some 950%Z)])
                     (Answers [CustomerRow (Some 10%Z) (Some (literal (25 # 100)))
                                           None None None])
                     false false in
  let run := main_page req (fresh (resource_cache (fresh None None))
                                  (data_cache (fresh None None))) in
  executed (snd run)
  = match fst run with
    | Ret _ => statements_sent req (data_cache (fresh None None))
    | _ => []
    end.
Proof.
  apply (page_sends_at_most_two_statements (fresh None None)). apply reach_start.
Defined.

(** X5.  When both queries answer with a row and the derivation of the KPIs
    succeeds, a page load that reaches the loader (session at hand, no live
    cache entry) runs to its end and shows the dashboard: after the page top
    come the dashboard heading, four columns and the six KPI tiles in the
    order of [exec_kpis], four to a row; no warning banner is drawn; the two
    queries have been sent, network first; and the three values are in the
    cache under the time of the load, no element kept with them. *)
Theorem available_data_renders_dashboard (req : request) (resource : option session)
        (slot : option cache_entry) (net : network_row) (nets : list network_row)
        (cust : customer_row) (custs : list customer_row) (k : kpis) :
  network_answer req = Answers (net :: nets) ->
  customer_answer req = Answers (cust :: custs) ->
  derive_exec_kpis net cust = Ret k ->
  resource = Some ActiveSession \/ active_session req = Answers ActiveSession ->
  live cache_ttl (now req) slot = None ->
  exists st' rest,
    main_page req (fresh resource slot) = (Ret tt, st')
    /\ screen st' = (page_top ++ dashboard_opening k ++ rest)%list
    /\ existsb is_warning_banner (screen st') = false
    /\ executed st' = [network_query; customer_query]
    /\ data_cache st' = Some (CacheEntry (now req) (Some k, Some net, Some cust) []).
Proof.
  intros Hn Hc Hk Hs Hlive.
  destruct (derived_kpis _ _ _ Hk) as [u [s [p [Ek _]]]].
  destruct (executive_summary_content_total _ _ _ Hk) as [content Hcontent].
  destruct (strategic_report_total net) as [report Hreport].
  rewrite main_page_phases, (page_head_with_session req resource slot Hs).
  unfold page_data, bind, load_executive_dashboard_data_cached.
  rewrite cache_data_miss by exact Hlive.
  unfold load_executive_dashboard_data, try_except, bind, lift.
  rewrite Hn, Hc. unfold collect. cbv beta iota. rewrite Hk. unfold ret.
  cbv beta iota zeta delta [with_screen screen executed resource_cache data_cache fst snd].
  unfold dashboard_section. subst k. cbv beta iota delta [dict_truthy].
  unfold executive_dashboard. rewrite Hcontent, Hreport.
  destruct req as [t act na ca b1 b2]. cbn [strategic_report_clicked risk_assessment_clicked now].
  destruct b1, b2; (do 2 eexists; split; [|split; [|split; [|split]]]; vm_compute; reflexivity).
Qed.

Lemma available_data_renders_dashboard_witness :
  let net := NetworkRow (Some 1000%Z) (Some (literal (95 # 100))) (Some 3%Z) None None
                        (Some 950%Z) in
  let cust := CustomerRow (Some 10%Z) (Some (literal (25 # 100))) None None None in
  let req := Request 0 (Answers ActiveSession) (Answers [net]) (Answers [cust]) true false in
  let k := [ ("Network Uptime", Kpi "95.0%" (21 # 10) "🟢");
             ("Active Infrastructure", Kpi "1,000" (8 # 10) "📡");
             ("Customer Satisfaction", Kpi "62.5%" (-12 # 10) "😊");
             ("Revenue Protection", Kpi "$2.8M" (57 # 10) "💰");
             ("Risk Incidents", Kpi "3" (-83 # 10) "⚠️");
             ("Premium Performance", Kpi "95%" (34 # 10) "⭐") ] in
  exists st' rest,
    main_page req (fresh None None) = (Ret tt, st')
    /\ screen st' = (page_top ++ dashboard_opening k ++ rest)%list
    /\ existsb is_warning_banner (screen st') = false
    /\ executed st' = [network_query; customer_query]
    /\ data_cache st' = Some (CacheEntry (now req) (Some k, Some net, Some cust) []).
Proof.
  apply (available_data_renders_dashboard
           (Request 0 (Answers ActiveSession)
                    (Answers [NetworkRow (Some 1000%Z) (Some (literal (95 # 100))) (Some 3%Z)
                                         None None (Some 950%Z)])
                    (Answers [CustomerRow (Some 10%Z) (Some (literal (25 # 100)))
                                          None None None])
                    true false)
           None None
           (NetworkRow (Some 1000%Z) (Some (literal (95 # 100))) (Some 3%Z) None None
                       (Some 950%Z))
           []
           (CustomerRow (Some 10%Z) (Some (literal (25 # 100))) None None None)
           []).
  - reflexivity.
  - reflexivity.
  - vm_compute. reflexivity.
  - right. reflexivity.
  - reflexivity.
Defined.

(** X16.  The dashboard outlives an outage of the warehouse: once a load as
    above has stored its three values, a page load less than 300 seconds
    later (session at hand) shows the dashboard of the stored KPIs and sends
    no statement, whatever the warehouse would answer by then, rows, no row
    or an exception; the cache entry stays as it is. *)
Theorem dashboard_survives_a_warehouse_outage (req : request) (resource : option session)
        (stored : Z) (net : network_row) (cust : customer_row) (k : kpis) :
  derive_exec_kpis net cust = Ret k ->
  resource = Some ActiveSession \/ active_session req = Answers ActiveSession ->
  (now req < stored + 300)%Z ->
  let entry := CacheEntry stored (Some k, Some net, Some cust) [] in
  exists st' rest,
    main_page req (fresh resource (Some entry)) = (Ret tt, st')
    /\ screen st' = (page_top ++ dashboard_opening k ++ rest)%list
    /\ existsb is_warning_banner (screen st') = false
    /\ executed st' = []
    /\ data_cache st' = Some entry.
Proof.
  intros Hk Hs Hnow entry.
  assert (Hlive : live cache_ttl (now req) (Some entry) = Some entry).
  { unfold live, entry, cache_ttl. cbn [stored_at].
    replace (now req <? stored + 300)%Z with true by (symmetry; apply Z.ltb_lt; exact Hnow).
    reflexivity. }
  destruct (derived_kpis _ _ _ Hk) as [u [s [p [Ek _]]]].
  destruct (executive_summary_content_total _ _ _ Hk) as [content Hcontent].
  destruct (strategic_report_total net) as [report Hreport].
  rewrite main_page_phases, (page_head_with_session req resource (Some entry) Hs).
  unfold page_data, bind, load_executive_dashboard_data_cached.
  rewrite (cache_data_hit cache_ttl (now req) _
             (State page_top [] (Some ActiveSession) (Some entry)) entry Hlive).
  unfold entry. cbn [cached_value cached_elements].
  unfold dashboard_section. subst k. cbv beta iota delta [dict_truthy].
  unfold executive_dashboard. rewrite Hcontent, Hreport.
  destruct req as [t act na ca b1 b2]. cbn [strategic_report_clicked risk_assessment_clicked now].
  destruct b1, b2; (do 2 eexists; split; [|split; [|split; [|split]]]; vm_compute; reflexivity).
Qed.

Lemma dashboard_survives_a_warehouse_outage_witness :
  let net := NetworkRow (Some 1000%Z) (Some (literal (95 # 100))) (Some 3%Z) None None
                        (Some 950%Z) in
  let cust := CustomerRow (Some 10%Z) (Some (literal (25 # 100))) None None None in
  let req := Request 299 (Answers ActiveSession)
                     (Fails (Exn CollaboratorError "warehouse offline"))
                     (Answers []) false true in
  let k := [ ("Network Uptime", Kpi "95.0%" (21 # 10) "🟢");
             ("Active Infrastructure", Kpi "1,000" (8 # 10) "📡");
             ("Customer Satisfaction", Kpi "62.5%" (-12 # 10) "😊");
             ("Revenue Protection", Kpi "$2.8M" (57 # 10) "💰");
             ("Risk Incidents", Kpi "3" (-83 # 10) "⚠️");
             ("Premium Performance", Kpi "95%" (34 # 10) "⭐") ] in
  let entry := CacheEntry 0 (Some k, Some net, Some cust) [] in
  exists st' rest,
    main_page req (fresh None (Some entry)) = (Ret tt, st')
    /\ screen st' = (page_top ++ dashboard_opening k ++ rest)%list
    /\ existsb is_warning_banner (screen st') = false
    /\ executed st' = []
    /\ data_cache st' = Some entry.
Proof.
  apply (dashboard_survives_a_warehouse_outage
           (Request 299 (Answers ActiveSession)
                    (Fails (Exn CollaboratorError "warehouse offline"))
                    (Answers []) false true)
           None 0
           (NetworkRow (Some 1000%Z) (Some (literal (95 # 100))) (Some 3%Z) None None
                       (Some 950%Z))
           (CustomerRow (Some 10%Z) (Some (literal (25 # 100))) None None None)).
  - vm_compute. reflexivity.
  - right. reflexivity.
  - reflexivity.
Defined.

(** ** Premium Performance on the rows of a week *)

Lemma round64_7 : (round64 (inject_Z 7) == 7)%Q.
Proof. vm_compute. reflexivity. Qed.

Lemma round64_700 : (round64 (inject_Z 700) == 700)%Q.
Proof. vm_compute. reflexivity. Qed.

Lemma seven_below_overflow : (round64 (inject_Z 7) < pow2 emax)%Q.
Proof. vm_compute. reflexivity. Qed.

Lemma seven_hundred_below_overflow : (round64 (inject_Z 700) < pow2 emax)%Q.
Proof. vm_compute. reflexivity. Qed.

(** Rounding a rational equal to a float gives that float. *)
Lemma round64_fixed x b :
  (0 <= b)%Q -> (x == b)%Q -> (round64 b == b)%Q -> (round64 x == b)%Q.
Proof.
  intros Hb Hx Hfix.
  assert (H0 : (0 <= x)%Q) by (rewrite Hx; exact Hb).
  apply Qle_antisym.
  - apply round64_le_fixed; [exact H0 | rewrite Hx; apply Qle_refl | exact Hfix].
  - rewrite <- Hfix at 1. apply round64_mono; [exact Hb | rewrite Hx; apply Qle_refl].
Qed.

(** Seven rows a tower over the towers: the quotient is 7.0. *)
Lemma int_truediv_seven (t : Z) :
  (1 <= t)%Z ->
  exists r, int_truediv (7 * t) t = Ret (Fin false r) /\ (r == 7)%Q.
Proof.
  intros Ht. unfold int_truediv.
  destruct (Z.eqb_spec t 0) as [E | _]; [lia|].
  set (q := Z.abs (7 * t) # Z.to_pos (Z.abs t)).
  assert (Hq : (q == 7)%Q).
  { unfold q, Qeq. cbn [Qnum Qden inject_Z]. rewrite Z2Pos.id by lia. lia. }
  assert (Hq0 : (0 <= q)%Q) by (rewrite Hq; discriminate).
  assert (Hq7 : (q <= inject_Z 7)%Q) by (rewrite Hq; apply Qle_refl).
  rewrite (no_overflow q (inject_Z 7) Hq0 Hq7 seven_below_overflow).
  replace (7 * t <? 0)%Z with false by (symmetry; apply Z.ltb_ge; lia).
  replace (t <? 0)%Z with false by (symmetry; apply Z.ltb_ge; lia).
  exists (round64 q). split; [reflexivity|].
  apply round64_fixed; [discriminate | exact Hq | exact round64_7].
Qed.

Lemma seven_times_hundred (r : Q) :
  (r == 7)%Q ->
  exists a, float_mul (PFloat (Fin false r)) (PInt 100) = Ret (Fin false a) /\ (a == 700)%Q.
Proof.
  intros Hr. unfold float_mul, to_float. rewrite float_of_int_100.
  cbn [obind mul xorb]. unfold of_magnitude.
  set (p := (r * round64 (inject_Z 100))%Q).
  assert (Hp : (p == 700)%Q) by (unfold p; rewrite Hr, round64_100; reflexivity).
  assert (Hp0 : (0 <= p)%Q) by (rewrite Hp; discriminate).
  assert (Hp1 : (p <= inject_Z 700)%Q) by (rewrite Hp; apply Qle_refl).
  rewrite (no_overflow p (inject_Z 700) Hp0 Hp1 seven_hundred_below_overflow).
  exists (round64 p). split; [reflexivity|].
  apply round64_fixed; [discriminate | exact Hp | exact round64_700].
Qed.

Lemma format_seven_hundred (a : Q) :
  (a == 700)%Q -> format_float_fixed 0 (Fin false a) = "700".
Proof.
  intros Ha. unfold format_float_fixed, fixed_digits. cbn [Z.of_nat Z.pow].
  rewrite Z.div_1_r.
  assert (E : rne (a * inject_Z 1) = 700%Z).
  { apply Z.le_antisymm; [apply rne_le_Z | apply rne_ge_Z]; rewrite Ha; discriminate. }
  rewrite E. reflexivity.
Qed.

(** C3, where it fails.  The network query counts the towers with
    [COUNT(DISTINCT CELL_ID)] and the premium ones with a plain [COUNT] over
    the rows of the last seven days.  On a network of [t] towers, each with
    a row above 0.95 on each of seven days, the row it returns holds [t] and
    [7 * t]: the Premium Performance number is then 700 and the KPI shows
    [700%], in the mapping the derivation returns and in the executive
    summary, which reads "maintained across 700% of network
    infrastructure". *)
Theorem premium_performance_counts_rows (t : Z) (cust : customer_row)
        (rate utilization throughput : option float) (issues : option Z) :
  (1 <= t)%Z -> (7 * t < 10 ^ 38)%Z ->
  let net := NetworkRow (Some t) rate issues utilization throughput (Some (7 * t)%Z) in
  (exists a, premium_performance_value net = Ret (Fin false a) /\ (a == 700)%Q)
  /\ premium_performance net = Ret "700%"
  /\ exists k,
       derive_exec_kpis net cust = Ret k
       /\ kpi_value k "Premium Performance" = Ret "700%"
       /\ exists before after,
            executive_summary_content net k
            = Ret (before ++ "700% of network infrastructure" ++ after).
Proof.
  intros Ht _ net.
  assert (Hvalue : exists a,
             premium_performance_value net = Ret (Fin false a) /\ (a == 700)%Q).
  { unfold premium_performance_value, net. cbn [PREMIUM_TOWERS TOTAL_TOWERS].
    replace (int_or (Some (7 * t)%Z) 0) with (7 * t)%Z
      by (unfold int_or; destruct (Z.eqb_spec (7 * t) 0); [lia | reflexivity]).
    replace (Z.max (int_or (Some t) 1) 1) with t
      by (unfold int_or; destruct (Z.eqb_spec t 0); lia).
    destruct (int_truediv_seven t Ht) as [r [-> Hr]]. cbn [obind].
    destruct (seven_times_hundred r Hr) as [a [-> Ha]].
    exists a. split; [reflexivity | exact Ha]. }
  assert (Htext : premium_performance net = Ret "700%").
  { unfold premium_performance. destruct Hvalue as [a [-> Ha]]. cbn [obind].
    rewrite (format_seven_hundred a Ha). reflexivity. }
  split; [exact Hvalue|]. split; [exact Htext|].
  destruct (network_uptime_total net) as [u Hu].
  destruct (customer_satisfaction_total cust) as [s Hs].
  destruct (rate_text_total net) as [text Htext'].
  eexists. split; [|split].
  - unfold derive_exec_kpis. rewrite Hu, Hs, Htext. reflexivity.
  - reflexivity.
  - unfold executive_summary_content.
    destruct (py_mul (float_or (AVG_SUCCESS_RATE net) 0) (PInt 100)) as [v | |];
      cbn [obind] in *; try discriminate.
    rewrite Htext'. cbn [obind].
    change (kpi_value _ "Premium Performance") with (@Ret string "700%").
    change (kpi_value _ "Customer Satisfaction") with (@Ret string s).
    cbn [obind].
    exists (summary_text_0 ++ text ++ summary_text_1
              ++ format_thousands (int_or (TOTAL_TOWERS net) 0) ++ summary_text_2),
           ("
        • Customer satisfaction trending at " ++ s ++ summary_text_4).
    f_equal. rewrite !append_assoc. reflexivity.
Qed.

Lemma premium_performance_counts_rows_witness :
  let cust := CustomerRow (Some 10%Z) (Some (literal (25 # 100))) None None None in
  let net := NetworkRow (Some 1000%Z) (Some (literal (95 # 100))) (Some 3%Z) None None
                        (Some (7 * 1000)%Z) in
  (exists a, premium_performance_value net = Ret (Fin false a) /\ (a == 700)%Q)
  /\ premium_performance net = Ret "700%"
  /\ exists k,
       derive_exec_kpis net cust = Ret k
       /\ kpi_value k "Premium Performance" = Ret "700%"
       /\ exists before after,
            executive_summary_content net k
            = Ret (before ++ "700% of network infrastructure" ++ after).
Proof.
  apply (premium_performance_counts_rows 1000
           (CustomerRow (Some 10%Z) (Some (literal (25 # 100))) None None None)
           (Some (literal (95 # 100))) None None (Some 3%Z)).
  - lia.
  - reflexivity.
Defined.

(** ** Empty collections *)




